(** * A shallow embedding of the terminal file manager (src/main.py)

    The [FileManager] class of main.py is embedded as a record of its
    fields together with one Rocq function per method.  The filesystem, the
    keyboard and the terminal size are the environment of the program: the
    filesystem is an abstract interface ([FileSystem]) whose operations
    return either a value or the exception the Python call raises, keys are
    the integers that [getch] returns, and the terminal height is an
    argument of the methods that read it.

    Python integers are [Z]; strings are [string], read as sequences of
    code points below 256; the index sets ([set] of [int]) are [gset Z];
    the two-slot lists [panel_*] are pairs indexed by [panel_idx].

    The lists and sets held by the object are never mutated while shared:
    [self.files] is rebound to a fresh list before [extend], the
    [selected_files] sets are always [copy()]-ed on transfer between the
    working fields and the panel slots, so value semantics is faithful.

    Not embedded: drawing (curses output), [message_time] (the wall clock
    that expires a message after three seconds), the preview and the help
    screen. *)

From Stdlib Require Import ZArith String Ascii List Sorted Permutation DecimalString Lia.
From stdpp Require Import gmap strings list sorting.

Open Scope Z_scope.

(** ** Strings as Python uses them *)

Module PyStr.

(** [str.lower()] on one code point below 256: the ASCII capitals and the
    Latin-1 capitals (U+00C0..U+00DE without the multiplication sign) gain
    32; every other code point is left as it is. *)
Definition lower_char (c : ascii) : ascii :=
  let n := nat_of_ascii c in
  if ((65 <=? n) && (n <=? 90))%nat then ascii_of_nat (n + 32)
  else if ((192 <=? n) && (n <=? 222) && negb (n =? 215))%nat
       then ascii_of_nat (n + 32)
  else c.

Fixpoint lower (s : string) : string :=
  match s with
  | EmptyString => EmptyString
  | String c s' => String (lower_char c) (lower s')
  end.

(** [s.startswith(p)] *)
Definition startswith (s p : string) : bool := String.prefix p s.

(** [s.endswith(p)] *)
Definition endswith (s p : string) : bool :=
  let n := String.length s in
  let m := String.length p in
  (m <=? n)%nat && String.eqb (String.substring (n - m) m s) p.

(** [p in s] for strings: [p] occurs in [s] as a contiguous substring. *)
Fixpoint contains (p s : string) : bool :=
  String.prefix p s ||
  match s with
  | EmptyString => false
  | String _ s' => contains p s'
  end.

(** [str.isspace()] on one code point below 256. *)
Definition is_space (c : ascii) : bool :=
  let n := nat_of_ascii c in
  (((9 <=? n) && (n <=? 13)) || ((28 <=? n) && (n <=? 32))
   || (n =? 133) || (n =? 160))%nat.

Fixpoint lstrip (s : string) : string :=
  match s with
  | EmptyString => EmptyString
  | String c s' => if is_space c then lstrip s' else s
  end.

(** drops trailing white space; the result is empty when [s] is blank *)
Fixpoint rstrip (s : string) : string :=
  match s with
  | EmptyString => EmptyString
  | String c s' =>
      match rstrip s' with
      | EmptyString => if is_space c then EmptyString else String c EmptyString
      | r => String c r
      end
  end.

(** [s.strip()] *)
Definition strip (s : string) : string := rstrip (lstrip s).

(** truthiness of a string: non-empty *)
Definition truthy (s : string) : bool :=
  match s with EmptyString => false | _ => true end.

(** [s[:n]] and [s[n:]] for [0 <= n] *)
Fixpoint take (n : nat) (s : string) : string :=
  match n, s with
  | S n', String c s' => String c (take n' s')
  | _, _ => EmptyString
  end.

Fixpoint drop (n : nat) (s : string) : string :=
  match n, s with
  | S n', String _ s' => drop n' s'
  | _, _ => s
  end.

(** [s[:n]] and [s[n:]] for any integer [n]: a negative bound counts
    from the end and is clamped at the start of the string *)
Definition slice_to (s : string) (n : Z) : string :=
  if 0 <=? n then take (Z.to_nat n) s
  else take (Z.to_nat (Z.max 0 (Z.of_nat (String.length s) + n))) s.

Definition slice_from (s : string) (n : Z) : string :=
  if 0 <=? n then drop (Z.to_nat n) s
  else drop (Z.to_nat (Z.max 0 (Z.of_nat (String.length s) + n))) s.

(** [str(n)] for a natural number *)
Definition of_nat (n : nat) : string := NilZero.string_of_uint (Nat.to_uint n).

(** [sep.join(l)] *)
Definition join (sep : string) (l : list string) : string := String.concat sep l.

(** [chr(k)] for [0 <= k < 256] *)
Definition chr (k : Z) : ascii := ascii_of_nat (Z.to_nat k).

Definition chars (s : string) : list ascii := list_ascii_of_string s.

End PyStr.

(** [len(l)] as a Python integer *)
Definition len {A} (l : list A) : Z := Z.of_nat (length l).

(** [l[i]]: a negative index counts from the end; [None] stands for
    [IndexError]. *)
Definition py_index {A} (l : list A) (i : Z) : option A :=
  if 0 <=? i then l !! Z.to_nat i
  else if - len l <=? i then l !! Z.to_nat (len l + i)
  else None.

(** ** Paths

    An absolute [pathlib.Path] is the list of its components below the
    root; [Path('/')] is the empty list. *)

Definition Path := list string.

Definition root : Path := [].

(** [p / name], for a [name] without separator *)
Definition path_join (p : Path) (name : string) : Path := p ++ [name].

(** [p.parent]; the root is its own parent *)
Definition path_parent (p : Path) : Path := removelast p.

(** [p.name]; empty for the root *)
Definition path_name (p : Path) : string := List.last p EmptyString.

(** ** Exceptions and results *)

(** The handlers of main.py tell [PermissionError] from every other
    exception; [exn_msg] is [str(e)]. *)
Inductive exn :=
| PermissionError (msg : string)
| OtherException (msg : string).

Definition exn_msg (e : exn) : string :=
  match e with PermissionError m | OtherException m => m end.

Definition IndexError : exn := OtherException "list index out of range".

Inductive result (A : Type) :=
| Ok (a : A)
| Raise (e : exn).
Arguments Ok {A} a.
Arguments Raise {A} e.

#[global] Instance result_ret : MRet result := fun _ a => Ok a.
#[global] Instance result_bind : MBind result := fun _ _ k r =>
  match r with Ok a => k a | Raise e => Raise e end.

(** [l[i]] inside a computation that can raise *)
Definition index_or_raise {A} (l : list A) (i : Z) : result A :=
  match py_index l i with Some a => Ok a | None => Raise IndexError end.

(** ** Directory entries *)

(** The tuple [(name, is_dir, st_size, st_mode, st_mtime)] of a listing.
    [st_mtime] is only carried along (no arithmetic is done on it). *)
Record Entry := mkEntry {
  e_name : string;
  e_is_dir : bool;
  e_size : Z;
  e_mode : Z;
  e_mtime : Z
}.

(** What [iterdir] yields for one child: its name, what [entry.is_dir()]
    does, and the answer of [entry.stat()] ([None] when it raises
    [OSError]).  [is_dir()] returns [False] for a child that is missing or
    a broken link, and raises every other [OSError] of the underlying
    [stat], a [PermissionError] among them. *)
Record RawEntry := mkRaw {
  raw_name : string;
  raw_is_dir : result bool;
  raw_stat : option (Z * Z * Z)
}.

(** ** The filesystem, as main.py calls it

    Every operation takes the filesystem state; a mutating one returns the
    new state and the exception it raised, if any. *)
Class FileSystem (FS : Type) := {
  (** [path.iterdir()], run to its end *)
  iterdir : FS → Path → result (list RawEntry);
  (** [path.exists()] *)
  path_exists : FS → Path → bool;
  (** [path.is_dir()] *)
  path_is_dir : FS → Path → bool;
  (** [shutil.copytree(src, dst)] *)
  shutil_copytree : Path → Path → FS → FS * option exn;
  (** [shutil.copy2(src, dst)] *)
  shutil_copy2 : Path → Path → FS → FS * option exn;
  (** [shutil.move(src, dst)] *)
  shutil_move : Path → Path → FS → FS * option exn;
  (** [shutil.rmtree(path)] *)
  shutil_rmtree : Path → FS → FS * option exn;
  (** [path.unlink()] *)
  path_unlink : Path → FS → FS * option exn;
  (** [subprocess.run(['xdg-open', path], check=False)]: the exception
      raised when the launcher cannot be started *)
  xdg_open : FS → Path → option exn
}.

(** ** Listing a directory *)

(** The [try] of the loop over [path.iterdir()] with its handler
    [except (OSError, PermissionError)]: the tuple of one child.  The
    handler calls [entry.is_dir()] again, so an exception of [is_dir()] is
    raised a second time there, outside every [try] of the loop body, and
    leaves the loop. *)
Definition scan_entry (r : RawEntry) : result Entry :=
  let handler :=
    is_dir ← raw_is_dir r;
    Ok (mkEntry (raw_name r) is_dir 0 0 0) in
  match raw_stat r with
  | Some (size, mode, mtime) =>
      match raw_is_dir r with
      | Ok is_dir => Ok (mkEntry (raw_name r) is_dir size mode mtime)
      | Raise _ => handler
      end
  | None => handler
  end.

(** [not self.show_hidden and entry.name.startswith('.')] *)
Definition hidden_skipped (show_hidden : bool) (r : RawEntry) : bool :=
  negb show_hidden && PyStr.startswith (raw_name r) ".".

(** The loop [for entry in path.iterdir()]: the tuples appended to
    [entries], in the order of [iterdir], and the exception that left the
    loop, if one did; the children after it are not looked at. *)
Fixpoint scan_loop (show_hidden : bool) (raws : list RawEntry)
    : list Entry * option exn :=
  match raws with
  | [] => ([], None)
  | r :: raws =>
      if hidden_skipped show_hidden r then scan_loop show_hidden raws
      else
        match scan_entry r with
        | Ok entry =>
            let '(entries, raised) := scan_loop show_hidden raws in
            (entry :: entries, raised)
        | Raise e => ([], Some e)
        end
  end.

(** [entries] when the loop is over or left *)
Definition scan_entries (show_hidden : bool) (raws : list RawEntry) : list Entry :=
  (scan_loop show_hidden raws).1.

(** the exception that left the loop *)
Definition scan_raised (show_hidden : bool) (raws : list RawEntry) : option exn :=
  (scan_loop show_hidden raws).2.

(** The sort key [lambda x: (not x[1], x[0].lower())]. *)
Definition sort_key (e : Entry) : bool * string :=
  (negb (e_is_dir e), PyStr.lower (e_name e)).

(** [k1 <= k2] on such tuples: first components first ([False < True]),
    then the strings, code point by code point. *)
Definition key_leb (k1 k2 : bool * string) : bool :=
  match k1.1, k2.1 with
  | false, true => true
  | true, false => false
  | _, _ => String.leb k1.2 k2.2
  end.

Definition entry_leb (a b : Entry) : bool := key_leb (sort_key a) (sort_key b).

(** [entries.sort(key=...)].  Python's sort is stable, and a stable sort is
    determined by its input and key; it is written here as the stable
    insertion sort. *)
Fixpoint sort_insert (x : Entry) (l : list Entry) : list Entry :=
  match l with
  | [] => [x]
  | y :: l' => if entry_leb x y then x :: l else y :: sort_insert x l'
  end.

Definition sort_entries (l : list Entry) : list Entry :=
  foldr sort_insert [] l.

(** ** The state of the file manager *)

Inductive ClipAction := Copy | Cut.

(** [self.clipboard_action == a] *)
Definition action_is (a : ClipAction) (o : option ClipAction) : bool :=
  match a, o with
  | Copy, Some Copy | Cut, Some Cut => true
  | _, _ => false
  end.

(** The panel index: [0] is the left panel, [1] the right one. *)
Inductive panel_idx := PLeft | PRight.

(** [1 - i] *)
Definition other_panel (i : panel_idx) : panel_idx :=
  match i with PLeft => PRight | PRight => PLeft end.

(** [slots[i]] and [slots[i] = v] on a two-slot list *)
Definition pget {A} (i : panel_idx) (p : A * A) : A :=
  match i with PLeft => p.1 | PRight => p.2 end.

Definition pset {A} (i : panel_idx) (v : A) (p : A * A) : A * A :=
  match i with PLeft => (v, p.2) | PRight => (p.1, v) end.

(** The fields of [FileManager.__init__], under their own names. *)
Record FileManager := mkFM {
  current_path : Path;
  selected_index : Z;
  scroll_offset : Z;
  files : list Entry;
  show_hidden : bool;
  clipboard : option (list Path);
  clipboard_action : option ClipAction;
  message : string;
  selected_files : gset Z;
  dual_panel_mode : bool;
  active_panel : panel_idx;
  panel_paths : Path * Path;
  panel_selected_index : Z * Z;
  panel_scroll_offset : Z * Z;
  panel_files : list Entry * list Entry;
  panel_selected_files : gset Z * gset Z;
  search_mode : bool;
  search_query : string;
  filter_mode : bool;
  filter_extension : string;
  original_files : list Entry
}.

Definition set_current_path (v : Path) (s : FileManager) : FileManager :=
  mkFM v (selected_index s) (scroll_offset s) (files s) (show_hidden s)
    (clipboard s) (clipboard_action s) (message s) (selected_files s)
    (dual_panel_mode s) (active_panel s) (panel_paths s)
    (panel_selected_index s) (panel_scroll_offset s) (panel_files s)
    (panel_selected_files s) (search_mode s) (search_query s) (filter_mode s)
    (filter_extension s) (original_files s).

Definition set_selected_index (v : Z) (s : FileManager) : FileManager :=
  mkFM (current_path s) v (scroll_offset s) (files s) (show_hidden s)
    (clipboard s) (clipboard_action s) (message s) (selected_files s)
    (dual_panel_mode s) (active_panel s) (panel_paths s)
    (panel_selected_index s) (panel_scroll_offset s) (panel_files s)
    (panel_selected_files s) (search_mode s) (search_query s) (filter_mode s)
    (filter_extension s) (original_files s).

Definition set_scroll_offset (v : Z) (s : FileManager) : FileManager :=
  mkFM (current_path s) (selected_index s) v (files s) (show_hidden s)
    (clipboard s) (clipboard_action s) (message s) (selected_files s)
    (dual_panel_mode s) (active_panel s) (panel_paths s)
    (panel_selected_index s) (panel_scroll_offset s) (panel_files s)
    (panel_selected_files s) (search_mode s) (search_query s) (filter_mode s)
    (filter_extension s) (original_files s).

Definition set_files (v : list Entry) (s : FileManager) : FileManager :=
  mkFM (current_path s) (selected_index s) (scroll_offset s) v (show_hidden s)
    (clipboard s) (clipboard_action s) (message s) (selected_files s)
    (dual_panel_mode s) (active_panel s) (panel_paths s)
    (panel_selected_index s) (panel_scroll_offset s) (panel_files s)
    (panel_selected_files s) (search_mode s) (search_query s) (filter_mode s)
    (filter_extension s) (original_files s).

Definition set_show_hidden (v : bool) (s : FileManager) : FileManager :=
  mkFM (current_path s) (selected_index s) (scroll_offset s) (files s) v
    (clipboard s) (clipboard_action s) (message s) (selected_files s)
    (dual_panel_mode s) (active_panel s) (panel_paths s)
    (panel_selected_index s) (panel_scroll_offset s) (panel_files s)
    (panel_selected_files s) (search_mode s) (search_query s) (filter_mode s)
    (filter_extension s) (original_files s).

Definition set_clipboard (v : option (list Path)) (s : FileManager) : FileManager :=
  mkFM (current_path s) (selected_index s) (scroll_offset s) (files s)
    (show_hidden s) v (clipboard_action s) (message s) (selected_files s)
    (dual_panel_mode s) (active_panel s) (panel_paths s)
    (panel_selected_index s) (panel_scroll_offset s) (panel_files s)
    (panel_selected_files s) (search_mode s) (search_query s) (filter_mode s)
    (filter_extension s) (original_files s).

Definition set_clipboard_action (v : option ClipAction) (s : FileManager) : FileManager :=
  mkFM (current_path s) (selected_index s) (scroll_offset s) (files s)
    (show_hidden s) (clipboard s) v (message s) (selected_files s)
    (dual_panel_mode s) (active_panel s) (panel_paths s)
    (panel_selected_index s) (panel_scroll_offset s) (panel_files s)
    (panel_selected_files s) (search_mode s) (search_query s) (filter_mode s)
    (filter_extension s) (original_files s).

Definition set_message (v : string) (s : FileManager) : FileManager :=
  mkFM (current_path s) (selected_index s) (scroll_offset s) (files s)
    (show_hidden s) (clipboard s) (clipboard_action s) v (selected_files s)
    (dual_panel_mode s) (active_panel s) (panel_paths s)
    (panel_selected_index s) (panel_scroll_offset s) (panel_files s)
    (panel_selected_files s) (search_mode s) (search_query s) (filter_mode s)
    (filter_extension s) (original_files s).

Definition set_selected_files (v : gset Z) (s : FileManager) : FileManager :=
  mkFM (current_path s) (selected_index s) (scroll_offset s) (files s)
    (show_hidden s) (clipboard s) (clipboard_action s) (message s) v
    (dual_panel_mode s) (active_panel s) (panel_paths s)
    (panel_selected_index s) (panel_scroll_offset s) (panel_files s)
    (panel_selected_files s) (search_mode s) (search_query s) (filter_mode s)
    (filter_extension s) (original_files s).

Definition set_dual_panel_mode (v : bool) (s : FileManager) : FileManager :=
  mkFM (current_path s) (selected_index s) (scroll_offset s) (files s)
    (show_hidden s) (clipboard s) (clipboard_action s) (message s)
    (selected_files s) v (active_panel s) (panel_paths s)
    (panel_selected_index s) (panel_scroll_offset s) (panel_files s)
    (panel_selected_files s) (search_mode s) (search_query s) (filter_mode s)
    (filter_extension s) (original_files s).

Definition set_active_panel (v : panel_idx) (s : FileManager) : FileManager :=
  mkFM (current_path s) (selected_index s) (scroll_offset s) (files s)
    (show_hidden s) (clipboard s) (clipboard_action s) (message s)
    (selected_files s) (dual_panel_mode s) v (panel_paths s)
    (panel_selected_index s) (panel_scroll_offset s) (panel_files s)
    (panel_selected_files s) (search_mode s) (search_query s) (filter_mode s)
    (filter_extension s) (original_files s).

Definition set_panel_paths (v : Path * Path) (s : FileManager) : FileManager :=
  mkFM (current_path s) (selected_index s) (scroll_offset s) (files s)
    (show_hidden s) (clipboard s) (clipboard_action s) (message s)
    (selected_files s) (dual_panel_mode s) (active_panel s) v
    (panel_selected_index s) (panel_scroll_offset s) (panel_files s)
    (panel_selected_files s) (search_mode s) (search_query s) (filter_mode s)
    (filter_extension s) (original_files s).

Definition set_panel_selected_index (v : Z * Z) (s : FileManager) : FileManager :=
  mkFM (current_path s) (selected_index s) (scroll_offset s) (files s)
    (show_hidden s) (clipboard s) (clipboard_action s) (message s)
    (selected_files s) (dual_panel_mode s) (active_panel s) (panel_paths s) v
    (panel_scroll_offset s) (panel_files s) (panel_selected_files s)
    (search_mode s) (search_query s) (filter_mode s) (filter_extension s)
    (original_files s).

Definition set_panel_scroll_offset (v : Z * Z) (s : FileManager) : FileManager :=
  mkFM (current_path s) (selected_index s) (scroll_offset s) (files s)
    (show_hidden s) (clipboard s) (clipboard_action s) (message s)
    (selected_files s) (dual_panel_mode s) (active_panel s) (panel_paths s)
    (panel_selected_index s) v (panel_files s) (panel_selected_files s)
    (search_mode s) (search_query s) (filter_mode s) (filter_extension s)
    (original_files s).

Definition set_panel_files (v : list Entry * list Entry) (s : FileManager) : FileManager :=
  mkFM (current_path s) (selected_index s) (scroll_offset s) (files s)
    (show_hidden s) (clipboard s) (clipboard_action s) (message s)
    (selected_files s) (dual_panel_mode s) (active_panel s) (panel_paths s)
    (panel_selected_index s) (panel_scroll_offset s) v
    (panel_selected_files s) (search_mode s) (search_query s) (filter_mode s)
    (filter_extension s) (original_files s).

Definition set_panel_selected_files (v : gset Z * gset Z) (s : FileManager) : FileManager :=
  mkFM (current_path s) (selected_index s) (scroll_offset s) (files s)
    (show_hidden s) (clipboard s) (clipboard_action s) (message s)
    (selected_files s) (dual_panel_mode s) (active_panel s) (panel_paths s)
    (panel_selected_index s) (panel_scroll_offset s) (panel_files s) v
    (search_mode s) (search_query s) (filter_mode s) (filter_extension s)
    (original_files s).

Definition set_search_mode (v : bool) (s : FileManager) : FileManager :=
  mkFM (current_path s) (selected_index s) (scroll_offset s) (files s)
    (show_hidden s) (clipboard s) (clipboard_action s) (message s)
    (selected_files s) (dual_panel_mode s) (active_panel s) (panel_paths s)
    (panel_selected_index s) (panel_scroll_offset s) (panel_files s)
    (panel_selected_files s) v (search_query s) (filter_mode s)
    (filter_extension s) (original_files s).

Definition set_search_query (v : string) (s : FileManager) : FileManager :=
  mkFM (current_path s) (selected_index s) (scroll_offset s) (files s)
    (show_hidden s) (clipboard s) (clipboard_action s) (message s)
    (selected_files s) (dual_panel_mode s) (active_panel s) (panel_paths s)
    (panel_selected_index s) (panel_scroll_offset s) (panel_files s)
    (panel_selected_files s) (search_mode s) v (filter_mode s)
    (filter_extension s) (original_files s).

Definition set_filter_mode (v : bool) (s : FileManager) : FileManager :=
  mkFM (current_path s) (selected_index s) (scroll_offset s) (files s)
    (show_hidden s) (clipboard s) (clipboard_action s) (message s)
    (selected_files s) (dual_panel_mode s) (active_panel s) (panel_paths s)
    (panel_selected_index s) (panel_scroll_offset s) (panel_files s)
    (panel_selected_files s) (search_mode s) (search_query s) v
    (filter_extension s) (original_files s).

Definition set_filter_extension (v : string) (s : FileManager) : FileManager :=
  mkFM (current_path s) (selected_index s) (scroll_offset s) (files s)
    (show_hidden s) (clipboard s) (clipboard_action s) (message s)
    (selected_files s) (dual_panel_mode s) (active_panel s) (panel_paths s)
    (panel_selected_index s) (panel_scroll_offset s) (panel_files s)
    (panel_selected_files s) (search_mode s) (search_query s) (filter_mode s)
    v (original_files s).

Definition set_original_files (v : list Entry) (s : FileManager) : FileManager :=
  mkFM (current_path s) (selected_index s) (scroll_offset s) (files s)
    (show_hidden s) (clipboard s) (clipboard_action s) (message s)
    (selected_files s) (dual_panel_mode s) (active_panel s) (panel_paths s)
    (panel_selected_index s) (panel_scroll_offset s) (panel_files s)
    (panel_selected_files s) (search_mode s) (search_query s) (filter_mode s)
    (filter_extension s) v.


(** Truthiness of a list and of a set: non-empty. *)
Definition list_truthy {A} (l : list A) : bool :=
  match l with [] => false | _ => true end.

Definition set_truthy (X : gset Z) : bool := list_truthy (elements X).

(** ** The methods of [FileManager] *)

Section Methods.
Context {FS : Type} `{FileSystem FS}.

Definition show_message (msg : string) (s : FileManager) : FileManager :=
  set_message msg s.

Definition sync_to_panels (s : FileManager) : FileManager :=
  let i := active_panel s in
  let s := set_panel_paths (pset i (current_path s) (panel_paths s)) s in
  let s := set_panel_selected_index
             (pset i (selected_index s) (panel_selected_index s)) s in
  let s := set_panel_scroll_offset
             (pset i (scroll_offset s) (panel_scroll_offset s)) s in
  set_panel_selected_files
    (pset i (selected_files s) (panel_selected_files s)) s.

Definition sync_from_panels (s : FileManager) : FileManager :=
  let i := active_panel s in
  let s := set_current_path (pget i (panel_paths s)) s in
  let s := set_selected_index (pget i (panel_selected_index s)) s in
  let s := set_scroll_offset (pget i (panel_scroll_offset s)) s in
  let s := set_selected_files (pget i (panel_selected_files s)) s in
  if dual_panel_mode s then set_files (pget i (panel_files s)) s else s.

Definition switch_panel (s : FileManager) : FileManager :=
  if dual_panel_mode s then
    let s := sync_to_panels s in
    let s := set_active_panel (other_panel (active_panel s)) s in
    let i := active_panel s in
    let s := set_current_path (pget i (panel_paths s)) s in
    let s := set_selected_index (pget i (panel_selected_index s)) s in
    let s := set_scroll_offset (pget i (panel_scroll_offset s)) s in
    let s := set_selected_files (pget i (panel_selected_files s)) s in
    set_files (pget i (panel_files s)) s
  else s.

(** The listing both refresh methods build: hidden names skipped, one
    tuple per child scanned, sorted. *)
Definition sorted_listing (show_hidden : bool) (raws : list RawEntry) : list Entry :=
  sort_entries (scan_entries show_hidden raws).

(** The part of [refresh_panel_files] after the [iterdir] loop. *)
Definition store_panel_listing (panel_idx : panel_idx) (files : list Entry)
    (s : FileManager) : FileManager :=
  let s := set_panel_files (pset panel_idx files (panel_files s)) s in
  let s :=
    if len files <=? pget panel_idx (panel_selected_index s)
    then set_panel_selected_index
           (pset panel_idx (Z.max 0 (len files - 1)) (panel_selected_index s)) s
    else s in
  set_panel_selected_files (pset panel_idx ∅ (panel_selected_files s)) s.

Definition refresh_panel_files (fs : FS) (panel_idx : panel_idx)
    (s : FileManager) : FileManager :=
  match iterdir fs (pget panel_idx (panel_paths s)) with
  | Ok raws =>
      match scan_raised (show_hidden s) raws with
      | None =>
          store_panel_listing panel_idx (sorted_listing (show_hidden s) raws) s
      | Some (PermissionError _) =>
          (* [pass]: the method goes on with the entries scanned so far *)
          store_panel_listing panel_idx (sorted_listing (show_hidden s) raws) s
      | Some (OtherException _) =>
          (* the outer [except Exception] *)
          set_panel_files (pset panel_idx [] (panel_files s)) s
      end
  | Raise (PermissionError _) =>
      (* [pass]: the listing stays empty and the method goes on *)
      store_panel_listing panel_idx (sorted_listing (show_hidden s) []) s
  | Raise (OtherException _) =>
      (* the outer [except Exception] *)
      set_panel_files (pset panel_idx [] (panel_files s)) s
  end.

Definition refresh_files (fs : FS) (s : FileManager) : FileManager :=
  if dual_panel_mode s then
    let s := refresh_panel_files fs PLeft s in
    let s := refresh_panel_files fs PRight s in
    set_files (pget (active_panel s) (panel_files s)) s
  else
    let s := set_files [] s in
    match iterdir fs (current_path s) with
    | Raise (PermissionError _) =>
        (* [show_message(...); return] *)
        show_message "Permission denied" s
    | Raise (OtherException msg) =>
        show_message ("Error reading directory: " +:+ msg) s
    | Ok raws =>
        match scan_raised (show_hidden s) raws with
        | Some (PermissionError _) => show_message "Permission denied" s
        | Some (OtherException msg) =>
            show_message ("Error reading directory: " +:+ msg) s
        | None =>
            let s := set_files (files s ++ sorted_listing (show_hidden s) raws) s in
            let s :=
              if len (files s) <=? selected_index s
              then set_selected_index (Z.max 0 (len (files s) - 1)) s
              else s in
            let s := set_selected_files ∅ s in
            if search_mode s || filter_mode s then
              let s := set_original_files [] s in
              let s := set_search_mode false s in
              let s := set_filter_mode false s in
              let s := set_search_query "" s in
              set_filter_extension "" s
            else s
        end
    end.

Definition toggle_dual_panel (fs : FS) (s : FileManager) : FileManager :=
  let s :=
    if negb (dual_panel_mode s) then
      let s := set_dual_panel_mode true s in
      let s := sync_to_panels s in
      let other_panel := other_panel (active_panel s) in
      let s := set_panel_paths
                 (pset other_panel (current_path s) (panel_paths s)) s in
      let s := set_panel_selected_index
                 (pset other_panel 0 (panel_selected_index s)) s in
      let s := set_panel_scroll_offset
                 (pset other_panel 0 (panel_scroll_offset s)) s in
      let s := set_panel_selected_files
                 (pset other_panel ∅ (panel_selected_files s)) s in
      let s := refresh_panel_files fs PLeft s in
      let s := refresh_panel_files fs PRight s in
      let s := set_files (pget (active_panel s) (panel_files s)) s in
      show_message "Dual panel mode ON - TAB to switch panels" s
    else
      let s := set_dual_panel_mode false s in
      let s := sync_from_panels s in
      show_message "Single panel mode" s in
  if negb (dual_panel_mode s) then refresh_files fs s else s.

(** [height] is the first component of [stdscr.getmaxyx()]. *)
Definition adjust_scroll (height : Z) (s : FileManager) : FileManager :=
  let visible_height := height - 3 in
  let s :=
    if selected_index s <? scroll_offset s
    then set_scroll_offset (selected_index s) s
    else if scroll_offset s + visible_height <=? selected_index s
    then set_scroll_offset (selected_index s - visible_height + 1) s
    else s in
  if dual_panel_mode s
  then set_panel_scroll_offset
         (pset (active_panel s) (scroll_offset s) (panel_scroll_offset s)) s
  else s.

Definition navigate_up (height : Z) (s : FileManager) : FileManager :=
  if 0 <? selected_index s then
    let s := set_selected_index (selected_index s - 1) s in
    let s :=
      if dual_panel_mode s
      then set_panel_selected_index
             (pset (active_panel s) (selected_index s) (panel_selected_index s)) s
      else s in
    adjust_scroll height s
  else s.

Definition navigate_down (height : Z) (s : FileManager) : FileManager :=
  if selected_index s <? len (files s) - 1 then
    let s := set_selected_index (selected_index s + 1) s in
    let s :=
      if dual_panel_mode s
      then set_panel_selected_index
             (pset (active_panel s) (selected_index s) (panel_selected_index s)) s
      else s in
    adjust_scroll height s
  else s.

(** The three assignments [panel_paths[active] = current_path],
    [panel_selected_index[active] = 0], [panel_scroll_offset[active] = 0]. *)
Definition reset_active_slot (s : FileManager) : FileManager :=
  let i := active_panel s in
  let s := set_panel_paths (pset i (current_path s) (panel_paths s)) s in
  let s := set_panel_selected_index (pset i 0 (panel_selected_index s)) s in
  set_panel_scroll_offset (pset i 0 (panel_scroll_offset s)) s.

Definition navigate_left (fs : FS) (s : FileManager) : FileManager :=
  let s := if dual_panel_mode s then sync_to_panels s else s in
  let s :=
    if bool_decide (current_path s ≠ root) then
      let s := set_current_path (path_parent (current_path s)) s in
      let s := set_selected_index 0 s in
      set_scroll_offset 0 s
    else s in
  let s := if dual_panel_mode s then reset_active_slot s else s in
  refresh_files fs s.

Definition open_file (fs : FS) (s : FileManager) : result FileManager :=
  if negb (list_truthy (files s)) || (len (files s) <=? selected_index s)
  then Ok s
  else
    selected_file ← index_or_raise (files s) (selected_index s);
    let filename := e_name selected_file in
    if e_is_dir selected_file then Ok s
    else
      match xdg_open fs (path_join (current_path s) filename) with
      | None => Ok (show_message ("Opening " +:+ filename +:+ "...") s)
      | Some e => Ok (show_message ("Error opening file: " +:+ exn_msg e) s)
      end.

Definition navigate_right (fs : FS) (s : FileManager) : result FileManager :=
  if negb (list_truthy (files s)) then Ok s
  else
    let s := if dual_panel_mode s then sync_to_panels s else s in
    selected_file ← index_or_raise (files s) (selected_index s);
    let filename := e_name selected_file in
    if e_is_dir selected_file then
      let new_path := path_join (current_path s) filename in
      match iterdir fs new_path with
      | Ok _ =>
          let s := set_current_path new_path s in
          let s := set_selected_index 0 s in
          let s := set_scroll_offset 0 s in
          let s := if dual_panel_mode s then reset_active_slot s else s in
          Ok (refresh_files fs s)
      | Raise (PermissionError _) => Ok (show_message "Permission denied" s)
      | Raise e => Raise e
      end
    else open_file fs s.

Definition enter_directory (fs : FS) (s : FileManager) : result FileManager :=
  if negb (list_truthy (files s)) then Ok s
  else
    selected_file ← index_or_raise (files s) (selected_index s);
    if e_is_dir selected_file then navigate_right fs s else open_file fs s.

(** *** Multi-selection *)

Definition toggle_selection (s : FileManager) : result FileManager :=
  if negb (list_truthy (files s)) || (len (files s) <=? selected_index s)
  then Ok s
  else if bool_decide (selected_index s ∈ selected_files s) then
    let s := set_selected_files (selected_files s ∖ {[selected_index s]}) s in
    selected_file ← index_or_raise (files s) (selected_index s);
    Ok (show_message ("Deselected: " +:+ e_name selected_file) s)
  else
    let s := set_selected_files ({[selected_index s]} ∪ selected_files s) s in
    selected_file ← index_or_raise (files s) (selected_index s);
    Ok (show_message ("Selected: " +:+ e_name selected_file) s).

Definition clear_selection (s : FileManager) : FileManager :=
  let count := size (selected_files s) in
  let s := set_selected_files ∅ s in
  if (0 <? count)%nat
  then show_message ("Cleared " +:+ PyStr.of_nat count +:+ " selections") s
  else show_message "No files selected" s.

(** One turn of the [for i, file_info in enumerate(self.files)] loop. *)
Definition select_all_step (acc : gset Z * nat) (i : Z) : gset Z * nat :=
  if bool_decide (i ∈ acc.1) then acc else ({[i]} ∪ acc.1, S acc.2).

Definition select_all (s : FileManager) : FileManager :=
  let '(selected, count) :=
    foldl select_all_step (selected_files s, 0%nat)
          (map Z.of_nat (seq 0 (length (files s)))) in
  let s := set_selected_files selected s in
  if (0 <? count)%nat
  then show_message ("Selected " +:+ PyStr.of_nat count +:+ " additional files") s
  else show_message "All files already selected" s.

Definition toggle_hidden (fs : FS) (s : FileManager) : FileManager :=
  let s := set_show_hidden (negb (show_hidden s)) s in
  let s := refresh_files fs s in
  let status := if show_hidden s then "ON" else "OFF" in
  show_message ("Hidden files: " +:+ status) s.

(** *** Clipboard *)

(** The loop [for idx in self.selected_files: if idx < len(self.files): ...
    self.files[idx] ...], shared by copy, cut and delete; the set is
    visited in the order of [elements]. *)
Fixpoint selected_entries (files : list Entry) (idxs : list Z)
    : result (list (Z * Entry)) :=
  match idxs with
  | [] => Ok []
  | idx :: rest =>
      if idx <? len files then
        e ← index_or_raise files idx;
        r ← selected_entries files rest;
        Ok ((idx, e) :: r)
      else selected_entries files rest
  end.

(** [copy_file] and [cut_file] differ by the action and the verb only. *)
Definition stage_file (action : ClipAction) (verb : string)
    (s : FileManager) : result FileManager :=
  if set_truthy (selected_files s) then
    es ← selected_entries (files s) (elements (selected_files s));
    let paths := map (fun ie => path_join (current_path s) (e_name ie.2)) es in
    let s := set_clipboard (Some paths) s in
    let s := set_clipboard_action (Some action) s in
    Ok (show_message (verb +:+ " " +:+ PyStr.of_nat (length paths)
                        +:+ " file(s) to clipboard") s)
  else if negb (list_truthy (files s)) || (len (files s) <=? selected_index s)
  then Ok s
  else
    selected_file ← index_or_raise (files s) (selected_index s);
    let filename := e_name selected_file in
    let s := set_clipboard (Some [path_join (current_path s) filename]) s in
    let s := set_clipboard_action (Some action) s in
    Ok (show_message (verb +:+ " " +:+ filename) s).

Definition copy_file (s : FileManager) : result FileManager :=
  stage_file Copy "Copied" s.

Definition cut_file (s : FileManager) : result FileManager :=
  stage_file Cut "Cut" s.

(** The body of [for source in sources] with its running
    [pasted_count] and [errors]. *)
Definition paste_one (action : option ClipAction) (current_path : Path)
    (source : Path) (acc : FS * Z * list string) : FS * Z * list string :=
  let '(fs, pasted_count, errors) := acc in
  let dest := path_join current_path (path_name source) in
  if path_exists fs dest
  then (fs, pasted_count, errors ++ [path_name source +:+ " already exists"])
  else
    let '(fs', raised) :=
      match action with
      | Some Copy =>
          if path_is_dir fs source
          then shutil_copytree source dest fs
          else shutil_copy2 source dest fs
      | Some Cut => shutil_move source dest fs
      | None => (fs, None)
      end in
    match raised with
    | None => (fs', pasted_count + 1, errors)
    | Some e => (fs', pasted_count, errors ++ [path_name source +:+ ": " +:+ exn_msg e])
    end.

Definition paste_loop (action : option ClipAction) (current_path : Path)
    (sources : list Path) (acc : FS * Z * list string) : FS * Z * list string :=
  foldl (fun acc source => paste_one action current_path source acc) acc sources.

(** The text of the closing error message: the first [cap] lines joined,
    and an ellipsis when there are more. *)
Definition errors_message (cap : nat) (errors : list string) : string :=
  "Errors: " +:+ PyStr.join "; " (take cap errors)
    +:+ (if (cap <? length errors)%nat then "..." else "").

(** The part of [paste_file] between the loop and the closing refresh. *)
Definition paste_report (pasted_count : Z) (errors : list string)
    (s : FileManager) : FileManager :=
  let s :=
    if action_is Cut (clipboard_action s) && (0 <? pasted_count) then
      let s := set_clipboard None s in
      set_clipboard_action None s
    else s in
  let s :=
    if 0 <? pasted_count then
      let action :=
        if action_is Copy (clipboard_action s) then "Copied" else "Moved" in
      show_message (action +:+ " " +:+ PyStr.of_nat (Z.to_nat pasted_count)
                      +:+ " file(s)") s
    else s in
  if list_truthy errors then show_message (errors_message 3 errors) s else s.

(** [not self.clipboard]: [None] or an empty list *)
Definition clipboard_empty (s : FileManager) : bool :=
  match clipboard s with
  | None => true
  | Some l => negb (list_truthy l)
  end.

Definition paste_file (fs : FS) (s : FileManager) : FS * FileManager :=
  match clipboard s with
  | None => (fs, show_message "Nothing to paste" s)
  | Some [] => (fs, show_message "Nothing to paste" s)
  | Some sources =>
      let '(fs', pasted_count, errors) :=
        paste_loop (clipboard_action s) (current_path s) sources (fs, 0, []) in
      let s := paste_report pasted_count errors s in
      (fs', refresh_files fs' s)
  end.

(** *** Delete *)

Definition is_yes (key : Z) : bool := (key =? 121) || (key =? 89).

(** [files_to_delete]: triples [(idx, filename, filepath)]. *)
Definition delete_targets (s : FileManager) : result (list (Z * string * Path)) :=
  if set_truthy (selected_files s) then
    es ← selected_entries (files s) (elements (selected_files s));
    Ok (map (fun ie => (ie.1, e_name ie.2, path_join (current_path s) (e_name ie.2))) es)
  else if negb (list_truthy (files s)) || (len (files s) <=? selected_index s)
  then Ok []
  else
    selected_file ← index_or_raise (files s) (selected_index s);
    let filename := e_name selected_file in
    Ok [(selected_index s, filename, path_join (current_path s) filename)].

(** [filepath.is_dir() and any(filepath.iterdir())] *)
Definition is_non_empty_dir (fs : FS) (filepath : Path) : result bool :=
  if path_is_dir fs filepath then
    match iterdir fs filepath with
    | Ok children => Ok (list_truthy children)
    | Raise e => Raise e
    end
  else Ok false.

Fixpoint non_empty_dirs (fs : FS) (targets : list (Z * string * Path))
    : result (list string) :=
  match targets with
  | [] => Ok []
  | (_, filename, filepath) :: rest =>
      b ← is_non_empty_dir fs filepath;
      r ← non_empty_dirs fs rest;
      Ok (if b : bool then filename :: r else r)
  end.

Definition delete_one (target : Z * string * Path)
    (acc : FS * Z * list string) : FS * Z * list string :=
  let '(fs, deleted_count, errors) := acc in
  let '(_, filename, filepath) := target in
  let '(fs', raised) :=
    if path_is_dir fs filepath
    then shutil_rmtree filepath fs
    else path_unlink filepath fs in
  match raised with
  | None => (fs', deleted_count + 1, errors)
  | Some (PermissionError _) =>
      (fs', deleted_count, errors ++ [filename +:+ ": Permission denied"])
  | Some (OtherException msg) =>
      (fs', deleted_count, errors ++ [filename +:+ ": " +:+ msg])
  end.

Definition delete_loop (targets : list (Z * string * Path))
    (acc : FS * Z * list string) : FS * Z * list string :=
  foldl (fun acc target => delete_one target acc) acc targets.

(** [key] is the answer to the first prompt; [key2] is the answer to the
    recursive-delete prompt, read only when that prompt is shown. *)
Definition delete_file (key key2 : Z) (fs : FS) (s : FileManager)
    : result (FS * FileManager) :=
  files_to_delete ← delete_targets s;
  if negb (list_truthy files_to_delete) then Ok (fs, s)
  else if is_yes key then
    non_empty ← non_empty_dirs fs files_to_delete;
    if list_truthy non_empty && negb (is_yes key2)
    then Ok (fs, show_message "Delete cancelled" s)
    else
      let '(fs', deleted_count, errors) :=
        delete_loop files_to_delete (fs, 0, []) in
      let s := set_selected_files ∅ s in
      let s :=
        if 0 <? deleted_count
        then show_message ("Deleted " +:+ PyStr.of_nat (Z.to_nat deleted_count)
                             +:+ " file(s)") s
        else s in
      let s :=
        if list_truthy errors then show_message (errors_message 2 errors) s else s in
      let s :=
        if len (files s) <=? selected_index s
        then set_selected_index (Z.max 0 (len (files s) - 1)) s
        else s in
      Ok (fs', refresh_files fs' s)
  else Ok (fs, show_message "Delete cancelled" s).

(** *** Search and filter *)

(** The test of the loop of [apply_search_filter] on one tuple. *)
Definition overlay_keeps (s : FileManager) (file_info : Entry) : bool :=
  let filename := e_name file_info in
  if search_mode s && PyStr.truthy (search_query s)
  then PyStr.contains (search_query s) (PyStr.lower filename)
  else if filter_mode s && PyStr.truthy (filter_extension s)
  then PyStr.endswith (PyStr.lower filename) (filter_extension s)
  else false.

(** The dual-mode tail shared by [apply_search_filter] and
    [clear_search_filter]. *)
Definition store_active_files (s : FileManager) : FileManager :=
  let i := active_panel s in
  let s := set_panel_files (pset i (files s) (panel_files s)) s in
  let s := set_panel_selected_index (pset i 0 (panel_selected_index s)) s in
  let s := set_panel_scroll_offset (pset i 0 (panel_scroll_offset s)) s in
  set_panel_selected_files (pset i ∅ (panel_selected_files s)) s.

Definition apply_search_filter (s : FileManager) : FileManager :=
  let s :=
    if negb (list_truthy (original_files s))
    then set_original_files (files s) s
    else s in
  let filtered_files := List.filter (overlay_keeps s) (original_files s) in
  let s := set_files filtered_files s in
  let s := set_selected_index 0 s in
  let s := set_scroll_offset 0 s in
  let s := set_selected_files ∅ s in
  if dual_panel_mode s then store_active_files s else s.

Definition clear_search_filter (s : FileManager) : FileManager :=
  let s :=
    if list_truthy (original_files s) then
      let s := set_files (original_files s) s in
      set_original_files [] s
    else s in
  let s := set_search_mode false s in
  let s := set_filter_mode false s in
  let s := set_search_query "" s in
  let s := set_filter_extension "" s in
  let s := set_selected_index 0 s in
  let s := set_scroll_offset 0 s in
  let s := set_selected_files ∅ s in
  let s := if dual_panel_mode s then store_active_files s else s in
  show_message "Search/filter cleared" s.

(** *** The modal text input *)

(** The key codes of curses that main.py names. *)
Definition KEY_DOWN : Z := 258.
Definition KEY_UP : Z := 259.
Definition KEY_LEFT : Z := 260.
Definition KEY_RIGHT : Z := 261.
Definition KEY_HOME : Z := 262.
Definition KEY_BACKSPACE : Z := 263.
Definition KEY_F2 : Z := 266.
Definition KEY_F5 : Z := 269.
Definition KEY_ENTER : Z := 343.
Definition KEY_END : Z := 360.

(** The [while True] loop of [get_dialog_input], run on the keys that the
    successive [getch] calls return.  [Some (answer, rest)] is the value
    returned ([None] for Python's [None]) and the keys not yet read; the
    outer [None] means that the dialog is still waiting for a key. *)
Fixpoint dialog_loop (max_length : Z) (input_str : string) (cursor_pos : Z)
    (keys : list Z) : option (option string * list Z) :=
  match keys with
  | [] => None
  | key :: keys =>
      if key =? 27 then Some (None, keys)
      else if (key =? 10) || (key =? 13) || (key =? KEY_ENTER)
      then Some (Some input_str, keys)
      else if (key =? KEY_BACKSPACE) || (key =? 127) || (key =? 8) then
        if 0 <? cursor_pos
        then dialog_loop max_length
               (PyStr.slice_to input_str (cursor_pos - 1)
                  +:+ PyStr.slice_from input_str cursor_pos)
               (cursor_pos - 1) keys
        else dialog_loop max_length input_str cursor_pos keys
      else if key =? KEY_LEFT then
        if 0 <? cursor_pos
        then dialog_loop max_length input_str (cursor_pos - 1) keys
        else dialog_loop max_length input_str cursor_pos keys
      else if key =? KEY_RIGHT then
        if cursor_pos <? Z.of_nat (String.length input_str)
        then dialog_loop max_length input_str (cursor_pos + 1) keys
        else dialog_loop max_length input_str cursor_pos keys
      else if (key =? KEY_HOME) || (key =? 1)
      then dialog_loop max_length input_str 0 keys
      else if (key =? KEY_END) || (key =? 5)
      then dialog_loop max_length input_str (Z.of_nat (String.length input_str)) keys
      else if (32 <=? key) && (key <=? 126) then
        if Z.of_nat (String.length input_str) <? max_length - 1
        then dialog_loop max_length
               (PyStr.slice_to input_str cursor_pos
                  +:+ String (PyStr.chr key) (PyStr.slice_from input_str cursor_pos))
               (cursor_pos + 1) keys
        else dialog_loop max_length input_str cursor_pos keys
      else dialog_loop max_length input_str cursor_pos keys
  end.

Definition get_dialog_input (max_length : Z) (keys : list Z)
    : option (option string * list Z) :=
  dialog_loop max_length "" 0 keys.

(** What [start_search] does with the answer of the dialog. *)
Definition start_search_on (answer : option string) (s : FileManager) : FileManager :=
  match answer with
  | None => show_message "Search cancelled" s
  | Some search_query =>
      if PyStr.truthy (PyStr.strip search_query) then
        let s := set_search_query (PyStr.lower search_query) s in
        let s := set_search_mode true s in
        let s := set_filter_mode false s in
        let s := apply_search_filter s in
        show_message ("Searching for: " +:+ search_query) s
      else clear_search_filter s
  end.

Definition start_search (keys : list Z) (s : FileManager)
    : option (FileManager * list Z) :=
  match get_dialog_input 50 keys with
  | Some (answer, rest) => Some (start_search_on answer s, rest)
  | None => None
  end.

(** [if not filter_ext.startswith('.'): filter_ext = '.' + filter_ext] *)
Definition normalize_extension (answer : string) : string :=
  let filter_ext := PyStr.strip (PyStr.lower answer) in
  if PyStr.startswith filter_ext "." then filter_ext else "." +:+ filter_ext.

(** What [start_filter] does with the answer of the dialog. *)
Definition start_filter_on (answer : option string) (s : FileManager) : FileManager :=
  match answer with
  | None => show_message "Filter cancelled" s
  | Some filter_ext =>
      if PyStr.truthy (PyStr.strip filter_ext) then
        let filter_ext := normalize_extension filter_ext in
        let s := set_filter_extension filter_ext s in
        let s := set_filter_mode true s in
        let s := set_search_mode false s in
        let s := apply_search_filter s in
        show_message ("Filtering by: " +:+ filter_ext) s
      else clear_search_filter s
  end.

Definition start_filter (keys : list Z) (s : FileManager)
    : option (FileManager * list Z) :=
  match get_dialog_input 20 keys with
  | Some (answer, rest) => Some (start_filter_on answer s, rest)
  | None => None
  end.

(** *** The F5 branch of [run] *)

Definition on_key_f5 (fs : FS) (s : FileManager) : FileManager :=
  let s := refresh_files fs s in
  show_message "Refreshed" s.
End Methods.

(** ** Sequences of panel operations

    The operations of one panel that the specification names: moving the
    cursor, refreshing, putting a search or a filter over the listing and
    taking it away.  An overlay is the answer typed into the search or the
    filter dialog. *)

Inductive overlay :=
| SearchFor (query : string)
| FilterBy (extension : string).

Inductive panel_op (FS : Type) :=
| MoveUp (height : Z)
| MoveDown (height : Z)
| Refresh (fs : FS)
| ApplyOverlay (o : overlay)
| ClearOverlay.
Arguments MoveUp {FS} height.
Arguments MoveDown {FS} height.
Arguments Refresh {FS} fs.
Arguments ApplyOverlay {FS} o.
Arguments ClearOverlay {FS}.

Section PanelOps.
Context {FS : Type} `{FileSystem FS}.

Definition apply_overlay (o : overlay) (s : FileManager) : FileManager :=
  match o with
  | SearchFor query => start_search_on (Some query) s
  | FilterBy extension => start_filter_on (Some extension) s
  end.

Definition run_op (s : FileManager) (op : panel_op FS) : FileManager :=
  match op with
  | MoveUp height => navigate_up height s
  | MoveDown height => navigate_down height s
  | Refresh fs => refresh_files fs s
  | ApplyOverlay o => apply_overlay o s
  | ClearOverlay => clear_search_filter s
  end.

Definition run_ops (s : FileManager) (ops : list (panel_op FS)) : FileManager :=
  foldl run_op s ops.

(** The five components of a panel slot. *)
Definition panel_slot (i : panel_idx) (s : FileManager)
    : Path * list Entry * Z * Z * gset Z :=
  (pget i (panel_paths s), pget i (panel_files s),
   pget i (panel_selected_index s), pget i (panel_scroll_offset s),
   pget i (panel_selected_files s)).

(** The inactive panel in dual mode. *)
Definition inactive_panel (s : FileManager) : Path * list Entry * Z * Z * gset Z :=
  panel_slot (other_panel (active_panel s)) s.
End PanelOps.

(** The state that [__init__] builds before its first refresh, for a
    working directory [cwd]. *)
Definition initial_state (cwd : Path) : FileManager :=
  {| current_path := cwd; selected_index := 0; scroll_offset := 0; files := [];
     show_hidden := false; clipboard := None; clipboard_action := None;
     message := ""; selected_files := ∅; dual_panel_mode := false;
     active_panel := PLeft; panel_paths := (cwd, cwd);
     panel_selected_index := (0, 0); panel_scroll_offset := (0, 0);
     panel_files := ([], []); panel_selected_files := (∅, ∅);
     search_mode := false; search_query := ""; filter_mode := false;
     filter_extension := ""; original_files := [] |}.

Definition init {FS : Type} `{FileSystem FS} (fs : FS) (cwd : Path) : FileManager :=
  refresh_files fs (sync_to_panels (initial_state cwd)).

(** ** A filesystem in memory

    An instance of [FileSystem] on which the methods can be run: a table
    from absolute paths to nodes.  The root is a readable directory that
    always exists. *)

Module MemFS.

Inductive node :=
| File (size : Z)
| Dir (readable : bool).

Definition t := list (Path * node).

Definition lookup (fs : t) (p : Path) : option node :=
  match p with
  | [] => Some (Dir true)
  | _ => snd <$> List.find (fun e => bool_decide (e.1 = p)) fs
  end.

(** [q] is [p] or lies below it *)
Definition under (p q : Path) : bool := bool_decide (take (length p) q = p).

Definition is_child (p q : Path) : bool :=
  list_truthy q && bool_decide (path_parent q = p).

Definition raw_of (e : Path * node) : RawEntry :=
  match e.2 with
  | File size => mkRaw (path_name e.1) (Ok false) (Some (size, 33188, 0))
  | Dir true => mkRaw (path_name e.1) (Ok true) (Some (4096, 16877, 0))
  | Dir false => mkRaw (path_name e.1) (Ok true) (Some (4096, 16384, 0))
  end.

Definition no_such_file : exn := OtherException "[Errno 2] No such file or directory".
Definition not_a_directory : exn := OtherException "[Errno 20] Not a directory".
Definition is_a_directory : exn := OtherException "[Errno 21] Is a directory".
Definition permission_denied : exn := PermissionError "[Errno 13] Permission denied".

Definition mem_iterdir (fs : t) (p : Path) : result (list RawEntry) :=
  match lookup fs p with
  | Some (Dir true) => Ok (map raw_of (List.filter (fun e => is_child p e.1) fs))
  | Some (Dir false) => Raise permission_denied
  | Some (File _) => Raise not_a_directory
  | None => Raise no_such_file
  end.

Definition mem_exists (fs : t) (p : Path) : bool :=
  match lookup fs p with Some _ => true | None => false end.

Definition mem_is_dir (fs : t) (p : Path) : bool :=
  match lookup fs p with Some (Dir _) => true | _ => false end.

(** the nodes at and below [src], moved to [dst] *)
Definition rebase (src dst : Path) (e : Path * node) : Path * node :=
  (dst ++ drop (length src) e.1, e.2).

Definition mem_copytree (src dst : Path) (fs : t) : t * option exn :=
  match lookup fs src with
  | Some (Dir true) =>
      (fs ++ map (rebase src dst) (List.filter (fun e => under src e.1) fs), None)
  | Some (Dir false) => (fs, Some permission_denied)
  | Some (File _) => (fs, Some not_a_directory)
  | None => (fs, Some no_such_file)
  end.

Definition mem_copy2 (src dst : Path) (fs : t) : t * option exn :=
  match lookup fs src with
  | Some (File size) => (fs ++ [(dst, File size)], None)
  | Some (Dir _) => (fs, Some is_a_directory)
  | None => (fs, Some no_such_file)
  end.

Definition mem_move (src dst : Path) (fs : t) : t * option exn :=
  match lookup fs src with
  | Some _ =>
      (map (fun e => if under src e.1 then rebase src dst e else e) fs, None)
  | None => (fs, Some no_such_file)
  end.

Definition mem_rmtree (p : Path) (fs : t) : t * option exn :=
  match lookup fs p with
  | Some (Dir true) => (List.filter (fun e => negb (under p e.1)) fs, None)
  | Some (Dir false) => (fs, Some permission_denied)
  | Some (File _) => (fs, Some not_a_directory)
  | None => (fs, Some no_such_file)
  end.

Definition mem_unlink (p : Path) (fs : t) : t * option exn :=
  match lookup fs p with
  | Some (File _) => (List.filter (fun e => negb (bool_decide (e.1 = p))) fs, None)
  | Some (Dir _) => (fs, Some is_a_directory)
  | None => (fs, Some no_such_file)
  end.

#[global] Instance mem_fs : FileSystem t := {|
  iterdir := mem_iterdir;
  path_exists := mem_exists;
  path_is_dir := mem_is_dir;
  shutil_copytree := mem_copytree;
  shutil_copy2 := mem_copy2;
  shutil_move := mem_move;
  shutil_rmtree := mem_rmtree;
  path_unlink := mem_unlink;
  xdg_open := fun _ _ => None
|}.

End MemFS.

(** ** Sample directories and states *)

Module Samples.
Import MemFS.

(** [/home] holds the directory [A] (with one file inside), the files
    [b.txt], [a.mp3], [c.MP3] and the hidden file [.hidden]; [/tmp] holds
    [b.txt]. *)
Definition disk : MemFS.t :=
  [ (["home"], Dir true);
    (["tmp"], Dir true);
    (["home"; "b.txt"], File 12);
    (["home"; "A"], Dir true);
    (["home"; ".hidden"], File 1);
    (["home"; "a.mp3"], File 300);
    (["home"; "c.MP3"], File 400);
    (["home"; "A"; "inner.txt"], File 5);
    (["tmp"; "b.txt"], File 7) ].

(** the same disk after [chmod 000 /home] *)
Definition disk_locked : MemFS.t :=
  map (fun e => if bool_decide (e.1 = ["home"]) then (e.1, Dir false) else e) disk.

(** the same disk after [rm -r /home] *)
Definition disk_without_home : MemFS.t :=
  List.filter (fun e => negb (bool_decide (take 1 e.1 = ["home"]))) disk.

(** the file manager started in [/home] *)
Definition home : FileManager := init disk ["home"].


(** the value of a run that does not raise *)
Definition value (r : result FileManager) : FileManager :=
  match r with Ok s => s | Raise _ => home end.

(** F2 in [/home], SPACE on the first entry of the left panel, TAB: the
    right panel is active, the left one holds the selection of its first
    entry. *)
Definition two_panels : FileManager :=
  value (s ← toggle_selection (toggle_dual_panel disk home); Ok (switch_panel s)).

(** [/home] with the search for "a" over it *)
Definition searching : FileManager := start_search_on (Some "a") home.

(** [a.mp3] and [b.txt] of [/home] selected and staged with [action], then
    the way left to the root, down to [tmp] and right into it. *)
Definition staged_in_tmp (action : ClipAction) : FileManager :=
  value (s ← toggle_selection (navigate_down 24 home);
         s ← toggle_selection (navigate_down 24 s);
         s ← stage_file action "Staged" s;
         navigate_right disk (navigate_down 24 (navigate_left disk s))).
End Samples.

(** ** Renaming and creating

    The three calls that [rename_file], [create_directory] and
    [create_file] make besides those of [FileSystem]. *)
Class FileSystemEdit (FS : Type) := {
  (** [old_path.rename(new_path)] *)
  path_rename : Path → Path → FS → FS * option exn;
  (** [new_dir.mkdir()] *)
  path_mkdir : Path → FS → FS * option exn;
  (** [new_file.touch()] *)
  path_touch : Path → FS → FS * option exn
}.

Section EditMethods.
Context {FS : Type} `{FileSystem FS} `{FileSystemEdit FS}.

(** ['/' in name or name in ['.', '..']] *)
Definition invalid_name (name : string) : bool :=
  PyStr.contains "/" name || String.eqb name "." || String.eqb name "..".

(** What [rename_file] does with the answer of its dialog.  The guard and
    the indexing stand before the [try], so an [IndexError] is not
    caught; the dialog is not opened when the guard returns. *)
Definition rename_file_on (answer : option string) (fs : FS) (s : FileManager)
    : result (FS * FileManager) :=
  if negb (list_truthy (files s)) || (len (files s) <=? selected_index s)
  then Ok (fs, s)
  else
    selected_file ← index_or_raise (files s) (selected_index s);
    let filename := e_name selected_file in
    match answer with
    | None => Ok (fs, show_message "Rename cancelled" s)
    | Some new_name =>
        if PyStr.truthy (PyStr.strip new_name)
           && negb (String.eqb (PyStr.strip new_name) filename)
        then
          let new_name := PyStr.strip new_name in
          if invalid_name new_name
          then Ok (fs, show_message "Invalid file name" s)
          else
            let old_path := path_join (current_path s) filename in
            let new_path := path_join (current_path s) new_name in
            if path_exists fs new_path
            then Ok (fs, show_message ("File '" +:+ new_name +:+ "' already exists") s)
            else
              let '(fs', raised) := path_rename old_path new_path fs in
              match raised with
              | None =>
                  let s := show_message ("Renamed '" +:+ filename +:+ "' to '"
                                           +:+ new_name +:+ "'") s in
                  Ok (fs', refresh_files fs' s)
              | Some e => Ok (fs', show_message ("Error renaming: " +:+ exn_msg e) s)
              end
        else Ok (fs, show_message "Rename cancelled" s)
    end.

(** The keys are read only when the dialog is opened, which is after the
    guard and the indexing. *)
Definition rename_file (keys : list Z) (fs : FS) (s : FileManager)
    : option (result (FS * FileManager) * list Z) :=
  if negb (list_truthy (files s)) || (len (files s) <=? selected_index s)
  then Some (Ok (fs, s), keys)
  else
    match index_or_raise (files s) (selected_index s) with
    | Raise e => Some (Raise e, keys)
    | Ok _ =>
        match get_dialog_input 50 keys with
        | Some (answer, rest) => Some (rename_file_on answer fs s, rest)
        | None => None
        end
    end.

(** What [create_directory] does with the answer of its dialog. *)
Definition create_directory_on (answer : option string) (fs : FS) (s : FileManager)
    : FS * FileManager :=
  match answer with
  | None => (fs, show_message "Directory creation cancelled" s)
  | Some dir_name =>
      if PyStr.truthy (PyStr.strip dir_name) then
        let dir_name := PyStr.strip dir_name in
        if invalid_name dir_name
        then (fs, show_message "Invalid directory name" s)
        else
          let new_dir := path_join (current_path s) dir_name in
          if path_exists fs new_dir
          then (fs, show_message ("Directory '" +:+ dir_name +:+ "' already exists") s)
          else
            let '(fs', raised) := path_mkdir new_dir fs in
            match raised with
            | None =>
                let s := show_message ("Created directory '" +:+ dir_name +:+ "'") s in
                (fs', refresh_files fs' s)
            | Some e =>
                (fs', show_message ("Error creating directory: " +:+ exn_msg e) s)
            end
      else (fs, show_message "Directory creation cancelled" s)
  end.

Definition create_directory (keys : list Z) (fs : FS) (s : FileManager)
    : option (FS * FileManager * list Z) :=
  match get_dialog_input 50 keys with
  | Some (answer, rest) => Some (create_directory_on answer fs s, rest)
  | None => None
  end.

(** What [create_file] does with the answer of its dialog. *)
Definition create_file_on (answer : option string) (fs : FS) (s : FileManager)
    : FS * FileManager :=
  match answer with
  | None => (fs, show_message "File creation cancelled" s)
  | Some file_name =>
      if PyStr.truthy (PyStr.strip file_name) then
        let file_name := PyStr.strip file_name in
        if invalid_name file_name
        then (fs, show_message "Invalid file name" s)
        else
          let new_file := path_join (current_path s) file_name in
          if path_exists fs new_file
          then (fs, show_message ("File '" +:+ file_name +:+ "' already exists") s)
          else
            let '(fs', raised) := path_touch new_file fs in
            match raised with
            | None =>
                let s := show_message ("Created file '" +:+ file_name +:+ "'") s in
                (fs', refresh_files fs' s)
            | Some e =>
                (fs', show_message ("Error creating file: " +:+ exn_msg e) s)
            end
      else (fs, show_message "File creation cancelled" s)
  end.

Definition create_file (keys : list Z) (fs : FS) (s : FileManager)
    : option (FS * FileManager * list Z) :=
  match get_dialog_input 50 keys with
  | Some (answer, rest) => Some (create_file_on answer fs s, rest)
  | None => None
  end.

(** The TAB branch of [run]. *)
Definition on_key_tab (s : FileManager) : FileManager :=
  if dual_panel_mode s then switch_panel s
  else show_message "Tab only works in dual panel mode" s.

End EditMethods.

(** The three calls on the filesystem in memory. *)
Module MemFSEdit.
Import MemFS.

Definition file_exists : exn := OtherException "[Errno 17] File exists".

Definition mem_rename (old new : Path) (fs : MemFS.t) : MemFS.t * option exn :=
  match lookup fs old with
  | Some _ => (map (fun e => if under old e.1 then rebase old new e else e) fs, None)
  | None => (fs, Some no_such_file)
  end.

(** a new node under a directory that exists and can be written *)
Definition add_node (p : Path) (n : node) (fs : MemFS.t) : MemFS.t * option exn :=
  match lookup fs (path_parent p) with
  | Some (Dir true) => (fs ++ [(p, n)], None)
  | Some (Dir false) => (fs, Some permission_denied)
  | Some (File _) => (fs, Some not_a_directory)
  | None => (fs, Some no_such_file)
  end.

Definition mem_mkdir (p : Path) (fs : MemFS.t) : MemFS.t * option exn :=
  match lookup fs p with
  | Some _ => (fs, Some file_exists)
  | None => add_node p (Dir true) fs
  end.

Definition mem_touch (p : Path) (fs : MemFS.t) : MemFS.t * option exn :=
  match lookup fs p with
  | Some _ => (fs, None)
  | None => add_node p (File 0) fs
  end.

#[global] Instance mem_fs_edit : FileSystemEdit MemFS.t := {|
  path_rename := mem_rename;
  path_mkdir := mem_mkdir;
  path_touch := mem_touch
|}.

End MemFSEdit.

(** ** A read-only filesystem given by its listings

    Each directory is given with what [iterdir] yields for it, so that a
    child whose [stat] fails can be written down; every change is refused. *)

Module ListFS.

Definition t := list (Path * list RawEntry).

Definition read_only : exn := OtherException "[Errno 30] Read-only file system".

Definition find_dir (fs : t) (p : Path) : option (list RawEntry) :=
  snd <$> List.find (fun d => bool_decide (d.1 = p)) fs.

Definition list_iterdir (fs : t) (p : Path) : result (list RawEntry) :=
  match find_dir fs p with
  | Some raws => Ok raws
  | None => Raise MemFS.no_such_file
  end.

(** a directory of the table, or a child named in the listing of its parent *)
Definition list_exists (fs : t) (p : Path) : bool :=
  match find_dir fs p, find_dir fs (path_parent p) with
  | Some _, _ => true
  | None, Some raws =>
      list_truthy p && bool_decide (path_name p ∈ map raw_name raws)
  | None, None => false
  end.

Definition list_is_dir (fs : t) (p : Path) : bool :=
  match find_dir fs p with Some _ => true | None => false end.

#[global] Instance list_fs : FileSystem t := {|
  iterdir := list_iterdir;
  path_exists := list_exists;
  path_is_dir := list_is_dir;
  shutil_copytree := fun _ _ fs => (fs, Some read_only);
  shutil_copy2 := fun _ _ fs => (fs, Some read_only);
  shutil_move := fun _ _ fs => (fs, Some read_only);
  shutil_rmtree := fun _ fs => (fs, Some read_only);
  path_unlink := fun _ fs => (fs, Some read_only);
  xdg_open := fun _ _ => None
|}.

(** [/mnt] with a file that can be examined and a broken link [lost],
    whose [stat] fails and of which [is_dir()] says [False]; [/srv] where
    [is_dir()] raises on [locked], as it does when the directory cannot be
    searched; [/var] where it raises on the hidden [.locked]. *)
Definition mnt : t :=
  [ (["mnt"], [mkRaw "seen" (Ok false) (Some (3, 33188, 0));
               mkRaw "lost" (Ok false) None]);
    (["srv"], [mkRaw "b" (Ok false) None;
               mkRaw "a" (Ok false) None;
               mkRaw "locked" (Raise MemFS.permission_denied) None;
               mkRaw "z" (Ok false) None]);
    (["var"], [mkRaw "log" (Ok false) (Some (9, 33188, 0));
               mkRaw ".locked" (Raise MemFS.permission_denied) None]) ].

End ListFS.

(** ** The colour of an entry

    [curses.color_pair(n)] and [curses.A_NORMAL] are values of the curses
    library; they are kept apart by a type of their own. *)

Inductive Attr :=
| color_pair (n : Z)
| A_NORMAL.

(** The constants and tests of the module [stat] that
    [get_file_type_color] uses. *)
Definition S_IFMT (mode : Z) : Z := Z.land mode 61440.
Definition S_IFIFO : Z := 4096.
Definition S_IFLNK : Z := 40960.
Definition S_IEXEC : Z := 64.
Definition S_ISFIFO (mode : Z) : bool := S_IFMT mode =? S_IFIFO.
Definition S_ISLNK (mode : Z) : bool := S_IFMT mode =? S_IFLNK.

(** truthiness of an integer: not zero *)
Definition int_truthy (n : Z) : bool := negb (n =? 0).

Definition get_file_type_color (filename : string) (is_dir : bool) (mode : Z)
    : Attr :=
  if String.eqb filename ".." then color_pair 1
  else if is_dir then color_pair 1
  else if int_truthy mode && S_ISFIFO mode then color_pair 6
  else if int_truthy mode && S_ISLNK mode then color_pair 6
  else if int_truthy mode && int_truthy (Z.land mode S_IEXEC) then color_pair 2
  else A_NORMAL.

(** ** The vocabulary of the properties *)

(** Only printable ASCII characters, codes 32 to 126. *)
Definition printable (str : string) : Prop :=
  Forall (fun c => 32 <= Z.of_nat (nat_of_ascii c) <= 126) (PyStr.chars str).

Definition is_enter (key : Z) : Prop := key = 10 ∨ key = 13 ∨ key = KEY_ENTER.

(** a key that ends the dialog *)
Definition ends_dialog (key : Z) : Prop := key = 27 ∨ is_enter key.

(** What the loop keeps true of the text typed so far. *)
Definition dialog_ok (max_length : Z) (str : string) : Prop :=
  printable str ∧ Z.of_nat (String.length str) < max_length.

(** [a] may stand before [b] in a listing *)
Definition key_le (a b : Entry) : Prop := entry_leb a b = true.

(** The order that the specification describes, position by position:
    of two entries of a listing, the earlier one has the smaller key; so
    a directory never comes after a file, and two entries of the same kind
    come in the order of their lower-cased names. *)
Definition listing_ordered (l : list Entry) : Prop :=
  ∀ (i j : nat) (a b : Entry),
    (i < j)%nat → l !! i = Some a → l !! j = Some b →
    key_leb (sort_key a) (sort_key b) = true ∧
    (e_is_dir b = true → e_is_dir a = true) ∧
    (e_is_dir a = e_is_dir b →
     String.leb (PyStr.lower (e_name a)) (PyStr.lower (e_name b)) = true).

(** The cursor is within the listing (or at 0 when the listing is empty). *)
Definition index_in_range (s : FileManager) : Prop :=
  0 ≤ selected_index s ≤ Z.max 0 (len (files s) - 1).

Section ListingOf.
Context {FS : Type} `{FileSystem FS}.

(** The listing that a refresh stores for a directory.  When the scan of
    the children is left on a permission error, the refresh of a panel slot
    goes on with the children scanned so far, and the refresh of single mode
    returns with no entry. *)
Definition listing_of (fs : FS) (dual_panel_mode show_hidden : bool)
    (path : Path) : list Entry :=
  match iterdir fs path with
  | Ok raws =>
      match scan_raised show_hidden raws with
      | None => sorted_listing show_hidden raws
      | Some (PermissionError _) =>
          if dual_panel_mode then sorted_listing show_hidden raws else []
      | Some (OtherException _) => []
      end
  | Raise _ => []
  end.

(** What the refresh of a panel makes of its five components: path and
    scroll offset stay; when the scan is over, or left on a permission
    error, the entries are the listing, the cursor is put on the last entry
    if it was beyond it, and the selection is emptied; on any other
    exception the entries are emptied and cursor and selection are left as
    they were. *)
Definition relisted (fs : FS) (show_hidden : bool)
    (slot : Path * list Entry * Z * Z * gset Z)
    : Path * list Entry * Z * Z * gset Z :=
  let '(path, _, index, scroll, selection) := slot in
  let listed (entries : list Entry) :=
    (path, entries,
     (if len entries <=? index then Z.max 0 (len entries - 1) else index),
     scroll, (∅ : gset Z)) in
  let emptied := (path, ([] : list Entry), index, scroll, selection) in
  match iterdir fs path with
  | Ok raws =>
      match scan_raised show_hidden raws with
      | None | Some (PermissionError _) => listed (sorted_listing show_hidden raws)
      | Some (OtherException _) => emptied
      end
  | Raise (PermissionError _) => listed []
  | Raise (OtherException _) => emptied
  end.

(** The directory that [self.files] is read from. *)
Definition listed_path (s : FileManager) : Path :=
  if dual_panel_mode s then pget (active_panel s) (panel_paths s) else current_path s.

(** In a paste of staged paths with action cut, started on [fs] in the
    directory [cur], the path [source] that stands after [before] is
    moved: when the loop reaches it, its destination
    [cur / source.name] does not exist, and [shutil.move] does not
    raise. *)
Definition moved_by_paste (fs : FS) (cur : Path) (before : list Path)
    (source : Path) : Prop :=
  let fs1 := (paste_loop (Some Cut) cur before (fs, 0, [])).1.1 in
  let dest := path_join cur (path_name source) in
  path_exists fs1 dest = false ∧ (shutil_move source dest fs1).2 = None.

End ListingOf.

(** Every selected index points into the listing. *)
Definition selection_valid (s : FileManager) : Prop :=
  ∀ i : Z, i ∈ selected_files s → 0 ≤ i < len (files s).

(** The invariant of the selection: it is valid, and the cursor is not
    negative. *)
Definition selection_ok (s : FileManager) : Prop :=
  selection_valid s ∧ 0 ≤ selected_index s.

(** The cursor lies in the window of [height - 3] rows that starts at the
    scroll offset. *)
Definition cursor_visible (height : Z) (s : FileManager) : Prop :=
  scroll_offset s ≤ selected_index s < scroll_offset s + (height - 3).

(** [ord(c)], and the keys that typing a text sends *)
Definition key_of (c : ascii) : Z := Z.of_nat (nat_of_ascii c).

Definition keys_of (str : string) : list Z := map key_of (PyStr.chars str).

(** In dual mode [self.files] is the list stored in the slot of the active
    panel. *)
Definition files_shared (s : FileManager) : Prop :=
  files s = pget (active_panel s) (panel_files s).

(** The state that F2 builds in single mode before it refreshes the two
    panels: dual mode on, the working fields stored in the slot of the
    active panel, the other slot started in the same directory. *)
Definition dual_start (s : FileManager) : FileManager :=
  let s := set_dual_panel_mode true s in
  let s := sync_to_panels s in
  let other_panel := other_panel (active_panel s) in
  let s := set_panel_paths (pset other_panel (current_path s) (panel_paths s)) s in
  let s := set_panel_selected_index (pset other_panel 0 (panel_selected_index s)) s in
  let s := set_panel_scroll_offset (pset other_panel 0 (panel_scroll_offset s)) s in
  set_panel_selected_files (pset other_panel ∅ (panel_selected_files s)) s.

(** The listing that a search or a filter is taken from: the unfiltered
    snapshot when an overlay is shown already, the listing otherwise. *)
Definition overlay_base (s : FileManager) : list Entry :=
  if list_truthy (original_files s) then original_files s else files s.

(** * Properties *)

(** Reduces the projections of updated states, and nothing else. *)
Ltac fm_cbn :=
  cbn [current_path selected_index scroll_offset files show_hidden clipboard
       clipboard_action message selected_files dual_panel_mode active_panel
       panel_paths panel_selected_index panel_scroll_offset panel_files
       panel_selected_files search_mode search_query filter_mode
       filter_extension original_files set_current_path set_selected_index
       set_scroll_offset set_files set_show_hidden set_clipboard
       set_clipboard_action set_message set_selected_files
       set_dual_panel_mode set_active_panel set_panel_paths
       set_panel_selected_index set_panel_scroll_offset set_panel_files
       set_panel_selected_files set_search_mode set_search_query
       set_filter_mode set_filter_extension set_original_files show_message
       pget pset fst snd other_panel].

Ltac fm_cbn_in H :=
  cbn [current_path selected_index scroll_offset files show_hidden clipboard
       clipboard_action message selected_files dual_panel_mode active_panel
       panel_paths panel_selected_index panel_scroll_offset panel_files
       panel_selected_files search_mode search_query filter_mode
       filter_extension original_files set_current_path set_selected_index
       set_scroll_offset set_files set_show_hidden set_clipboard
       set_clipboard_action set_message set_selected_files
       set_dual_panel_mode set_active_panel set_panel_paths
       set_panel_selected_index set_panel_scroll_offset set_panel_files
       set_panel_selected_files set_search_mode set_search_query
       set_filter_mode set_filter_extension set_original_files show_message
       pget pset fst snd other_panel] in H.

Ltac fm_cbn_all :=
  cbn [current_path selected_index scroll_offset files show_hidden clipboard
       clipboard_action message selected_files dual_panel_mode active_panel
       panel_paths panel_selected_index panel_scroll_offset panel_files
       panel_selected_files search_mode search_query filter_mode
       filter_extension original_files set_current_path set_selected_index
       set_scroll_offset set_files set_show_hidden set_clipboard
       set_clipboard_action set_message set_selected_files
       set_dual_panel_mode set_active_panel set_panel_paths
       set_panel_selected_index set_panel_scroll_offset set_panel_files
       set_panel_selected_files set_search_mode set_search_query
       set_filter_mode set_filter_extension set_original_files show_message
       pget pset fst snd other_panel] in *.

(** Splits on every test that the goal branches on. *)
Ltac fm_cases := repeat (case_match; fm_cbn).

(** The same, keeping the hypotheses reduced as well. *)
Ltac fm_cases_all := fm_cbn_all; repeat (case_match; fm_cbn_all).

(** ** The modal text input *)

Section Dialog.

Lemma chars_app a b : PyStr.chars (a +:+ b) = PyStr.chars a ++ PyStr.chars b.
Proof. induction a as [|c a IH]; simpl; [done | by rewrite IH]. Qed.

Lemma printable_take n str : printable str → printable (PyStr.take n str).
Proof.
  unfold printable. revert str.
  induction n as [|n IH]; intros [|c str] Hstr; simpl; try constructor.
  - by inversion Hstr.
  - apply IH. by inversion Hstr.
Qed.

Lemma printable_drop n str : printable str → printable (PyStr.drop n str).
Proof.
  unfold printable. revert str.
  induction n as [|n IH]; intros [|c str] Hstr; simpl; try done.
  apply IH. by inversion Hstr.
Qed.

Lemma printable_app a b : printable a → printable b → printable (a +:+ b).
Proof. unfold printable. rewrite chars_app. apply Forall_app_2. Qed.

Lemma length_app a b :
  String.length (a +:+ b) = (String.length a + String.length b)%nat.
Proof. induction a as [|c a IH]; simpl; [done | by rewrite IH]. Qed.

Lemma length_take n str :
  String.length (PyStr.take n str) = Nat.min n (String.length str).
Proof.
  revert str. induction n as [|n IH]; intros [|c str]; simpl; try done.
  by rewrite IH.
Qed.

Lemma length_drop n str :
  String.length (PyStr.drop n str) = (String.length str - n)%nat.
Proof.
  revert str. induction n as [|n IH]; intros [|c str]; simpl; try done.
Qed.

Lemma take_drop n str : PyStr.take n str +:+ PyStr.drop n str = str.
Proof.
  revert str. induction n as [|n IH]; intros [|c str]; try done.
  change (String c (PyStr.take n str +:+ PyStr.drop n str) = String c str).
  by rewrite IH.
Qed.

Lemma printable_slice_to str n : printable str → printable (PyStr.slice_to str n).
Proof. unfold PyStr.slice_to. case_match; apply printable_take. Qed.

Lemma printable_slice_from str n : printable str → printable (PyStr.slice_from str n).
Proof. unfold PyStr.slice_from. case_match; apply printable_drop. Qed.

(** Backspace never makes the text longer. *)
Lemma length_backspace str pos :
  0 < pos →
  (String.length (PyStr.slice_to str (pos - 1) +:+ PyStr.slice_from str pos)
   ≤ String.length str)%nat.
Proof.
  intros Hpos. unfold PyStr.slice_to, PyStr.slice_from.
  rewrite !(proj2 (Z.leb_le _ _)) by lia.
  rewrite length_app, length_take, length_drop. lia.
Qed.

(** Typing a character makes it one longer, wherever the cursor is. *)
Lemma length_typed str pos c :
  String.length (PyStr.slice_to str pos +:+ String c (PyStr.slice_from str pos))
  = S (String.length str).
Proof.
  unfold PyStr.slice_to, PyStr.slice_from.
  case_match; rewrite length_app; simpl; rewrite length_take, length_drop; lia.
Qed.

Lemma printable_chr key : 32 ≤ key ≤ 126 → printable (String (PyStr.chr key) "").
Proof.
  intros Hkey. unfold printable, PyStr.chr. simpl. constructor; [|constructor].
  rewrite nat_ascii_embedding by lia. lia.
Qed.

(** One turn of the loop on a key that does not end the dialog: the loop
    goes on with a text that is still fine. *)
Lemma dialog_loop_step max_length str pos key keys :
  dialog_ok max_length str → ¬ ends_dialog key →
  ∃ str' pos',
    dialog_ok max_length str' ∧
    dialog_loop max_length str pos (key :: keys)
    = dialog_loop max_length str' pos' keys.
Proof.
  intros Hok Hne. pose proof Hok as [Hp Hl].
  unfold ends_dialog, is_enter in Hne. simpl.
  assert ((key =? 27) = false) as -> by lia.
  assert (((key =? 10) || (key =? 13) || (key =? KEY_ENTER)) = false) as ->
    by (rewrite !orb_false_iff; lia).
  repeat case_match; eauto.
  - eexists _, _. split; [|done]. split.
    + apply printable_app;
        [by apply printable_slice_to | by apply printable_slice_from].
    + pose proof (length_backspace str pos). lia.
  - eexists _, _. split; [|done]. split.
    + apply printable_app; [by apply printable_slice_to|].
      change (String ?c ?r) with (String c "" +:+ r).
      apply printable_app; [apply printable_chr; lia|by apply printable_slice_from].
    + rewrite length_typed. lia.
Qed.

(** What the loop returns, and on which key. *)
Lemma dialog_loop_returns max_length keys : ∀ str pos,
  dialog_ok max_length str →
  match dialog_loop max_length str pos keys with
  | None => Forall (fun key => ¬ ends_dialog key) keys
  | Some (answer, rest) =>
      ∃ typed key,
        keys = typed ++ key :: rest ∧
        Forall (fun key => ¬ ends_dialog key) typed ∧
        ((key = 27 ∧ answer = None) ∨
         (is_enter key ∧ ∃ str', answer = Some str' ∧ dialog_ok max_length str'))
  end.
Proof.
  induction keys as [|key keys IH]; intros str pos Hok; [by constructor|].
  destruct (decide (key = 27)) as [->|Hesc].
  { simpl. exists [], 27. auto. }
  destruct (decide (key = 10 ∨ key = 13 ∨ key = KEY_ENTER)) as [Hent|Hent].
  { simpl. assert ((key =? 27) = false) as -> by lia.
    assert (((key =? 10) || (key =? 13) || (key =? KEY_ENTER)) = true) as ->
      by (rewrite !orb_true_iff; lia).
    exists [], key. split; [done|]. split; [constructor|]. right. eauto. }
  assert (¬ ends_dialog key) as Hne by (unfold ends_dialog, is_enter; tauto).
  destruct (dialog_loop_step max_length str pos key keys Hok Hne)
    as (str' & pos' & Hok' & ->).
  specialize (IH str' pos' Hok').
  destruct (dialog_loop max_length str' pos' keys) as [[answer rest]|].
  - destruct IH as (typed & key' & -> & Hty & Hres).
    exists (key :: typed), key'. split; [done|]. split; [by constructor|done].
  - by constructor.
Qed.

End Dialog.

(** ** The order of a listing *)

Section Sorting.

Lemma ascii_compare_refl c : Ascii.compare c c = Eq.
Proof. unfold Ascii.compare. apply N.compare_refl. Qed.

Lemma string_compare_trans a : ∀ b c,
  String.compare a b ≠ Gt → String.compare b c ≠ Gt → String.compare a c ≠ Gt.
Proof.
  induction a as [|x a IH]; intros [|y b] [|z c]; simpl; try done.
  destruct (Ascii.compare x y) eqn:Hxy; [| |done];
    destruct (Ascii.compare y z) eqn:Hyz; try done.
  - apply Ascii.compare_eq_iff in Hxy as ->. apply Ascii.compare_eq_iff in Hyz as ->.
    rewrite ascii_compare_refl. apply IH.
  - apply Ascii.compare_eq_iff in Hxy as ->. by rewrite Hyz.
  - apply Ascii.compare_eq_iff in Hyz as <-. by rewrite Hxy.
  - unfold Ascii.compare in *.
    rewrite N.compare_lt_iff in Hxy, Hyz.
    assert ((N_of_ascii x ?= N_of_ascii z)%N = Lt) as ->; [|done].
    apply N.compare_lt_iff. lia.
Qed.

Lemma string_leb_trans a b c :
  String.leb a b = true → String.leb b c = true → String.leb a c = true.
Proof.
  unfold String.leb. pose proof (string_compare_trans a b c).
  destruct (String.compare a b), (String.compare b c), (String.compare a c);
    try done; intros; exfalso; by apply H.
Qed.

#[local] Instance key_le_total : Total key_le.
Proof.
  intros a b. unfold key_le, entry_leb, key_leb, sort_key. simpl.
  destruct (e_is_dir a), (e_is_dir b); simpl; auto using String.leb_total.
Qed.

#[local] Instance key_le_trans : Transitive key_le.
Proof.
  intros a b c. unfold key_le, entry_leb, key_leb, sort_key. simpl.
  destruct (e_is_dir a), (e_is_dir b), (e_is_dir c); simpl;
    try done; apply string_leb_trans.
Qed.

Lemma sort_insert_HdRel x y l :
  key_le y x → HdRel key_le y l → HdRel key_le y (sort_insert x l).
Proof.
  intros Hyx Hl. destruct l as [|z l]; simpl; [by constructor|].
  case_match; constructor; [done|]. by inversion Hl.
Qed.

Lemma sort_insert_Sorted x l : Sorted key_le l → Sorted key_le (sort_insert x l).
Proof.
  induction 1 as [|y l Hl IH Hy]; simpl; [by repeat constructor|].
  destruct (entry_leb x y) eqn:Hxy.
  - constructor; [by constructor|]. by constructor.
  - constructor; [done|]. apply sort_insert_HdRel; [|done].
    destruct (total key_le x y) as [Hle|Hle]; [|done].
    unfold key_le in Hle. congruence.
Qed.

Lemma sort_insert_Permutation x l : sort_insert x l ≡ₚ x :: l.
Proof.
  induction l as [|y l IH]; simpl; [done|].
  case_match; [done|]. rewrite IH. apply Permutation_swap.
Qed.

Lemma sort_entries_Sorted l : StronglySorted key_le (sort_entries l).
Proof.
  apply Sorted_StronglySorted; [apply _|].
  induction l as [|x l IH]; simpl; [constructor|]. by apply sort_insert_Sorted.
Qed.

Lemma sort_entries_Permutation l : sort_entries l ≡ₚ l.
Proof.
  induction l as [|x l IH]; simpl; [done|].
  by rewrite sort_insert_Permutation, IH.
Qed.

Lemma StronglySorted_lookup_lt (l : list Entry) (i j : nat) (a b : Entry) :
  StronglySorted key_le l → (i < j)%nat →
  l !! i = Some a → l !! j = Some b → key_le a b.
Proof.
  intros Hl. revert i j. induction Hl as [|x l Hl IH Hx]; intros i j Hij Hi Hj.
  - by rewrite lookup_nil in Hi.
  - destruct j as [|j]; [lia|]. destruct i as [|i]; simpl in *.
    + injection Hi as ->. rewrite Forall_forall in Hx. apply Hx.
      by eapply list_elem_of_lookup_2.
    + apply (IH i j); [lia|done..].
Qed.

Lemma key_le_kinds a b :
  key_le a b →
  (e_is_dir b = true → e_is_dir a = true) ∧
  (e_is_dir a = e_is_dir b →
   String.leb (PyStr.lower (e_name a)) (PyStr.lower (e_name b)) = true).
Proof.
  unfold key_le, entry_leb, key_leb, sort_key. simpl.
  destruct (e_is_dir a), (e_is_dir b); simpl; try done.
Qed.

Lemma StronglySorted_listing_ordered l : StronglySorted key_le l → listing_ordered l.
Proof.
  intros Hl i j a b Hij Hi Hj.
  pose proof (StronglySorted_lookup_lt l i j a b Hl Hij Hi Hj) as Hab.
  split; [done|]. by apply key_le_kinds.
Qed.

Lemma sorted_listing_ordered show_hidden raws :
  listing_ordered (sorted_listing show_hidden raws).
Proof. apply StronglySorted_listing_ordered, sort_entries_Sorted. Qed.

Lemma nil_ordered : listing_ordered [].
Proof. intros i j a b _ Hi. by rewrite lookup_nil in Hi. Qed.

End Sorting.

(** ** Refreshing, slot by slot *)

Section Refresh.
Context {FS : Type} `{FileSystem FS}.

Lemma refresh_panel_files_listing fs i s :
  pget i (panel_files (refresh_panel_files fs i s))
  = listing_of fs true (show_hidden s) (pget i (panel_paths s)).
Proof.
  unfold refresh_panel_files, listing_of, store_panel_listing.
  destruct (iterdir fs _) as [raws|[msg|msg]];
    [destruct (scan_raised _ raws) as [[msg|msg]|]| |]; destruct i; simpl;
    repeat case_match; done.
Qed.

(** A refresh of one slot leaves everything outside that slot alone. *)
Lemma refresh_panel_files_other fs i j s :
  i ≠ j → panel_slot j (refresh_panel_files fs i s) = panel_slot j s.
Proof.
  intros Hij. unfold refresh_panel_files, store_panel_listing, panel_slot.
  destruct (iterdir fs _) as [raws|[msg|msg]]; destruct i, j; try done; simpl;
    repeat case_match; done.
Qed.

Lemma refresh_panel_files_globals fs i s :
  let s' := refresh_panel_files fs i s in
  show_hidden s' = show_hidden s ∧ dual_panel_mode s' = dual_panel_mode s ∧
  active_panel s' = active_panel s ∧ panel_paths s' = panel_paths s ∧
  panel_scroll_offset s' = panel_scroll_offset s.
Proof.
  unfold refresh_panel_files, store_panel_listing.
  destruct (iterdir fs _) as [raws|[msg|msg]]; simpl; repeat case_match; done.
Qed.

(** What a refresh does to a slot depends on that slot and on the
    hidden-files flag only. *)
Lemma refresh_panel_files_ext fs j s1 s2 :
  panel_slot j s1 = panel_slot j s2 → show_hidden s1 = show_hidden s2 →
  panel_slot j (refresh_panel_files fs j s1) = panel_slot j (refresh_panel_files fs j s2).
Proof.
  unfold panel_slot. intros Hslot Hhid. injection Hslot as Hp Hf Hi Hs Hsel.
  unfold refresh_panel_files, store_panel_listing. rewrite Hp, Hhid.
  destruct (iterdir fs _) as [raws|[msg|msg]]; destruct j; simpl in *;
    rewrite ?Hi; repeat case_match; simpl; congruence.
Qed.

(** In dual mode [refresh_files] refreshes each slot on its own. *)
Lemma refresh_files_dual_slot fs j s :
  dual_panel_mode s = true →
  panel_slot j (refresh_files fs s) = panel_slot j (refresh_panel_files fs j s).
Proof.
  intros Hdual. unfold refresh_files. rewrite Hdual.
  change (panel_slot j (set_files ?l ?t)) with (panel_slot j t).
  destruct j.
  - rewrite refresh_panel_files_other by done. done.
  - apply refresh_panel_files_ext.
    + by rewrite refresh_panel_files_other.
    + apply (refresh_panel_files_globals fs PLeft s).
Qed.

Lemma refresh_files_dual_listing fs j s :
  dual_panel_mode s = true →
  pget j (panel_files (refresh_files fs s))
  = listing_of fs true (show_hidden s) (pget j (panel_paths s)).
Proof.
  intros Hdual. pose proof (refresh_files_dual_slot fs j s Hdual) as Hslot.
  apply (f_equal (λ slot, slot.1.1.1.2)) in Hslot.
  cbn [fst snd panel_slot] in Hslot. rewrite Hslot.
  apply refresh_panel_files_listing.
Qed.

Lemma refresh_files_dual_globals fs s :
  dual_panel_mode s = true →
  let s' := refresh_files fs s in
  active_panel s' = active_panel s ∧ dual_panel_mode s' = true.
Proof.
  intros Hdual. unfold refresh_files. rewrite Hdual. simpl.
  destruct (refresh_panel_files_globals fs PLeft s) as (_ & Hd & Ha & _).
  destruct (refresh_panel_files_globals fs PRight (refresh_panel_files fs PLeft s))
    as (_ & Hd' & Ha' & _).
  simpl in *. split; congruence.
Qed.

(** Every refresh stores the listing of the directory it reads. *)
Lemma refresh_files_listing fs s :
  files (refresh_files fs s)
  = listing_of fs (dual_panel_mode s) (show_hidden s) (listed_path s).
Proof.
  unfold listed_path. destruct (dual_panel_mode s) eqn:Hdual.
  - unfold refresh_files. rewrite Hdual. simpl.
    destruct (refresh_panel_files_globals fs PLeft s) as (Hh & _ & Ha & Hp & _).
    destruct (refresh_panel_files_globals fs PRight (refresh_panel_files fs PLeft s))
      as (_ & _ & Ha' & _).
    simpl in *. rewrite Ha', Ha. destruct (active_panel s).
    + assert (PRight ≠ PLeft) as Hne by done.
      pose proof (refresh_panel_files_other fs PRight PLeft
                    (refresh_panel_files fs PLeft s) Hne) as Hslot.
      unfold panel_slot in Hslot. injection Hslot as _ Hf _ _ _.
      simpl in Hf. cbn [pget]. rewrite Hf.
      apply (refresh_panel_files_listing fs PLeft s).
    + rewrite refresh_panel_files_listing. by rewrite Hh, Hp.
  - unfold refresh_files, listing_of. rewrite Hdual. simpl.
    destruct (iterdir fs _) as [raws|[msg|msg]];
      [destruct (scan_raised _ raws) as [[msg|msg]|]| |]; simpl;
      repeat case_match; done.
Qed.

End Refresh.

(** ** Claims about listings and the cursor *)

Section ListingClaims.
Context {FS : Type} `{FileSystem FS}.

Lemma listing_of_ordered (fs : FS) dual show_hidden path :
  listing_ordered (listing_of fs dual show_hidden path).
Proof.
  unfold listing_of. destruct (iterdir fs path) as [raws|]; [|apply nil_ordered].
  destruct (scan_raised show_hidden raws) as [[msg|msg]|], dual;
    apply sorted_listing_ordered || apply nil_ordered.
Qed.

(** C2.  Whatever the directory, the hidden-files flag and the mode, the
    entries that a refresh stores are in the order of the key
    [(not is_dir, name.lower())]: position by position, an earlier entry has
    the smaller key, so no directory stands after a file, and entries of
    one kind stand in the order of their lower-cased names.  In dual mode
    this holds of both panel listings.  When the directory can be read
    (the scan of the children is not left by an exception), the entries
    are the scanned children, rearranged.  The listing is a function of
    what [iterdir] yields and of the flag: two refreshes that see the same
    snapshot store the same entries, whatever the state before; they do so
    in either mode when the directory can be read, and in the same mode
    when it cannot. *)
Theorem listing_sorted_dirs_first (fs : FS) (s : FileManager) :
  let s' := refresh_files fs s in
  listing_ordered (files s') ∧
  (if dual_panel_mode s
   then listing_ordered (pget PLeft (panel_files s')) ∧
        listing_ordered (pget PRight (panel_files s'))
   else True) ∧
  (∀ raws, iterdir fs (listed_path s) = Ok raws →
           scan_raised (show_hidden s) raws = None →
           files s' ≡ₚ scan_entries (show_hidden s) raws) ∧
  (∀ (fs2 : FS) (s2 : FileManager) raws,
     iterdir fs (listed_path s) = Ok raws →
     scan_raised (show_hidden s) raws = None →
     iterdir fs2 (listed_path s2) = iterdir fs (listed_path s) →
     show_hidden s2 = show_hidden s →
     files (refresh_files fs2 s2) = files s') ∧
  (∀ (fs2 : FS) (s2 : FileManager),
     iterdir fs2 (listed_path s2) = iterdir fs (listed_path s) →
     show_hidden s2 = show_hidden s →
     dual_panel_mode s2 = dual_panel_mode s →
     files (refresh_files fs2 s2) = files s').
Proof.
  cbv zeta. rewrite refresh_files_listing. split; [|split; [|split; [|split]]].
  - apply listing_of_ordered.
  - destruct (dual_panel_mode s) eqn:Hdual; [|done].
    rewrite !refresh_files_dual_listing by done.
    split; apply listing_of_ordered.
  - intros raws Hraws Hscan. unfold listing_of. rewrite Hraws, Hscan.
    apply sort_entries_Permutation.
  - intros fs2 s2 raws Hraws Hscan Hsnap Hhid. rewrite refresh_files_listing.
    unfold listing_of. by rewrite Hsnap, Hhid, Hraws, Hscan.
  - intros fs2 s2 Hsnap Hhid Hmode. rewrite refresh_files_listing.
    unfold listing_of. by rewrite Hsnap, Hhid, Hmode.
Qed.

(** The refresh of a panel slot re-clamps the index also when the
    directory cannot be read. *)
Lemma refresh_panel_files_clamps_on_permission_error (fs : FS) i s msg :
  iterdir fs (pget i (panel_paths s)) = Raise (PermissionError msg) →
  0 ≤ pget i (panel_selected_index s) →
  let s' := refresh_panel_files fs i s in
  pget i (panel_files s') = [] ∧ pget i (panel_selected_index s') = 0.
Proof.
  intros Hiter Hidx. unfold refresh_panel_files. rewrite Hiter.
  unfold store_panel_listing. destruct i; simpl in *;
    (rewrite (proj2 (Z.leb_le 0 _)) by done); done.
Qed.

(** In single mode, while every refresh can read its directory, the
    operations of a panel keep the cursor within the listing. *)
Lemma run_op_keeps_index_in_range (s : FileManager) (op : panel_op FS) :
  dual_panel_mode s = false →
  match op with
  | Refresh fs => ∃ raws, iterdir fs (current_path s) = Ok raws ∧
                          scan_raised (show_hidden s) raws = None
  | _ => True
  end →
  index_in_range s →
  index_in_range (run_op s op).
Proof.
  unfold index_in_range. intros Hdual Hop [Hlo Hhi].
  destruct op as [height|height|fs|[query|extension]|]; cbn [run_op apply_overlay].
  - unfold navigate_up, adjust_scroll. fm_cbn. fm_cases; lia.
  - unfold navigate_down, adjust_scroll. fm_cbn. fm_cases; lia.
  - destruct Hop as (raws & Hraws & Hscan). unfold refresh_files.
    rewrite Hdual. fm_cbn. rewrite Hraws, Hscan. fm_cbn. fm_cases; lia.
  - unfold start_search_on, apply_search_filter, clear_search_filter, store_active_files.
    fm_cases; unfold len; lia.
  - unfold start_filter_on, apply_search_filter, clear_search_filter, store_active_files.
    fm_cases; unfold len; lia.
  - unfold clear_search_filter, store_active_files. fm_cases; unfold len; lia.
Qed.

End ListingClaims.

(** The scenario of the specification: [b.txt], the directory [A] and
    [.hidden], with hidden files off, are listed as [A], [b.txt]. *)
Example listing_scenario :
  map e_name
    (sorted_listing false
       [mkRaw "b.txt" (Ok false) None; mkRaw "A" (Ok true) None;
        mkRaw ".hidden" (Ok false) None])
  = ["A"; "b.txt"].
Proof. reflexivity. Qed.

(** C1 (the code departs from the claim).  Started in [/home], the cursor
    is moved down twice; the directory is then made unreadable and the
    listing refreshed.  The single-mode refresh returns on the permission
    error before it re-clamps the cursor: the listing is empty and the
    cursor is still 2, outside [0, max(0, len - 1)] = [0, 0]. *)
Theorem stale_index_after_failed_refresh :
  let s := run_ops Samples.home [MoveDown 24; MoveDown 24; Refresh Samples.disk_locked] in
  iterdir Samples.disk_locked (current_path s) = Raise MemFS.permission_denied ∧
  dual_panel_mode s = false ∧
  files s = [] ∧ selected_index s = 2 ∧ ¬ index_in_range s.
Proof.
  repeat split; try reflexivity.
  unfold index_in_range. intros [_ Hhi]. vm_compute in Hhi. by apply Hhi.
Qed.

(** ** The inactive panel *)

Section InactivePanel.
Context {FS : Type} `{FileSystem FS}.

Lemma adjust_scroll_inactive height s :
  inactive_panel (adjust_scroll height s) = inactive_panel s.
Proof.
  unfold adjust_scroll, inactive_panel, panel_slot.
  fm_cases; fm_cbn; destruct (active_panel s); reflexivity.
Qed.

Lemma navigate_up_inactive height s :
  inactive_panel (navigate_up height s) = inactive_panel s.
Proof.
  unfold navigate_up. case_match; [|done]. rewrite adjust_scroll_inactive.
  unfold inactive_panel, panel_slot. fm_cases; fm_cbn; destruct (active_panel s); reflexivity.
Qed.

Lemma navigate_down_inactive height s :
  inactive_panel (navigate_down height s) = inactive_panel s.
Proof.
  unfold navigate_down. case_match; [|done]. rewrite adjust_scroll_inactive.
  unfold inactive_panel, panel_slot. fm_cases; fm_cbn; destruct (active_panel s); reflexivity.
Qed.

Lemma toggle_selection_inactive s s' :
  toggle_selection s = Ok s' → inactive_panel s' = inactive_panel s.
Proof.
  unfold toggle_selection, index_or_raise. intros Hs'.
  repeat (case_match; simplify_eq/=; try done).
Qed.

Lemma select_all_inactive s : inactive_panel (select_all s) = inactive_panel s.
Proof. unfold select_all. by repeat case_match. Qed.

Lemma clear_selection_inactive s : inactive_panel (clear_selection s) = inactive_panel s.
Proof. unfold clear_selection. by repeat case_match. Qed.

Lemma open_file_inactive (fs : FS) s s' :
  open_file fs s = Ok s' → inactive_panel s' = inactive_panel s.
Proof.
  unfold open_file, index_or_raise. intros Hs'.
  repeat (case_match; simplify_eq/=; try done).
Qed.

(** The states handed to the closing refresh of a navigation differ from
    the state before in the working fields and in the active slot only. *)
Lemma sync_to_panels_inactive s :
  inactive_panel (sync_to_panels s) = inactive_panel s.
Proof. unfold sync_to_panels, inactive_panel, panel_slot. fm_cbn; destruct (active_panel s); reflexivity. Qed.

Lemma reset_active_slot_inactive s :
  inactive_panel (reset_active_slot s) = inactive_panel s.
Proof. unfold reset_active_slot, inactive_panel, panel_slot. fm_cbn; destruct (active_panel s); reflexivity. Qed.

(** A refresh in dual mode treats the inactive panel as a refresh of its
    slot alone would, from any state that agrees on that slot. *)
Lemma refresh_files_inactive (fs : FS) s1 s :
  dual_panel_mode s1 = true →
  active_panel s1 = active_panel s → show_hidden s1 = show_hidden s →
  inactive_panel s1 = inactive_panel s →
  inactive_panel (refresh_files fs s1)
  = inactive_panel (refresh_panel_files fs (other_panel (active_panel s)) s).
Proof.
  intros Hdual Hact Hhid Hslot. unfold inactive_panel in *.
  destruct (refresh_files_dual_globals fs s1 Hdual) as [-> _].
  destruct (refresh_panel_files_globals fs (other_panel (active_panel s)) s)
    as (_ & _ & -> & _).
  rewrite Hact in *. rewrite refresh_files_dual_slot by done.
  by apply refresh_panel_files_ext.
Qed.

Lemma navigate_left_inactive (fs : FS) s :
  dual_panel_mode s = true →
  inactive_panel (navigate_left fs s)
  = inactive_panel (refresh_panel_files fs (other_panel (active_panel s)) s).
Proof.
  intros Hdual. unfold navigate_left. rewrite Hdual.
  apply refresh_files_inactive.
  - fm_cases; done.
  - fm_cases; unfold reset_active_slot, sync_to_panels; fm_cases; done.
  - fm_cases; unfold reset_active_slot, sync_to_panels; fm_cases; done.
  - fm_cases; rewrite ?reset_active_slot_inactive;
      unfold inactive_panel, panel_slot, sync_to_panels; fm_cbn; destruct (active_panel s); reflexivity.
Qed.

(** The refresh of a slot, component by component. *)
Lemma refresh_panel_files_relisted (fs : FS) i s :
  panel_slot i (refresh_panel_files fs i s)
  = relisted fs (show_hidden s) (panel_slot i s).
Proof.
  unfold refresh_panel_files, relisted, store_panel_listing, panel_slot.
  change (sorted_listing (show_hidden s) []) with (@nil Entry).
  destruct (iterdir fs _) as [raws|[msg|msg]];
    [destruct (scan_raised _ raws) as [[msg|msg]|]| |]; destruct i; fm_cbn;
    repeat (case_match; fm_cbn); try reflexivity; try lia.
Qed.

Lemma navigate_left_relisted (fs : FS) s :
  dual_panel_mode s = true →
  inactive_panel (navigate_left fs s)
  = relisted fs (show_hidden s) (inactive_panel s).
Proof.
  intros Hdual. rewrite navigate_left_inactive by done. unfold inactive_panel.
  destruct (refresh_panel_files_globals fs (other_panel (active_panel s)) s)
    as (_ & _ & -> & _).
  apply refresh_panel_files_relisted.
Qed.

(** With an entry under the cursor, [open_file] returns. *)
Lemma open_file_returns (fs : FS) s selected_file :
  py_index (files s) (selected_index s) = Some selected_file →
  ∃ s', open_file fs s = Ok s'.
Proof.
  intros Hentry. unfold open_file, index_or_raise. rewrite Hentry.
  cbn [mbind result_bind]. repeat case_match; by eexists.
Qed.

(** Right on a file: the file is opened. *)
Lemma navigate_right_file (fs : FS) s selected_file :
  dual_panel_mode s = true →
  py_index (files s) (selected_index s) = Some selected_file →
  e_is_dir selected_file = false →
  ∃ s', navigate_right fs s = Ok s' ∧ inactive_panel s' = inactive_panel s.
Proof.
  intros Hdual Hentry Hfile.
  assert (list_truthy (files s) = true) as Hsome
    by (destruct (files s); [by destruct (selected_index s)|done]).
  destruct (open_file_returns fs (sync_to_panels s) selected_file) as [s' Hopen].
  { unfold sync_to_panels. fm_cbn. exact Hentry. }
  exists s'. unfold navigate_right. rewrite Hsome, Hdual. cbn [negb].
  unfold index_or_raise.
  assert (py_index (files (sync_to_panels s)) (selected_index (sync_to_panels s))
          = Some selected_file) as ->
    by (unfold sync_to_panels; fm_cbn; exact Hentry).
  cbn [mbind result_bind]. rewrite Hfile. split; [exact Hopen|].
  apply open_file_inactive in Hopen. by rewrite Hopen, sync_to_panels_inactive.
Qed.

(** Right on a directory, by what opening its listing does. *)
Lemma navigate_right_directory (fs : FS) s selected_file :
  dual_panel_mode s = true →
  py_index (files s) (selected_index s) = Some selected_file →
  e_is_dir selected_file = true →
  match iterdir fs (path_join (current_path s) (e_name selected_file)) with
  | Ok _ =>
      ∃ s', navigate_right fs s = Ok s' ∧
            inactive_panel s' = relisted fs (show_hidden s) (inactive_panel s)
  | Raise (PermissionError _) =>
      ∃ s', navigate_right fs s = Ok s' ∧ inactive_panel s' = inactive_panel s
  | Raise (OtherException msg) => navigate_right fs s = Raise (OtherException msg)
  end.
Proof.
  intros Hdual Hentry Hdir.
  assert (list_truthy (files s) = true) as Hsome
    by (destruct (files s); [by destruct (selected_index s)|done]).
  unfold navigate_right. rewrite Hsome, Hdual. cbn [negb].
  unfold index_or_raise.
  assert (py_index (files (sync_to_panels s)) (selected_index (sync_to_panels s))
          = Some selected_file) as ->
    by (unfold sync_to_panels; fm_cbn; exact Hentry).
  cbn [mbind result_bind]. rewrite Hdir.
  assert (current_path (sync_to_panels s) = current_path s) as ->
    by (unfold sync_to_panels; fm_cbn; reflexivity).
  assert (dual_panel_mode (sync_to_panels s) = true) as Hdual'
    by (unfold sync_to_panels; fm_cbn; exact Hdual).
  destruct (iterdir fs _) as [raws|[msg|msg]]; [| |done].
  - eexists. split; [reflexivity|].
    rewrite refresh_files_inactive with (s := s).
    + unfold inactive_panel.
      destruct (refresh_panel_files_globals fs (other_panel (active_panel s)) s)
        as (_ & _ & -> & _).
      apply refresh_panel_files_relisted.
    + fm_cbn. rewrite Hdual'. unfold reset_active_slot. fm_cbn. exact Hdual'.
    + fm_cbn. rewrite Hdual'. unfold reset_active_slot, sync_to_panels. fm_cbn.
      reflexivity.
    + fm_cbn. rewrite Hdual'. unfold reset_active_slot, sync_to_panels. fm_cbn.
      reflexivity.
    + fm_cbn. rewrite Hdual'.
      unfold inactive_panel, panel_slot, reset_active_slot, sync_to_panels.
      fm_cbn. destruct (active_panel s); reflexivity.
  - eexists. split; [reflexivity|]. unfold show_message.
    change (inactive_panel (set_message ?m ?t)) with (inactive_panel t).
    apply sync_to_panels_inactive.
Qed.

(** Enter looks at the entry under the cursor and then does what Right
    does on a directory, and opens a file itself. *)
Lemma enter_directory_on_entry (fs : FS) s selected_file :
  py_index (files s) (selected_index s) = Some selected_file →
  enter_directory fs s
  = if e_is_dir selected_file then navigate_right fs s else open_file fs s.
Proof.
  intros Hentry.
  assert (list_truthy (files s) = true) as Hsome
    by (destruct (files s); [by destruct (selected_index s)|done]).
  unfold enter_directory, index_or_raise. by rewrite Hsome, Hentry.
Qed.

(** A re-listing keeps the path and the scroll offset of the slot. *)
Lemma relisted_keeps (fs : FS) show_hidden slot :
  (relisted fs show_hidden slot).1.1.1.1 = slot.1.1.1.1 ∧
  (relisted fs show_hidden slot).1.2 = slot.1.2.
Proof.
  destruct slot as [[[[path entries] index] scroll] selection]. unfold relisted.
  destruct (iterdir fs path) as [raws|[msg|msg]];
    [destruct (scan_raised _ raws) as [[msg|msg]|]| |]; done.
Qed.

(** C3 (as amended).  In dual mode, moving the cursor and changing the
    selection leave the five components of the inactive panel (path,
    entries, cursor, scroll offset, selection) as they are.  Going to the
    parent always ends in a refresh of both panels, and so does Right or
    Enter on a directory whose listing can be opened: the inactive panel is
    then [relisted], which keeps its path and scroll offset and, when its
    directory can be scanned or the scan is left on a permission error,
    stores the listing, puts the cursor on the last entry if it was beyond
    it and empties the selection; on any other exception it empties the
    entries and leaves cursor and selection.  Right or Enter with no entry,
    on a file, or on a directory whose listing raises a permission error
    return and leave the inactive panel as it is; on a directory whose
    listing raises another exception they raise it, and with the cursor
    outside a listing that is not empty they raise [IndexError]. *)
Theorem inactive_panel_frame (fs : FS) (height : Z) (s : FileManager) :
  dual_panel_mode s = true →
  let after_refresh := relisted fs (show_hidden s) (inactive_panel s) in
  inactive_panel (navigate_up height s) = inactive_panel s ∧
  inactive_panel (navigate_down height s) = inactive_panel s ∧
  (∀ s', toggle_selection s = Ok s' → inactive_panel s' = inactive_panel s) ∧
  inactive_panel (select_all s) = inactive_panel s ∧
  inactive_panel (clear_selection s) = inactive_panel s ∧
  inactive_panel (navigate_left fs s) = after_refresh ∧
  (files s = [] → navigate_right fs s = Ok s ∧ enter_directory fs s = Ok s) ∧
  (∀ selected_file,
     py_index (files s) (selected_index s) = Some selected_file →
     if e_is_dir selected_file then
       match iterdir fs (path_join (current_path s) (e_name selected_file)) with
       | Ok _ =>
           ∃ s', navigate_right fs s = Ok s' ∧ enter_directory fs s = Ok s' ∧
                 inactive_panel s' = after_refresh
       | Raise (PermissionError _) =>
           ∃ s', navigate_right fs s = Ok s' ∧ enter_directory fs s = Ok s' ∧
                 inactive_panel s' = inactive_panel s
       | Raise (OtherException msg) =>
           navigate_right fs s = Raise (OtherException msg) ∧
           enter_directory fs s = Raise (OtherException msg)
       end
     else
       ∃ s1 s2, navigate_right fs s = Ok s1 ∧ enter_directory fs s = Ok s2 ∧
                inactive_panel s1 = inactive_panel s ∧
                inactive_panel s2 = inactive_panel s) ∧
  (files s ≠ [] → py_index (files s) (selected_index s) = None →
   navigate_right fs s = Raise IndexError ∧
   enter_directory fs s = Raise IndexError) ∧
  after_refresh.1.1.1.1 = (inactive_panel s).1.1.1.1 ∧
  after_refresh.1.2 = (inactive_panel s).1.2.
Proof.
  intros Hdual after_refresh.
  split; [apply navigate_up_inactive|].
  split; [apply navigate_down_inactive|].
  split; [apply toggle_selection_inactive|].
  split; [apply select_all_inactive|].
  split; [apply clear_selection_inactive|].
  split; [by apply navigate_left_relisted|].
  split; [|split; [|split; [|apply relisted_keeps]]].
  - intros Hnone. unfold navigate_right, enter_directory. by rewrite Hnone.
  - intros selected_file Hentry.
    rewrite (enter_directory_on_entry fs s selected_file Hentry).
    destruct (e_is_dir selected_file) eqn:Hkind.
    + pose proof (navigate_right_directory fs s selected_file Hdual Hentry Hkind)
        as Hright.
      destruct (iterdir fs _) as [raws|[msg|msg]].
      * destruct Hright as (s' & Hs' & Hslot). by exists s'.
      * destruct Hright as (s' & Hs' & Hslot). by exists s'.
      * done.
    + destruct (navigate_right_file fs s selected_file Hdual Hentry Hkind)
        as (s1 & Hs1 & Hslot1).
      destruct (open_file_returns fs s selected_file Hentry) as [s2 Hs2].
      exists s1, s2. split; [done|]. split; [done|]. split; [done|].
      by apply open_file_inactive in Hs2.
  - intros Hsome Hentry.
    assert (list_truthy (files s) = true) as Htruthy
      by (by destruct (files s)).
    unfold navigate_right, enter_directory, index_or_raise.
    rewrite Htruthy, Hdual, Hentry. cbn [negb].
    assert (py_index (files (sync_to_panels s)) (selected_index (sync_to_panels s))
            = None) as ->
      by (unfold sync_to_panels; fm_cbn; exact Hentry).
    done.
Qed.

End InactivePanel.

(** The frame, run on the two panels of [/home]: the cursor moves in the
    right panel and the selection held by the left panel stays; Right on
    the directory [A] returns and re-lists the left panel. *)
Lemma inactive_panel_frame_witness :
  dual_panel_mode Samples.two_panels = true ∧
  inactive_panel (navigate_down 24 Samples.two_panels)
  = inactive_panel Samples.two_panels ∧
  elements (inactive_panel (navigate_down 24 Samples.two_panels)).2 = [0] ∧
  ∃ s', navigate_right Samples.disk Samples.two_panels = Ok s' ∧
        inactive_panel s'
        = relisted Samples.disk false (inactive_panel Samples.two_panels) ∧
        elements (inactive_panel s').2 = [].
Proof.
  assert (dual_panel_mode Samples.two_panels = true) as Hdual
    by (vm_compute; reflexivity).
  split; [exact Hdual|].
  destruct (inactive_panel_frame Samples.disk 24 Samples.two_panels Hdual)
    as (_ & Hdown & _ & _ & _ & _ & _ & Hright & _).
  split; [exact Hdown|]. split; [vm_compute; reflexivity|].
  assert (∃ selected_file,
            py_index (files Samples.two_panels) (selected_index Samples.two_panels)
            = Some selected_file ∧ e_is_dir selected_file = true ∧
            ∃ raws, iterdir Samples.disk
                      (path_join (current_path Samples.two_panels)
                         (e_name selected_file)) = Ok raws)
    as (selected_file & Hentry & Hkind & raws & Hiter)
    by (eexists; split; [vm_compute; reflexivity|];
        split; [vm_compute; reflexivity|]; eexists; vm_compute; reflexivity).
  specialize (Hright selected_file Hentry). rewrite Hkind, Hiter in Hright.
  destruct Hright as (s' & Hs' & _ & Hslot).
  exists s'. split; [exact Hs'|]. split; [exact Hslot|].
  rewrite Hslot. vm_compute. reflexivity.
Defined.

(** Left in the right panel when the directory of the left panel is gone:
    the entries of the left panel are emptied, and its cursor and its
    selection are left as they were. *)
Example inactive_panel_of_a_lost_directory :
  let s := Samples.two_panels in
  let s' := navigate_left Samples.disk_without_home s in
  (inactive_panel s).1.1.1.1 = ["home"] ∧
  iterdir Samples.disk_without_home ["home"] = Raise MemFS.no_such_file ∧
  (inactive_panel s').1.1.1.2 = [] ∧
  (inactive_panel s').1.1.2 = (inactive_panel s).1.1.2 ∧
  elements (inactive_panel s').2 = [0].
Proof.
  cbv zeta. split; [vm_compute; reflexivity|]. split; [vm_compute; reflexivity|].
  split; [vm_compute; reflexivity|]. split; vm_compute; reflexivity.
Qed.

(** C3 fails as stated: going to the parent in the right panel empties the
    selection that the left, inactive panel held. *)
Lemma navigation_clears_inactive_selection :
  let s := Samples.two_panels in
  let s' := navigate_left Samples.disk s in
  dual_panel_mode s = true ∧ active_panel s = PRight ∧ active_panel s' = PRight ∧
  elements (inactive_panel s).2 = [0] ∧
  elements (inactive_panel s').2 = [] ∧
  inactive_panel s' ≠ inactive_panel s.
Proof.
  cbv zeta. repeat split; try (vm_compute; reflexivity).
  intros Heq. apply (f_equal (λ slot, elements slot.2)) in Heq.
  vm_compute in Heq. discriminate.
Qed.

(** ** Search and filter over a listing *)

Section Overlay.
Context {FS : Type} `{FileSystem FS}.

Lemma list_truthy_false {A} (l : list A) : list_truthy l = false → l = [].
Proof. by destruct l. Qed.

Lemma clear_search_filter_files s :
  files (clear_search_filter s)
  = if list_truthy (original_files s) then original_files s else files s.
Proof. unfold clear_search_filter, store_active_files. fm_cases_all; done. Qed.

Lemma clear_search_filter_original s : original_files (clear_search_filter s) = [].
Proof.
  unfold clear_search_filter, store_active_files.
  fm_cases_all; auto using list_truthy_false.
Qed.

Lemma apply_search_filter_original s :
  original_files (apply_search_filter s)
  = if list_truthy (original_files s) then original_files s else files s.
Proof. unfold apply_search_filter, store_active_files. fm_cases_all; done. Qed.

Lemma apply_search_filter_files s :
  files (apply_search_filter s)
  = List.filter
      (overlay_keeps s)
      (if list_truthy (original_files s) then original_files s else files s).
Proof.
  unfold apply_search_filter, store_active_files, overlay_keeps.
  fm_cases_all; done.
Qed.

Lemma clear_after_apply_search_filter s :
  original_files s = [] →
  files (clear_search_filter (apply_search_filter s)) = files s.
Proof.
  intros Horig.
  rewrite clear_search_filter_files, apply_search_filter_original,
    apply_search_filter_files, Horig.
  cbn [list_truthy]. by destruct (files s).
Qed.

Lemma clear_twice s :
  original_files s = [] →
  files (clear_search_filter (clear_search_filter s)) = files s.
Proof.
  intros Horig.
  rewrite clear_search_filter_files, clear_search_filter_original.
  cbn [list_truthy]. rewrite clear_search_filter_files, Horig. done.
Qed.

Lemma files_show_message m s : files (show_message m s) = files s.
Proof. reflexivity. Qed.

Lemma original_files_show_message m s :
  original_files (show_message m s) = original_files s.
Proof. reflexivity. Qed.

Lemma clear_after_apply_overlay o s :
  original_files s = [] →
  files (clear_search_filter (apply_overlay o s)) = files s.
Proof.
  intros Horig. destruct o as [query|extension]; cbn [apply_overlay].
  - unfold start_search_on. case_match; [|by apply clear_twice].
    rewrite clear_search_filter_files.
    rewrite !original_files_show_message, files_show_message.
    rewrite apply_search_filter_original, apply_search_filter_files. fm_cbn.
    rewrite Horig. cbn [list_truthy]. by destruct (files s).
  - unfold start_filter_on. case_match; [|by apply clear_twice].
    rewrite clear_search_filter_files.
    rewrite !original_files_show_message, files_show_message.
    rewrite apply_search_filter_original, apply_search_filter_files. fm_cbn.
    rewrite Horig. cbn [list_truthy]. by destruct (files s).
Qed.

(** C4 (as amended).  When no unfiltered snapshot is held
    ([original_files] is empty: no search or filter is over the listing),
    taking the overlay away right after putting it on gives back exactly
    the entries that were listed before, and leaves no snapshot behind;
    this holds for the method [apply_search_filter] and for every answer
    typed into the search or the filter dialog. *)
Theorem clear_overlay_restores_entries (s : FileManager) (o : overlay) :
  original_files s = [] →
  files (clear_search_filter (apply_search_filter s)) = files s ∧
  files (clear_search_filter (apply_overlay o s)) = files s ∧
  original_files (clear_search_filter (apply_overlay o s)) = [].
Proof.
  intros Horig. split; [by apply clear_after_apply_search_filter|].
  split; [by apply clear_after_apply_overlay|].
  apply clear_search_filter_original.
Qed.

(** C5 (as amended).  F5 in single mode, on a directory that can be
    listed ([iterdir] returns and no child makes the scan raise), with a
    search or a filter over the listing: the path stays, the overlay is
    discarded (both modes off, query and extension empty, snapshot dropped)
    and the entries are the full sorted listing again. *)
Theorem f5_discards_overlay (fs : FS) (s : FileManager) (raws : list RawEntry) :
  dual_panel_mode s = false →
  iterdir fs (current_path s) = Ok raws →
  scan_raised (show_hidden s) raws = None →
  search_mode s || filter_mode s = true →
  let s' := on_key_f5 fs s in
  current_path s' = current_path s ∧
  search_mode s' = false ∧ filter_mode s' = false ∧
  search_query s' = "" ∧ filter_extension s' = "" ∧
  original_files s' = [] ∧
  files s' = sorted_listing (show_hidden s) raws.
Proof.
  intros Hdual Hiter Hscan Hoverlay. unfold on_key_f5, refresh_files.
  rewrite Hdual. fm_cbn. rewrite Hiter, Hscan.
  fm_cases_all; try done; congruence.
Qed.

End Overlay.

(** The round trip on [/home]: a filter for [mp3] keeps [a.mp3] and
    [c.MP3], and clearing it brings the four entries back. *)
Lemma clear_overlay_restores_entries_witness :
  original_files Samples.home = [] ∧
  map e_name (files (apply_overlay (FilterBy "mp3") Samples.home))
  = ["a.mp3"; "c.MP3"] ∧
  files (clear_search_filter (apply_overlay (FilterBy "mp3") Samples.home))
  = files Samples.home.
Proof.
  assert (original_files Samples.home = []) as Horig by (vm_compute; reflexivity).
  split; [exact Horig|]. split; [vm_compute; reflexivity|].
  destruct (clear_overlay_restores_entries Samples.home (FilterBy "mp3") Horig)
    as (_ & Hback & _).
  exact Hback.
Defined.

(** C4 fails as stated: with the search for "a" already over [/home]
    (entries [A], [a.mp3]), a filter for [mp3] followed by a clear gives the
    four entries of the directory, not the two that were listed before the
    filter. *)
Lemma clear_overlay_restores_snapshot_not_entries :
  let s := Samples.searching in
  let s' := clear_search_filter (apply_overlay (FilterBy "mp3") s) in
  map e_name (files s) = ["A"; "a.mp3"] ∧
  map e_name (files s') = ["A"; "a.mp3"; "b.txt"; "c.MP3"] ∧
  files s' ≠ files s.
Proof.
  cbv zeta. split; [vm_compute; reflexivity|]. split; [vm_compute; reflexivity|].
  intros Heq. apply (f_equal length) in Heq. vm_compute in Heq. discriminate.
Qed.

(** F5 on [/home] with the search for "a" over it. *)
Lemma f5_discards_overlay_witness :
  dual_panel_mode Samples.searching = false ∧
  search_mode Samples.searching = true ∧
  search_mode (on_key_f5 Samples.disk Samples.searching) = false ∧
  map e_name (files (on_key_f5 Samples.disk Samples.searching))
  = ["A"; "a.mp3"; "b.txt"; "c.MP3"].
Proof.
  assert (dual_panel_mode Samples.searching = false) as Hdual
    by (vm_compute; reflexivity).
  assert (search_mode Samples.searching = true) as Hmode
    by (vm_compute; reflexivity).
  assert (∃ raws, iterdir Samples.disk (current_path Samples.searching) = Ok raws
                  ∧ scan_raised (show_hidden Samples.searching) raws = None)
    as (raws & Hiter & Hscan)
    by (eexists; split; vm_compute; reflexivity).
  assert (search_mode Samples.searching || filter_mode Samples.searching = true)
    as Hoverlay by (vm_compute; reflexivity).
  destruct (f5_discards_overlay Samples.disk Samples.searching raws
              Hdual Hiter Hscan Hoverlay) as (_ & Hoff & _).
  split; [exact Hdual|]. split; [exact Hmode|]. split; [exact Hoff|].
  vm_compute; reflexivity.
Defined.

(** C5 fails as stated: after F5 the search is off, its query is gone and
    the entries are the unfiltered listing. *)
Lemma f5_does_not_keep_overlay :
  let s := Samples.searching in
  let s' := on_key_f5 Samples.disk s in
  current_path s' = current_path s ∧
  search_mode s = true ∧ search_query s = "a" ∧
  map e_name (files s) = ["A"; "a.mp3"] ∧
  search_mode s' = false ∧ search_query s' = "" ∧
  map e_name (files s') = ["A"; "a.mp3"; "b.txt"; "c.MP3"] ∧
  ¬ (search_mode s' = search_mode s ∧ search_query s' = search_query s
     ∧ files s' = files s).
Proof.
  cbv zeta. repeat (split; [vm_compute; reflexivity|]).
  intros (Hmode & _). vm_compute in Hmode. discriminate.
Qed.

(** ** Paste *)

Section Paste.
Context {FS : Type} `{FileSystem FS}.

Lemma refresh_panel_files_clipboard (fs : FS) i s :
  clipboard (refresh_panel_files fs i s) = clipboard s ∧
  clipboard_action (refresh_panel_files fs i s) = clipboard_action s.
Proof.
  unfold refresh_panel_files, store_panel_listing.
  destruct (iterdir fs _) as [raws|[msg|msg]]; fm_cases_all; done.
Qed.

(** A refresh does not touch the clipboard. *)
Lemma refresh_files_clipboard (fs : FS) s :
  clipboard (refresh_files fs s) = clipboard s ∧
  clipboard_action (refresh_files fs s) = clipboard_action s.
Proof.
  unfold refresh_files. destruct (dual_panel_mode s).
  - fm_cbn.
    destruct (refresh_panel_files_clipboard fs PRight (refresh_panel_files fs PLeft s))
      as [-> ->].
    apply refresh_panel_files_clipboard.
  - fm_cbn. destruct (iterdir fs _) as [raws|[msg|msg]]; fm_cases_all; done.
Qed.

Lemma paste_loop_app action cur (l1 l2 : list Path) (acc : FS * Z * list string) :
  paste_loop action cur (l1 ++ l2) acc
  = paste_loop action cur l2 (paste_loop action cur l1 acc).
Proof. unfold paste_loop. apply foldl_app. Qed.

(** One source whose destination exists: nothing is copied or moved, the
    count stays, and one line naming it joins the errors. *)
Lemma paste_one_conflict action cur source (fs : FS) n errors :
  path_exists fs (path_join cur (path_name source)) = true →
  paste_one action cur source (fs, n, errors)
  = (fs, n, errors ++ [path_name source +:+ " already exists"]).
Proof. intros Hex. unfold paste_one. by rewrite Hex. Qed.

(** The loop only ever adds error lines, at the end. *)
Lemma paste_one_errors action cur source (acc : FS * Z * list string) :
  ∃ more, (paste_one action cur source acc).2 = acc.2 ++ more.
Proof.
  destruct acc as [[fs n] errors]. unfold paste_one.
  destruct (path_exists fs _); [by eexists|].
  destruct (match action with
            | Some Copy =>
                if path_is_dir fs source
                then shutil_copytree source (path_join cur (path_name source)) fs
                else shutil_copy2 source (path_join cur (path_name source)) fs
            | Some Cut => shutil_move source (path_join cur (path_name source)) fs
            | None => (fs, None)
            end) as [fs' [e|]]; cbn [snd].
  - by eexists.
  - exists []. by rewrite app_nil_r.
Qed.

Lemma paste_loop_errors action cur sources : ∀ acc : FS * Z * list string,
  ∃ more, (paste_loop action cur sources acc).2 = acc.2 ++ more.
Proof.
  induction sources as [|source sources IH]; intros acc.
  - exists []. by rewrite app_nil_r.
  - cbn [paste_loop foldl].
    destruct (IH (paste_one action cur source acc)) as [more2 Hmore2].
    destruct (paste_one_errors action cur source acc) as [more1 Hmore1].
    exists (more1 ++ more2). unfold paste_loop in Hmore2.
    by rewrite Hmore2, Hmore1, app_assoc.
Qed.

Lemma paste_file_unfold (fs : FS) s source sources :
  clipboard s = Some (source :: sources) →
  let r := paste_loop (clipboard_action s) (current_path s) (source :: sources)
             (fs, 0, []) in
  paste_file fs s = (r.1.1, refresh_files r.1.1 (paste_report r.1.2 r.2 s)).
Proof.
  intros Hclip. unfold paste_file. rewrite Hclip. cbv zeta.
  by destruct (paste_loop _ _ _ _) as [[fs' n] errors].
Qed.

Lemma paste_report_clipboard n errors s :
  let s' := paste_report n errors s in
  if action_is Cut (clipboard_action s) && (0 <? n)
  then clipboard s' = None ∧ clipboard_action s' = None
  else clipboard s' = clipboard s ∧ clipboard_action s' = clipboard_action s.
Proof. unfold paste_report. fm_cases_all; done. Qed.

Lemma paste_report_message n errors s :
  list_truthy errors = true →
  message (paste_report n errors s) = errors_message 3 errors.
Proof. intros Herr. unfold paste_report. rewrite Herr. fm_cases_all; done. Qed.

(** C6.  A paste of the staged paths [before ++ source :: after]: when the
    loop reaches [source] (the filesystem is then [fs1], [n1] items are
    pasted, the error lines are [errs1]) and its destination
    [current_path / source.name] exists, the item is skipped (filesystem
    and count stay), the line "<name> already exists" joins the errors, and
    the loop goes on over [after] from there; the line is still among the
    errors at the end, the closing message is built from the first three
    error lines, and with action copy the clipboard is as it was. *)
Theorem paste_conflict_skipped (fs fs1 : FS) (s : FileManager)
    (before after : list Path) (source : Path) (n1 : Z) (errs1 : list string) :
  clipboard s = Some (before ++ source :: after) →
  paste_loop (clipboard_action s) (current_path s) before (fs, 0, [])
  = (fs1, n1, errs1) →
  path_exists fs1 (path_join (current_path s) (path_name source)) = true →
  let conflict := path_name source +:+ " already exists" in
  ∃ (fs2 : FS) (pasted_count : Z) (more : list string),
    paste_one (clipboard_action s) (current_path s) source (fs1, n1, errs1)
    = (fs1, n1, errs1 ++ [conflict]) ∧
    paste_loop (clipboard_action s) (current_path s) after
      (fs1, n1, errs1 ++ [conflict])
    = (fs2, pasted_count, errs1 ++ conflict :: more) ∧
    paste_loop (clipboard_action s) (current_path s) (before ++ source :: after)
      (fs, 0, [])
    = (fs2, pasted_count, errs1 ++ conflict :: more) ∧
    paste_file fs s
    = (fs2, refresh_files fs2
              (paste_report pasted_count (errs1 ++ conflict :: more) s)) ∧
    message (paste_report pasted_count (errs1 ++ conflict :: more) s)
    = errors_message 3 (errs1 ++ conflict :: more) ∧
    (clipboard_action s = Some Copy →
     clipboard (paste_file fs s).2 = Some (before ++ source :: after) ∧
     clipboard_action (paste_file fs s).2 = Some Copy).
Proof.
  intros Hclip Hbefore Hexists conflict.
  pose proof (paste_one_conflict (clipboard_action s) (current_path s) source
                fs1 n1 errs1 Hexists) as Hone.
  destruct (paste_loop (clipboard_action s) (current_path s) after
              (fs1, n1, errs1 ++ [conflict])) as [[fs2 pasted_count] errors] eqn:Hafter.
  destruct (paste_loop_errors (clipboard_action s) (current_path s) after
              (fs1, n1, errs1 ++ [conflict])) as [more Hmore].
  rewrite Hafter in Hmore. cbn [snd] in Hmore. rewrite <- app_assoc in Hmore.
  cbn [app] in Hmore. subst errors.
  assert (paste_loop (clipboard_action s) (current_path s)
            (before ++ source :: after) (fs, 0, [])
          = (fs2, pasted_count, errs1 ++ conflict :: more)) as Hwhole.
  { rewrite paste_loop_app, Hbefore. cbn [paste_loop foldl].
    fold conflict in Hone. rewrite Hone. exact Hafter. }
  assert (paste_file fs s
          = (fs2, refresh_files fs2
                    (paste_report pasted_count (errs1 ++ conflict :: more) s)))
    as Hpaste.
  { destruct (before ++ source :: after) as [|first rest] eqn:Hsources.
    - by destruct before.
    - rewrite (paste_file_unfold fs s first rest Hclip). cbv zeta.
      by rewrite Hwhole. }
  exists fs2, pasted_count, more.
  split; [exact Hone|]. split; [done|]. split; [exact Hwhole|].
  split; [exact Hpaste|]. split.
  - apply paste_report_message. by destruct errs1.
  - intros Hcopy. rewrite Hpaste. cbn [snd].
    destruct (refresh_files_clipboard fs2
                (paste_report pasted_count (errs1 ++ conflict :: more) s)) as [-> ->].
    pose proof (paste_report_clipboard pasted_count (errs1 ++ conflict :: more) s)
      as Hrep.
    rewrite Hcopy in Hrep. cbn [action_is andb] in Hrep.
    destruct Hrep as [-> ->]. by rewrite Hclip.
Qed.

(** Where the last of [l ++ [x]] stands in another splitting of it. *)
Lemma split_at_last {A} (l before after : list A) (x item : A) :
  l ++ [x] = before ++ item :: after →
  (after = [] ∧ before = l ∧ item = x) ∨
  (∃ after', after = after' ++ [x] ∧ l = before ++ item :: after').
Proof.
  intros Hsplit. destruct after as [|y after _] using rev_ind.
  - left. apply app_inj_tail in Hsplit as [-> ->]. done.
  - right. exists after.
    change (l ++ [x] = before ++ (item :: after) ++ [y]) in Hsplit.
    rewrite app_assoc in Hsplit. apply app_inj_tail in Hsplit as [-> ->]. done.
Qed.

(** One turn of the loop of a cut on a path that is moved. *)
Lemma paste_one_moved cur source (fs1 : FS) n1 errs1 :
  path_exists fs1 (path_join cur (path_name source)) = false →
  (shutil_move source (path_join cur (path_name source)) fs1).2 = None →
  paste_one (Some Cut) cur source (fs1, n1, errs1)
  = ((shutil_move source (path_join cur (path_name source)) fs1).1, n1 + 1, errs1).
Proof.
  intros Hfree Hmoved. unfold paste_one. rewrite Hfree.
  destruct (shutil_move _ _ _) as [fs2 raised]. cbn [fst snd] in *.
  by rewrite Hmoved.
Qed.

(** The count of a cut is positive exactly when some path is moved. *)
Lemma cut_count_positive (fs : FS) cur (sources : list Path) :
  let r := paste_loop (Some Cut) cur sources (fs, 0, []) in
  0 ≤ r.1.2 ∧
  (0 < r.1.2 ↔ ∃ before item after,
                 sources = before ++ item :: after ∧
                 moved_by_paste fs cur before item).
Proof.
  induction sources as [|x l IH] using rev_ind; cbv zeta.
  - cbn. split; [lia|]. split; [lia|]. intros (before & item & after & Hsplit & _).
    by destruct before.
  - rewrite paste_loop_app. cbv zeta in IH. destruct IH as [Hcount IH].
    change (paste_loop (Some Cut) cur [x] ?acc)
      with (paste_one (Some Cut) cur x acc).
    assert (∀ before item after,
              l ++ [x] = before ++ item :: after →
              moved_by_paste fs cur before item →
              (before = l ∧ item = x) ∨ 0 < (paste_loop (Some Cut) cur l (fs, 0, [])).1.2)
      as Hwhere.
    { intros before item after Hsplit Hmoved.
      destruct (split_at_last l before after x item Hsplit)
        as [(_ & -> & ->)|(after' & _ & Hl)]; [by left|right].
      apply IH. by exists before, item, after'. }
    assert (0 < (paste_loop (Some Cut) cur l (fs, 0, [])).1.2 →
            ∃ before item after,
              l ++ [x] = before ++ item :: after ∧ moved_by_paste fs cur before item)
      as Hearlier.
    { intros Hpos. apply IH in Hpos as (before & item & after & -> & Hmoved).
      exists before, item, (after ++ [x]). split; [|done].
      by rewrite <- app_assoc. }
    assert (∀ before item after,
              l ++ [x] = before ++ item :: after →
              moved_by_paste fs cur before item →
              0 < (paste_loop (Some Cut) cur l (fs, 0, [])).1.2 ∨
              moved_by_paste fs cur l x) as Hcases.
    { intros before item after Hsplit Hmoved.
      destruct (Hwhere before item after Hsplit Hmoved) as [[-> ->]|Hpos];
        [by right|by left]. }
    clear Hwhere. unfold moved_by_paste in Hcases at 2. cbv zeta in Hcases.
    destruct (paste_loop (Some Cut) cur l (fs, 0, [])) as [[fs1 n1] errs1] eqn:Hloop.
    cbn [fst snd] in *. unfold paste_one.
    destruct (path_exists fs1 (path_join cur (path_name x))) eqn:Hexists.
    + cbn [fst snd]. split; [done|]. split; [exact Hearlier|].
      intros (before & item & after & Hsplit & Hmoved).
      destruct (Hcases before item after Hsplit Hmoved) as [Hpos|[Hfree _]];
        [done|congruence].
    + destruct (shutil_move x (path_join cur (path_name x)) fs1)
        as [fs2 [e|]] eqn:Hmove; cbn [fst snd] in *.
      * split; [done|]. split; [exact Hearlier|].
        intros (before & item & after & Hsplit & Hmoved).
        destruct (Hcases before item after Hsplit Hmoved) as [Hpos|[_ Hraised]];
          [done|congruence].
      * split; [lia|]. split; [|lia]. intros _.
        exists l, x, []. split; [done|].
        unfold moved_by_paste. cbv zeta. rewrite Hloop. cbn [fst snd].
        rewrite Hmove. done.
Qed.

(** C7.  A paste of a staged batch leaves the clipboard empty exactly when
    the action was cut and at least one item was moved: the loop reached
    it, found its destination free, and [shutil.move] did not raise.  The
    action is then reset as well.  In every other case (copy, or cut with
    nothing moved) clipboard and action are as they were.  A move that
    clears the clipboard is the move that [shutil.move] made: the loop goes
    on from the filesystem it returned, with the count one higher, and the
    filesystem that the paste returns is the one the loop ends with. *)
Theorem paste_clears_clipboard_iff_cut_moved (fs : FS) (s : FileManager)
    (source : Path) (sources : list Path) :
  clipboard s = Some (source :: sources) →
  let staged := source :: sources in
  let cur := current_path s in
  let some_moved :=
    clipboard_action s = Some Cut ∧
    ∃ before item after,
      staged = before ++ item :: after ∧ moved_by_paste fs cur before item in
  let s' := (paste_file fs s).2 in
  (clipboard s' = None ↔ some_moved) ∧
  (clipboard s' = None → clipboard_action s' = None) ∧
  (¬ some_moved →
   clipboard s' = clipboard s ∧ clipboard_action s' = clipboard_action s) ∧
  (clipboard_action s = Some Cut →
   ∀ before item after,
     staged = before ++ item :: after → moved_by_paste fs cur before item →
     ∀ fs1 n1 errs1,
       paste_loop (Some Cut) cur before (fs, 0, []) = (fs1, n1, errs1) →
       let fs2 := (shutil_move item (path_join cur (path_name item)) fs1).1 in
       paste_loop (Some Cut) cur (before ++ [item]) (fs, 0, [])
       = (fs2, n1 + 1, errs1) ∧
       (paste_file fs s).1
       = (paste_loop (Some Cut) cur after (fs2, n1 + 1, errs1)).1.1).
Proof.
  intros Hclip staged cur some_moved s'. subst s'.
  rewrite (paste_file_unfold fs s source sources Hclip). cbv zeta. cbn [fst snd].
  fold staged cur.
  set (r := paste_loop (clipboard_action s) cur staged (fs, 0, [])).
  destruct (refresh_files_clipboard r.1.1 (paste_report r.1.2 r.2 s)) as [-> ->].
  pose proof (paste_report_clipboard r.1.2 r.2 s) as Hrep. cbv zeta in Hrep.
  assert (action_is Cut (clipboard_action s) = true ↔ clipboard_action s = Some Cut)
    as Hcut by (destruct (clipboard_action s) as [[]|]; cbn; split; done).
  assert (clipboard_action s = Some Cut →
          (0 < r.1.2 ↔ ∃ before item after,
                         staged = before ++ item :: after ∧
                         moved_by_paste fs cur before item)) as Hcount.
  { intros Haction. subst r. rewrite Haction.
    apply (cut_count_positive fs cur staged). }
  assert (action_is Cut (clipboard_action s) && (0 <? r.1.2) = true ↔ some_moved)
    as Hmoved.
  { unfold some_moved. rewrite andb_true_iff, Hcut, Z.ltb_lt. split.
    - intros [Haction Hpos]. split; [done|]. by apply Hcount.
    - intros [Haction Hsome]. split; [done|]. by apply Hcount. }
  split; [|split; [|split]].
  - destruct (action_is Cut (clipboard_action s) && (0 <? r.1.2)) eqn:Hwhen;
      destruct Hrep as [Hc Ha]; rewrite Hc.
    + split; [intros _; by apply Hmoved|done].
    + rewrite Hclip. split; [done|]. intros Hsome. apply Hmoved in Hsome. done.
  - destruct (action_is Cut (clipboard_action s) && (0 <? r.1.2)) eqn:Hwhen;
      destruct Hrep as [Hc Ha]; rewrite Hc, Ha; [done|]. by rewrite Hclip.
  - intros Hnot.
    destruct (action_is Cut (clipboard_action s) && (0 <? r.1.2)) eqn:Hwhen;
      destruct Hrep as [Hc Ha]; [|done].
    exfalso. apply Hnot. by apply Hmoved.
  - intros Haction before item after Hsplit [Hfree Hdone] fs1 n1 errs1 Hbefore.
    cbv zeta in Hfree, Hdone. rewrite Hbefore in Hfree, Hdone.
    cbn [fst snd] in Hfree, Hdone.
    assert (paste_loop (Some Cut) cur (before ++ [item]) (fs, 0, [])
            = ((shutil_move item (path_join cur (path_name item)) fs1).1,
               n1 + 1, errs1)) as Hitem.
    { rewrite paste_loop_app, Hbefore.
      change (paste_loop (Some Cut) cur [item] ?acc)
        with (paste_one (Some Cut) cur item acc).
      by apply paste_one_moved. }
    split; [exact Hitem|]. subst r. rewrite Haction, Hsplit.
    change (before ++ item :: after) with (before ++ [item] ++ after).
    rewrite app_assoc, paste_loop_app, Hitem. done.
Qed.

(** C10.  Paste with nothing staged ([clipboard] is [None] or an empty
    list): the filesystem is not touched and the state changes in its
    message only, which is "Nothing to paste". *)
Theorem paste_with_empty_clipboard (fs : FS) (s : FileManager) :
  clipboard_empty s = true →
  let '(fs', s') := paste_file fs s in
  fs' = fs ∧ s' = set_message "Nothing to paste" s ∧
  message s' = "Nothing to paste" ∧
  current_path s' = current_path s ∧ files s' = files s ∧
  selected_index s' = selected_index s ∧ scroll_offset s' = scroll_offset s ∧
  selected_files s' = selected_files s ∧
  clipboard s' = clipboard s ∧ clipboard_action s' = clipboard_action s.
Proof.
  unfold clipboard_empty, paste_file.
  destruct (clipboard s) as [[|source sources]|] eqn:Hclip;
    cbn [list_truthy negb]; [|done|]; intros _; fm_cbn; rewrite ?Hclip; done.
Qed.

End Paste.

(** ** Delete *)

Section Delete.
Context {FS : Type} `{FileSystem FS}.

(** A non-empty directory among the targets is named by the probe. *)
Lemma non_empty_dirs_names (fs : FS) (targets : list (Z * string * Path))
    (target : Z * string * Path) :
  target ∈ targets →
  is_non_empty_dir fs target.2 = Ok true →
  ∀ non_empty, non_empty_dirs fs targets = Ok non_empty →
               list_truthy non_empty = true.
Proof.
  induction targets as [|[[idx filename] filepath] targets IH];
    intros Hin Hdir non_empty Hprobe.
  - by apply elem_of_nil in Hin.
  - cbn [non_empty_dirs] in Hprobe.
    destruct (is_non_empty_dir fs filepath) as [b|e] eqn:Hfirst; [|done].
    cbn [mbind result_bind] in Hprobe.
    destruct (non_empty_dirs fs targets) as [rest|e] eqn:Hrest; [|done].
    cbn [mbind result_bind] in Hprobe. injection Hprobe as <-.
    apply elem_of_cons in Hin as [->|Hin].
    + cbn [snd] in Hdir. rewrite Hfirst in Hdir. by injection Hdir as ->.
    + destruct b; [done|]. by apply (IH Hin Hdir).
Qed.

(** C8.  The targets of a delete are confirmed with [y] or [Y]; one of
    them is a directory with something inside, so the recursive-delete
    prompt is shown (the probe of the targets does not raise); the answer to
    that prompt is not [y] or [Y].  Then nothing is deleted: the filesystem
    is returned as it was, and the state differs in its message only, which
    is "Delete cancelled" (entries, cursor and selection are as before). *)
Theorem declined_recursive_delete_changes_nothing (fs : FS) (s : FileManager)
    (key key2 : Z) (targets : list (Z * string * Path))
    (target : Z * string * Path) (children : list RawEntry)
    (non_empty : list string) :
  delete_targets s = Ok targets →
  target ∈ targets →
  path_is_dir fs target.2 = true →
  iterdir fs target.2 = Ok children → children ≠ [] →
  non_empty_dirs fs targets = Ok non_empty →
  key = 121 ∨ key = 89 →
  key2 ≠ 121 ∧ key2 ≠ 89 →
  ∃ s', delete_file key key2 fs s = Ok (fs, s') ∧
        s' = set_message "Delete cancelled" s ∧
        files s' = files s ∧ selected_index s' = selected_index s ∧
        selected_files s' = selected_files s ∧ current_path s' = current_path s.
Proof.
  intros Htargets Hin Hdir Hiter Hchildren Hprobe Hkey Hkey2.
  assert (is_non_empty_dir fs target.2 = Ok true) as Hnon_empty.
  { unfold is_non_empty_dir. rewrite Hdir, Hiter. by destruct children. }
  pose proof (non_empty_dirs_names fs targets target Hin Hnon_empty non_empty Hprobe)
    as Htruthy.
  exists (set_message "Delete cancelled" s). split; [|done].
  unfold delete_file. rewrite Htargets. cbn [mbind result_bind].
  assert (list_truthy targets = true) as ->.
  { destruct targets; [by apply elem_of_nil in Hin|done]. }
  cbn [negb].
  assert (is_yes key = true) as -> by (unfold is_yes; destruct Hkey; subst; done).
  rewrite Hprobe. cbn [mbind result_bind]. rewrite Htruthy.
  assert (is_yes key2 = false) as ->.
  { unfold is_yes. apply orb_false_iff. split; apply Z.eqb_neq; tauto. }
  done.
Qed.

End Delete.

(** ** The dialog *)

Section DialogClaim.

(** C9.  For a maximal length of at least one (the callers pass 50 and
    20): the dialog returns once a key that ends it, ESC or Enter, has come;
    whenever it returns, the keys read are some keys that do not end it,
    followed by that one key; the answer is [None] exactly when that key is
    ESC, and otherwise it is the typed text on Enter, a string of printable
    ASCII characters (codes 32 to 126) that is shorter than the maximal
    length. *)
Theorem dialog_answer (max_length : Z) (keys : list Z) :
  1 ≤ max_length →
  (Exists ends_dialog keys →
   ∃ answer rest, get_dialog_input max_length keys = Some (answer, rest)) ∧
  (∀ answer rest,
     get_dialog_input max_length keys = Some (answer, rest) →
     ∃ typed key,
       keys = typed ++ key :: rest ∧
       Forall (fun key => ¬ ends_dialog key) typed ∧
       ends_dialog key ∧
       (answer = None ↔ key = 27) ∧
       (∀ str, answer = Some str →
               is_enter key ∧ printable str ∧
               Z.of_nat (String.length str) < max_length)).
Proof.
  intros Hmax.
  assert (dialog_ok max_length "") as Hok.
  { split; [constructor|cbn; lia]. }
  pose proof (dialog_loop_returns max_length keys "" 0 Hok) as Hret.
  fold (get_dialog_input max_length keys) in Hret.
  split.
  - intros Hex. destruct (get_dialog_input max_length keys) as [[answer rest]|].
    + by eexists _, _.
    + apply Exists_exists in Hex as (key & Hin & Hend).
      rewrite Forall_forall in Hret. by destruct (Hret key Hin).
  - intros answer rest Heq. rewrite Heq in Hret.
    destruct Hret as (typed & key & -> & Htyped & Hkey).
    exists typed, key. split; [done|]. split; [done|].
    destruct Hkey as [[-> ->]|(Henter & str' & -> & Hp & Hl)].
    + split; [by left|]. split; [done|]. intros str [=].
    + split; [by right|]. split.
      * split; [done|]. intros ->. unfold is_enter, KEY_ENTER in Henter. lia.
      * intros str [= <-]. done.
Qed.

End DialogClaim.

(** ** The claims on the sample disk *)

(** The scenario of the specification: [b.txt] and [a.mp3] of [/home] are
    staged for copy and pasted into [/tmp], which holds a [b.txt] already.
    The conflict is reported, [a.mp3] is copied, the clipboard stays. *)
Lemma paste_conflict_skipped_witness :
  let s := Samples.staged_in_tmp Copy in
  clipboard s = Some [["home"; "b.txt"]; ["home"; "a.mp3"]] ∧
  path_exists Samples.disk ["tmp"; "b.txt"] = true ∧
  message (paste_file Samples.disk s).2 = "Errors: b.txt already exists" ∧
  path_exists (paste_file Samples.disk s).1 ["tmp"; "a.mp3"] = true ∧
  clipboard (paste_file Samples.disk s).2
  = Some [["home"; "b.txt"]; ["home"; "a.mp3"]] ∧
  clipboard_action (paste_file Samples.disk s).2 = Some Copy.
Proof.
  cbv zeta.
  assert (clipboard (Samples.staged_in_tmp Copy)
          = Some ([] ++ ["home"; "b.txt"] :: [["home"; "a.mp3"]])) as Hclip
    by (vm_compute; reflexivity).
  assert (paste_loop (clipboard_action (Samples.staged_in_tmp Copy))
            (current_path (Samples.staged_in_tmp Copy)) [] (Samples.disk, 0, [])
          = (Samples.disk, 0, [])) as Hbefore by reflexivity.
  assert (path_exists Samples.disk
            (path_join (current_path (Samples.staged_in_tmp Copy))
               (path_name ["home"; "b.txt"])) = true) as Hexists
    by (vm_compute; reflexivity).
  assert (clipboard_action (Samples.staged_in_tmp Copy) = Some Copy) as Hcopy
    by (vm_compute; reflexivity).
  destruct (paste_conflict_skipped Samples.disk Samples.disk
              (Samples.staged_in_tmp Copy) [] [["home"; "a.mp3"]]
              ["home"; "b.txt"] 0 [] Hclip Hbefore Hexists)
    as (fs2 & pasted_count & more & _ & _ & _ & _ & _ & Hkept).
  destruct (Hkept Hcopy) as [Hc Ha].
  split; [exact Hclip|]. split; [vm_compute; reflexivity|].
  split; [vm_compute; reflexivity|]. split; [vm_compute; reflexivity|].
  split; [exact Hc | exact Ha].
Defined.

(** The same batch staged for cut: [b.txt] is in the way, [a.mp3] is
    moved from [/home] to [/tmp], so the clipboard is empty after the
    paste. *)
Lemma paste_clears_clipboard_iff_cut_moved_witness :
  let s := Samples.staged_in_tmp Cut in
  clipboard s = Some [["home"; "b.txt"]; ["home"; "a.mp3"]] ∧
  clipboard_action s = Some Cut ∧
  moved_by_paste Samples.disk (current_path s) [["home"; "b.txt"]] ["home"; "a.mp3"] ∧
  clipboard (paste_file Samples.disk s).2 = None ∧
  clipboard_action (paste_file Samples.disk s).2 = None ∧
  path_exists (paste_file Samples.disk s).1 ["tmp"; "a.mp3"] = true ∧
  path_exists (paste_file Samples.disk s).1 ["home"; "a.mp3"] = false ∧
  path_exists (paste_file Samples.disk s).1 ["home"; "b.txt"] = true.
Proof.
  cbv zeta.
  assert (clipboard (Samples.staged_in_tmp Cut)
          = Some [["home"; "b.txt"]; ["home"; "a.mp3"]]) as Hclip
    by (vm_compute; reflexivity).
  assert (clipboard_action (Samples.staged_in_tmp Cut) = Some Cut) as Hcut
    by (vm_compute; reflexivity).
  assert (moved_by_paste Samples.disk (current_path (Samples.staged_in_tmp Cut))
            [["home"; "b.txt"]] ["home"; "a.mp3"]) as Hmoved
    by (unfold moved_by_paste; split; vm_compute; reflexivity).
  destruct (paste_clears_clipboard_iff_cut_moved Samples.disk
              (Samples.staged_in_tmp Cut) ["home"; "b.txt"] [["home"; "a.mp3"]]
              Hclip) as ([_ Hcleared] & Haction & _).
  assert (clipboard (paste_file Samples.disk (Samples.staged_in_tmp Cut)).2 = None)
    as Hnone.
  { apply Hcleared. split; [exact Hcut|].
    exists [["home"; "b.txt"]], ["home"; "a.mp3"], []. split; [reflexivity|].
    exact Hmoved. }
  split; [exact Hclip|]. split; [exact Hcut|]. split; [exact Hmoved|].
  split; [exact Hnone|]. split; [exact (Haction Hnone)|].
  split; [vm_compute; reflexivity|]. split; vm_compute; reflexivity.
Defined.

(** Paste right after the start, with nothing staged. *)
Lemma paste_with_empty_clipboard_witness :
  clipboard_empty Samples.home = true ∧
  (paste_file Samples.disk Samples.home).1 = Samples.disk ∧
  message (paste_file Samples.disk Samples.home).2 = "Nothing to paste" ∧
  files (paste_file Samples.disk Samples.home).2 = files Samples.home.
Proof.
  assert (clipboard_empty Samples.home = true) as Hempty
    by (vm_compute; reflexivity).
  pose proof (paste_with_empty_clipboard Samples.disk Samples.home Hempty) as Hpaste.
  destruct (paste_file Samples.disk Samples.home) as [fs' s'].
  destruct Hpaste as (Hfs & _ & Hmsg & _ & Hfiles & _).
  split; [exact Hempty|]. split; [exact Hfs|]. split; [exact Hmsg | exact Hfiles].
Defined.

(** Delete on the directory [A] of [/home], which holds [inner.txt]: [y]
    to the first prompt, [n] to the second. *)
Lemma declined_recursive_delete_changes_nothing_witness :
  delete_targets Samples.home = Ok [(0, "A", ["home"; "A"])] ∧
  delete_file 121 110 Samples.disk Samples.home
  = Ok (Samples.disk, set_message "Delete cancelled" Samples.home).
Proof.
  assert (delete_targets Samples.home = Ok [(0, "A", ["home"; "A"])]) as Htargets
    by (vm_compute; reflexivity).
  assert (∃ children, iterdir Samples.disk ["home"; "A"] = Ok children
                      ∧ children ≠ []) as (children & Hiter & Hchildren)
    by (eexists; split; [vm_compute; reflexivity | discriminate]).
  assert (∃ non_empty,
            non_empty_dirs Samples.disk [(0, "A", ["home"; "A"])] = Ok non_empty)
    as [non_empty Hprobe] by (eexists; vm_compute; reflexivity).
  assert ((0, "A", ["home"; "A"]) ∈ [(0, "A", ["home"; "A"])]) as Hin
    by apply list_elem_of_here.
  assert (path_is_dir Samples.disk (0, "A", ["home"; "A"]).2 = true) as Hdir
    by (vm_compute; reflexivity).
  assert (121 = 121 ∨ 121 = 89) as Hkey by (left; reflexivity).
  assert (110 ≠ 121 ∧ 110 ≠ 89) as Hkey2 by (split; discriminate).
  pose proof (declined_recursive_delete_changes_nothing Samples.disk Samples.home
                121 110 [(0, "A", ["home"; "A"])] (0, "A", ["home"; "A"])
                children non_empty Htargets Hin Hdir Hiter Hchildren Hprobe
                Hkey Hkey2) as Hcancelled.
  destruct Hcancelled as (s' & Hdelete & -> & _).
  split; [exact Htargets | exact Hdelete].
Defined.

(** The keys [h], [i], Enter typed into a dialog of at most 50. *)
Lemma dialog_answer_witness :
  1 ≤ 50 ∧
  get_dialog_input 50 [104; 105; 10] = Some (Some "hi", []) ∧
  printable "hi" ∧ Z.of_nat (String.length "hi") < 50.
Proof.
  assert (1 ≤ 50) as Hmax by lia.
  assert (get_dialog_input 50 [104; 105; 10] = Some (Some "hi", [])) as Hrun
    by (vm_compute; reflexivity).
  destruct (dialog_answer 50 [104; 105; 10] Hmax) as [_ Hanswer].
  destruct (Hanswer (Some "hi") [] Hrun) as (typed & key & _ & _ & _ & _ & Hstr).
  destruct (Hstr "hi" eq_refl) as (_ & Hprintable & Hshort).
  split; [exact Hmax|]. split; [exact Hrun|]. split; [exact Hprintable | exact Hshort].
Defined.

(** ESC after one letter: the answer is [None], and the letter is lost. *)
Example dialog_escape : get_dialog_input 50 [104; 27; 105] = Some (None, [105]).
Proof. reflexivity. Qed.

(** The overlong input: with a maximal length of 3, a third letter is not
    taken. *)
Example dialog_full : get_dialog_input 3 [97; 98; 99; 10] = Some (Some "ab", []).
Proof. reflexivity. Qed.
(** * Further properties of the methods *)

(** ** Listings *)

Section ListingExtras.
Context {FS : Type} `{FileSystem FS}.

Lemma scan_entry_name r entry : scan_entry r = Ok entry → e_name entry = raw_name r.
Proof.
  unfold scan_entry.
  destruct (raw_stat r) as [[[? ?] ?]|], (raw_is_dir r) as [is_dir|e];
    cbn [mbind result_bind]; intros [= <-]; done.
Qed.

(** A child on which [is_dir()] raises makes the body of the loop raise,
    whatever [stat] does. *)
Lemma scan_entry_raises r e : raw_is_dir r = Raise e → scan_entry r = Raise e.
Proof.
  intros Hraise. unfold scan_entry. rewrite Hraise.
  by destruct (raw_stat r) as [[[? ?] ?]|].
Qed.

Lemma scan_entry_without_stat r :
  raw_stat r = None →
  scan_entry r = (is_dir ← raw_is_dir r; Ok (mkEntry (raw_name r) is_dir 0 0 0)).
Proof. intros Hstat. unfold scan_entry. by rewrite Hstat. Qed.

Lemma scan_loop_cons show_hidden r raws :
  scan_loop show_hidden (r :: raws)
  = if hidden_skipped show_hidden r then scan_loop show_hidden raws
    else match scan_entry r with
         | Ok entry => (entry :: (scan_loop show_hidden raws).1,
                        (scan_loop show_hidden raws).2)
         | Raise e => ([], Some e)
         end.
Proof.
  cbn [scan_loop]. destruct (hidden_skipped show_hidden r); [done|].
  destruct (scan_entry r); [|done]. by destruct (scan_loop show_hidden raws).
Qed.

Lemma shown_not_skipped show_hidden r :
  show_hidden || negb (PyStr.startswith (raw_name r) ".")
  = negb (hidden_skipped show_hidden r).
Proof.
  unfold hidden_skipped.
  by destruct show_hidden, (PyStr.startswith (raw_name r) ".").
Qed.

(** A scan that is not left lists one entry per child that is not
    skipped, under its name. *)
Lemma scan_entries_names show_hidden raws :
  scan_raised show_hidden raws = None →
  map e_name (scan_entries show_hidden raws)
  = map raw_name
      (List.filter (fun r => show_hidden || negb (PyStr.startswith (raw_name r) "."))
         raws).
Proof.
  unfold scan_raised, scan_entries.
  induction raws as [|r raws IH]; [done|]. rewrite scan_loop_cons.
  cbn [List.filter]. rewrite shown_not_skipped.
  destruct (hidden_skipped show_hidden r); cbn [negb]; [exact IH|].
  destruct (scan_entry r) as [entry|e] eqn:Hentry; cbn [fst snd]; [|done].
  intros Hrest. cbn [map]. by rewrite IH, (scan_entry_name r entry).
Qed.

(** ... and the entry of each of them is among the entries. *)
Lemma scan_entries_complete show_hidden raws r :
  scan_raised show_hidden raws = None →
  r ∈ raws → hidden_skipped show_hidden r = false →
  ∃ entry, scan_entry r = Ok entry ∧ entry ∈ scan_entries show_hidden raws.
Proof.
  unfold scan_raised, scan_entries. intros Hscan Hin Hshown.
  induction raws as [|r' raws IH]; [by apply elem_of_nil in Hin|].
  rewrite (scan_loop_cons show_hidden r' raws) in Hscan |- *.
  destruct (hidden_skipped show_hidden r') eqn:Hskip.
  - apply elem_of_cons in Hin as [->|Hin]; [congruence|by apply IH].
  - destruct (scan_entry r') as [entry'|e] eqn:Hentry; cbn [fst snd] in *; [|done].
    apply elem_of_cons in Hin as [->|Hin].
    + exists entry'. split; [done|apply list_elem_of_here].
    + destruct (IH Hscan Hin) as (entry & Hok & Hlisted).
      exists entry. split; [done|by apply list_elem_of_further].
Qed.

(** A scan is left at the first child, not skipped, on which [is_dir()]
    raises: the entries are those of the children before it. *)
Lemma scan_loop_left show_hidden before r after e :
  scan_raised show_hidden before = None →
  hidden_skipped show_hidden r = false → raw_is_dir r = Raise e →
  scan_loop show_hidden (before ++ r :: after)
  = (scan_entries show_hidden before, Some e).
Proof.
  unfold scan_raised, scan_entries. intros Hbefore Hshown Hraise.
  induction before as [|r' before IH]; cbn [app].
  - rewrite scan_loop_cons, Hshown, (scan_entry_raises r e Hraise). done.
  - rewrite (scan_loop_cons show_hidden r' before) in Hbefore |- *.
    rewrite (scan_loop_cons show_hidden r' (before ++ r :: after)).
    destruct (hidden_skipped show_hidden r'); [by apply IH|].
    destruct (scan_entry r') as [entry'|e']; cbn [fst snd] in *; [|done].
    by rewrite IH.
Qed.

(** X1.  When the directory can be read, the names that a refresh lists are
    the names of the children, without those that start with a dot unless
    hidden files are shown; nothing else is dropped and nothing is added. *)
Theorem refresh_lists_children_but_hidden (fs : FS) (s : FileManager)
    (raws : list RawEntry) :
  iterdir fs (listed_path s) = Ok raws →
  scan_raised (show_hidden s) raws = None →
  map e_name (files (refresh_files fs s))
  ≡ₚ map raw_name
       (List.filter
          (fun r => show_hidden s || negb (PyStr.startswith (raw_name r) ".")) raws).
Proof.
  intros Hiter Hscan. rewrite refresh_files_listing. unfold listing_of.
  rewrite Hiter, Hscan. unfold sorted_listing. rewrite sort_entries_Permutation.
  by rewrite scan_entries_names.
Qed.

(** The single-mode refresh when the scan is left. *)
Lemma refresh_files_single_left (fs : FS) s raws e :
  dual_panel_mode s = false →
  iterdir fs (current_path s) = Ok raws →
  scan_raised (show_hidden s) raws = Some e →
  refresh_files fs s
  = set_message
      match e with
      | PermissionError _ => "Permission denied"
      | OtherException msg => "Error reading directory: " +:+ msg
      end (set_files [] s).
Proof.
  intros Hdual Hiter Hscan. unfold refresh_files. rewrite Hdual. fm_cbn.
  rewrite Hiter, Hscan. by destruct e.
Qed.

(** X2.  A child whose [stat] fails.  When the directory is scanned to its
    end, the child is listed all the same, as a directory or not as
    [is_dir()] says, with size, mode and modification time 0.  When
    [is_dir()] raises on it (as it does where [stat] fails for want of a
    permission), the scan is left at this child: a refresh in single mode
    then lists nothing, says so in its message and leaves cursor and
    selection as they were; a refresh in dual mode lists the children
    scanned before it, sorted, on a permission error, and nothing on any
    other exception. *)
Theorem refresh_keeps_unstattable_entries (fs : FS) (s : FileManager)
    (raws : list RawEntry) (r : RawEntry) :
  iterdir fs (listed_path s) = Ok raws →
  r ∈ raws → raw_stat r = None →
  show_hidden s || negb (PyStr.startswith (raw_name r) ".") = true →
  (scan_raised (show_hidden s) raws = None →
   ∃ is_dir, raw_is_dir r = Ok is_dir ∧
             mkEntry (raw_name r) is_dir 0 0 0 ∈ files (refresh_files fs s)) ∧
  (∀ before after e,
     raws = before ++ r :: after →
     scan_raised (show_hidden s) before = None →
     raw_is_dir r = Raise e →
     scan_raised (show_hidden s) raws = Some e ∧
     files (refresh_files fs s)
     = match e with
       | PermissionError _ =>
           if dual_panel_mode s
           then sort_entries (scan_entries (show_hidden s) before) else []
       | OtherException _ => []
       end ∧
     (dual_panel_mode s = false →
      selected_index (refresh_files fs s) = selected_index s ∧
      selected_files (refresh_files fs s) = selected_files s ∧
      message (refresh_files fs s)
      = match e with
        | PermissionError _ => "Permission denied"
        | OtherException msg => "Error reading directory: " +:+ msg
        end)).
Proof.
  intros Hiter Hin Hstat Hshown.
  assert (hidden_skipped (show_hidden s) r = false) as Hkept
    by (rewrite shown_not_skipped in Hshown; by apply negb_true_iff).
  split.
  - intros Hscan.
    destruct (scan_entries_complete (show_hidden s) raws r Hscan Hin Hkept)
      as (entry & Hentry & Hlisted).
    rewrite (scan_entry_without_stat r Hstat) in Hentry.
    destruct (raw_is_dir r) as [is_dir|e]; [|done].
    cbn [mbind result_bind] in Hentry. injection Hentry as <-.
    exists is_dir. split; [done|].
    rewrite refresh_files_listing. unfold listing_of. rewrite Hiter, Hscan.
    unfold sorted_listing. by rewrite sort_entries_Permutation.
  - intros before after e -> Hbefore Hraise.
    pose proof (scan_loop_left (show_hidden s) before r after e
                  Hbefore Hkept Hraise) as Hleft.
    assert (scan_raised (show_hidden s) (before ++ r :: after) = Some e) as Hscan
      by (unfold scan_raised; by rewrite Hleft).
    split; [exact Hscan|]. split.
    + rewrite refresh_files_listing. unfold listing_of. rewrite Hiter, Hscan.
      unfold sorted_listing, scan_entries at 1. rewrite Hleft. cbn [fst].
      by destruct e.
    + intros Hdual. unfold listed_path in Hiter. rewrite Hdual in Hiter.
      rewrite (refresh_files_single_left fs s _ e Hdual Hiter Hscan). done.
Qed.

Lemma refresh_files_single_ok (fs : FS) (s : FileManager)
    (raws : list RawEntry) :
  dual_panel_mode s = false →
  iterdir fs (current_path s) = Ok raws →
  scan_raised (show_hidden s) raws = None →
  let s' := refresh_files fs s in
  current_path s' = current_path s ∧ scroll_offset s' = scroll_offset s ∧
  selected_files s' = ∅ ∧ search_mode s' = false ∧ filter_mode s' = false ∧
  selected_index s'
  = (if len (files s') <=? selected_index s
     then Z.max 0 (len (files s') - 1) else selected_index s) ∧
  (0 ≤ selected_index s → index_in_range s').
Proof.
  intros Hdual Hiter Hscan. unfold index_in_range, refresh_files.
  rewrite Hdual. fm_cbn. rewrite Hiter, Hscan. cbn [app].
  fm_cases_all; repeat split; try done; try lia;
    repeat match goal with
           | Hx : (_ || _) = false |- _ => apply orb_false_iff in Hx as [? ?]
           end; try done.
Qed.

(** X3.  A refresh in single mode that can read the directory keeps path
    and scroll offset, empties the selection, switches search and filter
    off, and leaves the cursor where it was when that is still inside the
    listing, on the last entry otherwise. *)
Theorem refresh_single_mode_effects (fs : FS) (s : FileManager)
    (raws : list RawEntry) :
  dual_panel_mode s = false →
  iterdir fs (current_path s) = Ok raws →
  scan_raised (show_hidden s) raws = None →
  let s' := refresh_files fs s in
  current_path s' = current_path s ∧ scroll_offset s' = scroll_offset s ∧
  selected_files s' = ∅ ∧ search_mode s' = false ∧ filter_mode s' = false ∧
  selected_index s'
  = (if len (files s') <=? selected_index s
     then Z.max 0 (len (files s') - 1) else selected_index s) ∧
  (0 ≤ selected_index s → index_in_range s').
Proof. apply refresh_files_single_ok. Qed.

End ListingExtras.

(** The file manager started in [/mnt], where the broken link [lost]
    cannot be examined: it is listed with zeros.  Started in [/srv], where
    [is_dir()] raises on [locked]: nothing is listed. *)
Lemma refresh_keeps_unstattable_entries_witness :
  mkEntry "lost" false 0 0 0 ∈ files (init ListFS.mnt ["mnt"]) ∧
  files (init ListFS.mnt ["srv"]) = [] ∧
  message (init ListFS.mnt ["srv"]) = "Permission denied".
Proof.
  assert (∃ is_dir,
            raw_is_dir (mkRaw "lost" (Ok false) None) = Ok is_dir ∧
            mkEntry (raw_name (mkRaw "lost" (Ok false) None)) is_dir 0 0 0
            ∈ files (init ListFS.mnt ["mnt"])) as (is_dir & Hkind & Hlisted).
  { apply (refresh_keeps_unstattable_entries ListFS.mnt
             (sync_to_panels (initial_state ["mnt"]))
             [mkRaw "seen" (Ok false) (Some (3, 33188, 0));
              mkRaw "lost" (Ok false) None]
             (mkRaw "lost" (Ok false) None)).
    - vm_compute; reflexivity.
    - apply list_elem_of_further, list_elem_of_here.
    - reflexivity.
    - vm_compute; reflexivity.
    - vm_compute; reflexivity. }
  injection Hkind as <-. split; [exact Hlisted|].
  assert (iterdir ListFS.mnt (listed_path (sync_to_panels (initial_state ["srv"])))
          = Ok ([mkRaw "b" (Ok false) None; mkRaw "a" (Ok false) None]
                ++ mkRaw "locked" (Raise MemFS.permission_denied) None
                :: [mkRaw "z" (Ok false) None])) as Hiter
    by (vm_compute; reflexivity).
  assert (mkRaw "locked" (Raise MemFS.permission_denied) None
          ∈ [mkRaw "b" (Ok false) None; mkRaw "a" (Ok false) None]
            ++ mkRaw "locked" (Raise MemFS.permission_denied) None
            :: [mkRaw "z" (Ok false) None]) as Hin
    by (apply list_elem_of_further, list_elem_of_further, list_elem_of_here).
  assert (show_hidden (sync_to_panels (initial_state ["srv"]))
          || negb (PyStr.startswith
                     (raw_name (mkRaw "locked" (Raise MemFS.permission_denied) None))
                     ".") = true) as Hshown by (vm_compute; reflexivity).
  destruct (refresh_keeps_unstattable_entries ListFS.mnt
              (sync_to_panels (initial_state ["srv"])) _ _ Hiter Hin eq_refl Hshown)
    as [_ Hleft].
  destruct (Hleft [mkRaw "b" (Ok false) None; mkRaw "a" (Ok false) None]
              [mkRaw "z" (Ok false) None] MemFS.permission_denied eq_refl)
    as (_ & Hfiles & Hrest); [vm_compute; reflexivity|reflexivity|].
  destruct Hrest as (_ & _ & Hmessage); [vm_compute; reflexivity|].
  split; [exact Hfiles|exact Hmessage].
Defined.

(** The listing of [/home] with hidden files off. *)
Lemma refresh_lists_children_but_hidden_witness :
  map e_name (files Samples.home) ≡ₚ ["b.txt"; "A"; "a.mp3"; "c.MP3"].
Proof.
  assert (∃ raws, iterdir Samples.disk
                    (listed_path (sync_to_panels (initial_state ["home"]))) = Ok raws
                  ∧ scan_raised false raws = None
                  ∧ map raw_name
                      (List.filter
                         (fun r => false || negb (PyStr.startswith (raw_name r) "."))
                         raws)
                    = ["b.txt"; "A"; "a.mp3"; "c.MP3"])
    as (raws & Hiter & Hscan & Hnames)
    by (eexists; split; [|split]; vm_compute; reflexivity).
  pose proof (refresh_lists_children_but_hidden Samples.disk
                (sync_to_panels (initial_state ["home"])) raws Hiter Hscan) as Hperm.
  change (show_hidden (sync_to_panels (initial_state ["home"]))) with false in Hperm.
  rewrite Hnames in Hperm. exact Hperm.
Defined.

(** F5 in [/home] with the cursor on the third entry. *)
Lemma refresh_single_mode_effects_witness :
  let s := navigate_down 24 (navigate_down 24 Samples.home) in
  dual_panel_mode s = false ∧
  selected_index (refresh_files Samples.disk s) = 2 ∧
  selected_files (refresh_files Samples.disk s) = ∅.
Proof.
  cbv zeta.
  assert (dual_panel_mode (navigate_down 24 (navigate_down 24 Samples.home)) = false)
    as Hdual by (vm_compute; reflexivity).
  assert (∃ raws, iterdir Samples.disk
                    (current_path (navigate_down 24 (navigate_down 24 Samples.home)))
                  = Ok raws ∧
                  scan_raised
                    (show_hidden (navigate_down 24 (navigate_down 24 Samples.home)))
                    raws = None) as (raws & Hiter & Hscan)
    by (eexists; split; vm_compute; reflexivity).
  pose proof (refresh_single_mode_effects Samples.disk
                (navigate_down 24 (navigate_down 24 Samples.home)) raws
                Hdual Hiter Hscan) as Heffects.
  destruct Heffects as (_ & _ & Hsel & _).
  split; [exact Hdual|]. split; [vm_compute; reflexivity | exact Hsel].
Defined.

(** ** Cursor, scroll offset and paths *)

Section NavigationExtras.
Context {FS : Type} `{FileSystem FS}.

(** X4.  On a terminal of at least four rows, [adjust_scroll] puts the
    window over the cursor: the cursor is not moved, it lies inside the
    window afterwards, the offset is not changed when the cursor was
    visible already, and it does not become negative. *)
Theorem adjust_scroll_shows_cursor (height : Z) (s : FileManager) :
  4 ≤ height →
  let s' := adjust_scroll height s in
  cursor_visible height s' ∧
  selected_index s' = selected_index s ∧ files s' = files s ∧
  (cursor_visible height s → scroll_offset s' = scroll_offset s) ∧
  (0 ≤ selected_index s → 0 ≤ scroll_offset s → 0 ≤ scroll_offset s').
Proof.
  intros Hheight. unfold cursor_visible, adjust_scroll.
  fm_cases_all; repeat split; try done; lia.
Qed.

Lemma navigate_down_moved height s :
  selected_index s < len (files s) - 1 →
  navigate_down height s
  = adjust_scroll height
      (let s := set_selected_index (selected_index s + 1) s in
       if dual_panel_mode s
       then set_panel_selected_index
              (pset (active_panel s) (selected_index s) (panel_selected_index s)) s
       else s).
Proof. intros Hlt. unfold navigate_down. case_match; [done|lia]. Qed.

Lemma navigate_up_moved height s :
  0 < selected_index s →
  navigate_up height s
  = adjust_scroll height
      (let s := set_selected_index (selected_index s - 1) s in
       if dual_panel_mode s
       then set_panel_selected_index
              (pset (active_panel s) (selected_index s) (panel_selected_index s)) s
       else s).
Proof. intros Hlt. unfold navigate_up. case_match; [done|lia]. Qed.

(** X5.  The cursor keys move the cursor by one entry or not at all: down
    moves when there is an entry below and is without effect on the last
    entry and on an empty listing; up moves when the cursor is above 0 and
    is without effect at 0.  After a move the cursor is visible, and in
    dual mode the slot of the active panel holds the new cursor and scroll
    offset.  Down and then up comes back to the same entry. *)
Theorem cursor_moves_one_step (height : Z) (s : FileManager) :
  4 ≤ height →
  (selected_index s < len (files s) - 1 →
   let s' := navigate_down height s in
   selected_index s' = selected_index s + 1 ∧ cursor_visible height s' ∧
   files s' = files s ∧
   (dual_panel_mode s = true →
    pget (active_panel s') (panel_selected_index s') = selected_index s' ∧
    pget (active_panel s') (panel_scroll_offset s') = scroll_offset s')) ∧
  (len (files s) - 1 ≤ selected_index s → navigate_down height s = s) ∧
  (0 < selected_index s →
   let s' := navigate_up height s in
   selected_index s' = selected_index s - 1 ∧ cursor_visible height s' ∧
   files s' = files s ∧
   (dual_panel_mode s = true →
    pget (active_panel s') (panel_selected_index s') = selected_index s' ∧
    pget (active_panel s') (panel_scroll_offset s') = scroll_offset s')) ∧
  (selected_index s ≤ 0 → navigate_up height s = s) ∧
  (0 ≤ selected_index s < len (files s) - 1 →
   selected_index (navigate_up height (navigate_down height s)) = selected_index s).
Proof.
  intros Hheight.
  assert (∀ t, selected_index t < len (files t) - 1 →
               selected_index (navigate_down height t) = selected_index t + 1 ∧
               cursor_visible height (navigate_down height t) ∧
               files (navigate_down height t) = files t ∧
               (dual_panel_mode t = true →
                pget (active_panel (navigate_down height t))
                  (panel_selected_index (navigate_down height t))
                = selected_index (navigate_down height t) ∧
                pget (active_panel (navigate_down height t))
                  (panel_scroll_offset (navigate_down height t))
                = scroll_offset (navigate_down height t))) as Hdown.
  { intros t Hlt. rewrite navigate_down_moved by done.
    unfold cursor_visible, adjust_scroll.
    fm_cases_all; repeat split; try done; try lia; try congruence;
      destruct (active_panel t); reflexivity. }
  assert (∀ t, 0 < selected_index t →
               selected_index (navigate_up height t) = selected_index t - 1 ∧
               cursor_visible height (navigate_up height t) ∧
               files (navigate_up height t) = files t ∧
               (dual_panel_mode t = true →
                pget (active_panel (navigate_up height t))
                  (panel_selected_index (navigate_up height t))
                = selected_index (navigate_up height t) ∧
                pget (active_panel (navigate_up height t))
                  (panel_scroll_offset (navigate_up height t))
                = scroll_offset (navigate_up height t))) as Hup.
  { intros t Hlt. rewrite navigate_up_moved by done.
    unfold cursor_visible, adjust_scroll.
    fm_cases_all; repeat split; try done; try lia; try congruence;
      destruct (active_panel t); reflexivity. }
  split; [apply Hdown|].
  split; [intros Hge; unfold navigate_down; case_match; [lia|done]|].
  split; [apply Hup|].
  split; [intros Hle; unfold navigate_up; case_match; [lia|done]|].
  intros [Hlo Hhi]. destruct (Hdown s Hhi) as (Hidx & _).
  destruct (Hup (navigate_down height s)) as (-> & _); lia.
Qed.

Lemma refresh_panel_files_working (fs : FS) i s :
  let s' := refresh_panel_files fs i s in
  current_path s' = current_path s ∧ selected_index s' = selected_index s ∧
  scroll_offset s' = scroll_offset s ∧ selected_files s' = selected_files s.
Proof.
  unfold refresh_panel_files, store_panel_listing.
  destruct (iterdir fs _) as [raws|[msg|msg]]; fm_cases_all; done.
Qed.

(** A refresh never changes the path or the scroll offset, and it leaves a
    cursor at 0 where it is. *)
Lemma refresh_files_working (fs : FS) s :
  let s' := refresh_files fs s in
  current_path s' = current_path s ∧ scroll_offset s' = scroll_offset s ∧
  (selected_index s = 0 → selected_index s' = 0).
Proof.
  unfold refresh_files. destruct (dual_panel_mode s).
  - fm_cbn.
    destruct (refresh_panel_files_working fs PRight (refresh_panel_files fs PLeft s))
      as (-> & -> & -> & _).
    destruct (refresh_panel_files_working fs PLeft s) as (-> & -> & -> & _). done.
  - fm_cbn. destruct (iterdir fs _) as [raws|[msg|msg]];
      fm_cases_all; repeat split; try done; lia.
Qed.

Lemma refresh_files_index_in_range_at_0 (fs : FS) s :
  selected_index s = 0 → index_in_range (refresh_files fs s).
Proof.
  intros Hidx. unfold index_in_range.
  destruct (refresh_files_working fs s) as (_ & _ & Hzero).
  rewrite (Hzero Hidx). lia.
Qed.

Lemma navigate_left_goes_to_parent_aux (fs : FS) (s : FileManager) :
  let s' := navigate_left fs s in
  current_path s' = path_parent (current_path s) ∧
  (current_path s ≠ root →
   selected_index s' = 0 ∧ scroll_offset s' = 0 ∧ index_in_range s').
Proof.
  cbv zeta. unfold navigate_left.
  set (s1 := if dual_panel_mode s then sync_to_panels s else s).
  assert (current_path s1 = current_path s) as Hpath1
    by (subst s1; by destruct (dual_panel_mode s)).
  set (s2 := if bool_decide (current_path s1 ≠ root) then _ else s1).
  set (s3 := if dual_panel_mode s2 then reset_active_slot s2 else s2).
  assert (current_path s3 = current_path s2 ∧ selected_index s3 = selected_index s2
          ∧ scroll_offset s3 = scroll_offset s2) as (Hp3 & Hi3 & Hs3)
    by (subst s3; by destruct (dual_panel_mode s2)).
  destruct (refresh_files_working fs s3) as (Hp & Hs & Hi).
  rewrite Hp, Hs, Hp3, Hs3.
  assert (current_path s2 = path_parent (current_path s) ∧
          (current_path s ≠ root → selected_index s2 = 0 ∧ scroll_offset s2 = 0))
    as [Hp2 Hzero].
  { subst s2. destruct (bool_decide (current_path s1 ≠ root)) eqn:Hroot; fm_cbn.
    - by rewrite Hpath1.
    - apply bool_decide_eq_false, dec_stable in Hroot.
      rewrite Hpath1 in Hroot. rewrite Hpath1, Hroot. split; [done|].
      intros Hne. by destruct Hne. }
  split; [done|]. intros Hne. destruct (Hzero Hne) as [Hi2 Hs2].
  split; [apply Hi; congruence|]. split; [done|].
  apply refresh_files_index_in_range_at_0. congruence.
Qed.

(** X6.  Left always ends in the parent of the current directory (the
    root is its own parent).  Away from the root the cursor and the scroll
    offset are 0 afterwards, whether or not the parent can be listed, so
    the cursor is inside the listing. *)
Theorem navigate_left_goes_to_parent (fs : FS) (s : FileManager) :
  let s' := navigate_left fs s in
  current_path s' = path_parent (current_path s) ∧
  (current_path s ≠ root →
   selected_index s' = 0 ∧ scroll_offset s' = 0 ∧ index_in_range s').
Proof. apply navigate_left_goes_to_parent_aux. Qed.

Lemma open_file_working (fs : FS) s s' :
  open_file fs s = Ok s' →
  current_path s' = current_path s ∧ selected_index s' = selected_index s ∧
  scroll_offset s' = scroll_offset s.
Proof.
  unfold open_file, index_or_raise. intros Hs'.
  repeat (case_match; simplify_eq/=; try done).
Qed.

(** Where Right can end: where it started, or in the directory under the
    cursor. *)
Lemma navigate_right_path (fs : FS) s s' :
  navigate_right fs s = Ok s' →
  current_path s' = current_path s ∨
  ∃ selected_file,
    py_index (files s) (selected_index s) = Some selected_file ∧
    e_is_dir selected_file = true ∧
    current_path s' = path_join (current_path s) (e_name selected_file) ∧
    selected_index s' = 0 ∧ scroll_offset s' = 0.
Proof.
  unfold navigate_right.
  destruct (list_truthy (files s)); cbn [negb]; [|intros [= <-]; by left].
  set (s1 := if dual_panel_mode s then sync_to_panels s else s).
  assert (current_path s1 = current_path s ∧ files s1 = files s
          ∧ selected_index s1 = selected_index s) as (Hp1 & Hf1 & Hi1)
    by (subst s1; by destruct (dual_panel_mode s)).
  unfold index_or_raise. rewrite Hf1, Hi1.
  destruct (py_index _ _) as [selected_file|] eqn:Hsel; [|done].
  cbn [mbind result_bind]. destruct (e_is_dir selected_file) eqn:Hdir.
  - destruct (iterdir fs _) as [raws|[msg|msg]]; [| |done].
    + intros [= <-]. right. exists selected_file.
      split; [done|]. split; [done|].
      set (s2 := if dual_panel_mode _ then reset_active_slot _ else _).
      assert (current_path s2 = path_join (current_path s1) (e_name selected_file)
              ∧ selected_index s2 = 0 ∧ scroll_offset s2 = 0) as (Hp2 & Hi2 & Hs2).
      { subst s2. fm_cbn. by destruct (dual_panel_mode s1). }
      destruct (refresh_files_working fs s2) as (-> & -> & Hzero).
      rewrite Hp2, Hp1, Hs2. split; [done|]. split; [by apply Hzero|done].
    + intros [= <-]. left. done.
  - intros Hopen. left. apply open_file_working in Hopen as (-> & _). done.
Qed.

(** X7.  Right followed by Left comes back: when Right has changed the
    directory (the entry under the cursor is a directory that can be
    listed), the cursor and the scroll offset are 0 there, and Left returns
    to the directory it came from. *)
Theorem enter_then_parent_returns (fs fs2 : FS) (s s' : FileManager) :
  navigate_right fs s = Ok s' →
  current_path s' ≠ current_path s →
  selected_index s' = 0 ∧ scroll_offset s' = 0 ∧
  current_path (navigate_left fs2 s') = current_path s.
Proof.
  intros Hright Hmoved.
  destruct (navigate_right_path fs s s' Hright)
    as [Hsame|(selected_file & _ & _ & Hpath & Hidx & Hscroll)]; [done|].
  split; [done|]. split; [done|].
  destruct (navigate_left_goes_to_parent_aux fs2 s') as [-> _].
  rewrite Hpath. unfold path_parent, path_join. apply removelast_last.
Qed.

End NavigationExtras.

Section PanelExtras.
Context {FS : Type} `{FileSystem FS}.

(** X8.  In single mode Enter does what Right does, whatever lies under
    the cursor and whatever the listing of the directory yields. *)
Theorem enter_is_right_in_single_mode (fs : FS) (s : FileManager) :
  dual_panel_mode s = false →
  enter_directory fs s = navigate_right fs s.
Proof.
  intros Hdual. unfold enter_directory.
  destruct (list_truthy (files s)) eqn:Hfiles; cbn [negb].
  - destruct (index_or_raise (files s) (selected_index s)) as [selected_file|e]
      eqn:Hsel; cbn [mbind result_bind].
    + destruct (e_is_dir selected_file) eqn:Hdir; [done|].
      unfold navigate_right. rewrite Hfiles, Hdual, Hsel. cbn [negb mbind result_bind].
      by rewrite Hdir.
    + unfold navigate_right. rewrite Hfiles, Hdual, Hsel. done.
  - unfold navigate_right. by rewrite Hfiles.
Qed.

(** X9.  TAB twice in dual mode comes back to the panel it started from:
    the active panel, the path, the cursor, the scroll offset, the
    selection and the entries are as before, and the only trace is that
    the slot of that panel now holds the working values ([sync_to_panels]).
    One TAB makes the other panel the active one and loads its slot. *)
Theorem switch_panel_twice (s : FileManager) :
  dual_panel_mode s = true →
  files_shared s →
  switch_panel (switch_panel s) = sync_to_panels s ∧
  active_panel (switch_panel s) = other_panel (active_panel s) ∧
  (current_path (switch_panel s), files (switch_panel s),
   selected_index (switch_panel s), scroll_offset (switch_panel s),
   selected_files (switch_panel s))
  = inactive_panel s.
Proof.
  unfold files_shared, inactive_panel, panel_slot.
  destruct s as [cp si so fl sh cb ca msg sf dm ap [pp1 pp2] [pi1 pi2] [ps1 ps2]
                   [pf1 pf2] [psf1 psf2] sm sq fm fe orig].
  cbn [dual_panel_mode files active_panel panel_files]. intros -> Hshared.
  destruct ap; cbn [pget fst snd] in Hshared; subst fl; vm_compute; done.
Qed.

(** X10.  TAB in single mode changes nothing but the message. *)
Theorem tab_in_single_mode (s : FileManager) :
  dual_panel_mode s = false →
  on_key_tab s = set_message "Tab only works in dual panel mode" s ∧
  switch_panel s = s.
Proof. intros Hdual. unfold on_key_tab, switch_panel. by rewrite Hdual. Qed.

Lemma refresh_panel_files_slot_ok (fs : FS) i s raws :
  iterdir fs (pget i (panel_paths s)) = Ok raws →
  scan_raised (show_hidden s) raws = None →
  panel_slot i (refresh_panel_files fs i s)
  = (pget i (panel_paths s), sorted_listing (show_hidden s) raws,
     (if len (sorted_listing (show_hidden s) raws) <=? pget i (panel_selected_index s)
      then Z.max 0 (len (sorted_listing (show_hidden s) raws) - 1)
      else pget i (panel_selected_index s)),
     pget i (panel_scroll_offset s), ∅).
Proof.
  intros Hiter Hscan. unfold refresh_panel_files. rewrite Hiter, Hscan.
  unfold store_panel_listing, panel_slot. destruct i; fm_cases_all; done.
Qed.

Lemma dual_start_fields s :
  dual_panel_mode (dual_start s) = true ∧
  active_panel (dual_start s) = active_panel s ∧
  show_hidden (dual_start s) = show_hidden s ∧
  panel_paths (dual_start s) = (current_path s, current_path s) ∧
  pget (active_panel s) (panel_selected_index (dual_start s)) = selected_index s ∧
  pget (active_panel s) (panel_scroll_offset (dual_start s)) = scroll_offset s.
Proof.
  unfold dual_start, sync_to_panels. fm_cbn.
  destruct (active_panel s), (panel_paths s), (panel_selected_index s),
    (panel_scroll_offset s); repeat split; reflexivity.
Qed.

Lemma dual_panel_mode_after_message m l s :
  dual_panel_mode (show_message m (set_files l s)) = dual_panel_mode s.
Proof. reflexivity. Qed.

Lemma panel_slot_after_message i m l s :
  panel_slot i (show_message m (set_files l s)) = panel_slot i s.
Proof. reflexivity. Qed.

Lemma fields_after_message m l s :
  active_panel (show_message m (set_files l s)) = active_panel s ∧
  show_hidden (show_message m (set_files l s)) = show_hidden s.
Proof. split; reflexivity. Qed.

(** F2 in single mode: the two panels of [dual_start] are refreshed and
    the entries of the active one become the working entries. *)
Lemma toggle_dual_panel_enter (fs : FS) s :
  dual_panel_mode s = false →
  toggle_dual_panel fs s
  = show_message "Dual panel mode ON - TAB to switch panels"
      (set_files
         (pget (active_panel
                  (refresh_panel_files fs PRight
                     (refresh_panel_files fs PLeft (dual_start s))))
            (panel_files
               (refresh_panel_files fs PRight
                  (refresh_panel_files fs PLeft (dual_start s)))))
         (refresh_panel_files fs PRight
            (refresh_panel_files fs PLeft (dual_start s)))).
Proof.
  intros Hdual. unfold toggle_dual_panel. rewrite Hdual. cbn [negb]. cbv zeta.
  fold (dual_start s).
  rewrite dual_panel_mode_after_message.
  destruct (refresh_panel_files_globals fs PRight
              (refresh_panel_files fs PLeft (dual_start s))) as (_ & -> & _).
  destruct (refresh_panel_files_globals fs PLeft (dual_start s)) as (_ & -> & _).
  destruct (dual_start_fields s) as (-> & _). done.
Qed.

(** The state after F2 in single mode, as far as F2 pressed again reads
    it. *)
Lemma toggle_dual_panel_on (fs : FS) s raws :
  dual_panel_mode s = false →
  iterdir fs (current_path s) = Ok raws →
  scan_raised (show_hidden s) raws = None →
  let s1 := toggle_dual_panel fs s in
  dual_panel_mode s1 = true ∧ active_panel s1 = active_panel s ∧
  show_hidden s1 = show_hidden s ∧
  panel_slot (active_panel s) s1
  = (current_path s, sorted_listing (show_hidden s) raws,
     (if len (sorted_listing (show_hidden s) raws) <=? selected_index s
      then Z.max 0 (len (sorted_listing (show_hidden s) raws) - 1)
      else selected_index s),
     scroll_offset s, ∅).
Proof.
  intros Hdual Hiter Hscan. cbv zeta. rewrite (toggle_dual_panel_enter fs s Hdual).
  rewrite dual_panel_mode_after_message, panel_slot_after_message.
  destruct (fields_after_message "Dual panel mode ON - TAB to switch panels"
              (pget (active_panel
                       (refresh_panel_files fs PRight
                          (refresh_panel_files fs PLeft (dual_start s))))
                 (panel_files
                    (refresh_panel_files fs PRight
                       (refresh_panel_files fs PLeft (dual_start s)))))
              (refresh_panel_files fs PRight
                 (refresh_panel_files fs PLeft (dual_start s)))) as [-> ->].
  destruct (dual_start_fields s) as (Hd0 & Ha0 & Hh0 & Hp0 & Hi0 & Hs0).
  destruct (refresh_panel_files_globals fs PLeft (dual_start s))
    as (Hh1 & Hd1 & Ha1 & Hp1 & Hs1).
  destruct (refresh_panel_files_globals fs PRight
              (refresh_panel_files fs PLeft (dual_start s)))
    as (Hh2 & Hd2 & Ha2 & Hp2 & Hs2).
  cbv zeta in *.
  split; [congruence|]. split; [congruence|]. split; [congruence|].
  assert (panel_slot (active_panel s)
            (refresh_panel_files fs PRight
               (refresh_panel_files fs PLeft (dual_start s)))
          = panel_slot (active_panel s)
              (refresh_panel_files fs (active_panel s) (dual_start s))) as ->.
  { destruct (active_panel s).
    - by rewrite refresh_panel_files_other.
    - apply refresh_panel_files_ext; [by apply refresh_panel_files_other|exact Hh1]. }
  rewrite (refresh_panel_files_slot_ok fs (active_panel s) (dual_start s) raws).
  - rewrite Hp0, Hh0, Hi0, Hs0. by destruct (active_panel s).
  - rewrite Hp0. by destruct (active_panel s).
  - by rewrite Hh0.
Qed.

(** A refresh changes neither the mode, nor the active panel, nor the
    hidden-files flag. *)
Lemma refresh_files_mode (fs : FS) s :
  dual_panel_mode (refresh_files fs s) = dual_panel_mode s ∧
  active_panel (refresh_files fs s) = active_panel s ∧
  show_hidden (refresh_files fs s) = show_hidden s.
Proof.
  unfold refresh_files. destruct (dual_panel_mode s) eqn:Hdual.
  - fm_cbn.
    destruct (refresh_panel_files_globals fs PRight (refresh_panel_files fs PLeft s))
      as (-> & -> & -> & _).
    destruct (refresh_panel_files_globals fs PLeft s) as (-> & -> & -> & _). done.
  - fm_cbn. destruct (iterdir fs _) as [raws|[msg|msg]]; fm_cases_all; done.
Qed.

Lemma sync_from_panels_fields s :
  let s' := sync_from_panels s in
  dual_panel_mode s' = dual_panel_mode s ∧ active_panel s' = active_panel s ∧
  show_hidden s' = show_hidden s ∧
  current_path s' = pget (active_panel s) (panel_paths s) ∧
  selected_index s' = pget (active_panel s) (panel_selected_index s) ∧
  scroll_offset s' = pget (active_panel s) (panel_scroll_offset s).
Proof. unfold sync_from_panels. fm_cases_all; done. Qed.

Lemma exit_state_fields s :
  let t := show_message "Single panel mode"
             (sync_from_panels (set_dual_panel_mode false s)) in
  dual_panel_mode t = false ∧ active_panel t = active_panel s ∧
  show_hidden t = show_hidden s ∧
  current_path t = pget (active_panel s) (panel_paths s) ∧
  selected_index t = pget (active_panel s) (panel_selected_index s) ∧
  scroll_offset t = pget (active_panel s) (panel_scroll_offset s).
Proof. unfold sync_from_panels, show_message. fm_cases_all; done. Qed.

(** F2 in dual mode: the slot of the active panel becomes the working
    state and the directory is listed again. *)
Lemma toggle_dual_panel_exit (fs : FS) s :
  dual_panel_mode s = true →
  toggle_dual_panel fs s
  = refresh_files fs
      (show_message "Single panel mode"
         (sync_from_panels (set_dual_panel_mode false s))).
Proof.
  intros Hdual. unfold toggle_dual_panel. rewrite Hdual. cbn [negb]. cbv zeta.
  change (dual_panel_mode (show_message ?m ?t)) with (dual_panel_mode t).
  destruct (sync_from_panels_fields (set_dual_panel_mode false s)) as (-> & _).
  done.
Qed.

(** X11.  F2 twice, from single mode, in a directory that can be read:
    single mode again, the same path and scroll offset, the full listing,
    an empty selection, and the same cursor when it points into the
    listing. *)
Theorem dual_panel_on_and_off (fs : FS) (s : FileManager) (raws : list RawEntry) :
  dual_panel_mode s = false →
  iterdir fs (current_path s) = Ok raws →
  scan_raised (show_hidden s) raws = None →
  let s2 := toggle_dual_panel fs (toggle_dual_panel fs s) in
  dual_panel_mode s2 = false ∧ active_panel s2 = active_panel s ∧
  current_path s2 = current_path s ∧ scroll_offset s2 = scroll_offset s ∧
  files s2 = sorted_listing (show_hidden s) raws ∧
  selected_files s2 = ∅ ∧
  (selected_index s < len (sorted_listing (show_hidden s) raws) →
   selected_index s2 = selected_index s).
Proof.
  intros Hdual Hiter Hscan.
  destruct (toggle_dual_panel_on fs s raws Hdual Hiter Hscan)
    as (Hd1 & Ha1 & Hh1 & Hslot).
  set (s1 := toggle_dual_panel fs s) in *. cbv zeta. fold s1. clearbody s1.
  unfold panel_slot in Hslot. injection Hslot as Hp Hf Hi Hs Hsel.
  rewrite (toggle_dual_panel_exit fs s1 Hd1).
  destruct (exit_state_fields s1) as (Hd & Ha & Hh & Hpath & Hidx & Hscroll).
  set (t := show_message "Single panel mode"
              (sync_from_panels (set_dual_panel_mode false s1))) in *.
  clearbody t. rewrite Ha1 in *. rewrite Hp in Hpath. rewrite Hi in Hidx.
  rewrite Hs in Hscroll. rewrite Hh1 in Hh.
  assert (iterdir fs (current_path t) = Ok raws) as Hiter' by (by rewrite Hpath).
  assert (scan_raised (show_hidden t) raws = None) as Hscan'
    by (by rewrite Hh).
  destruct (refresh_files_single_ok fs t raws Hd Hiter' Hscan')
    as (Hp2 & Hs2 & Hsel2 & _ & _ & Hi2 & _).
  assert (files (refresh_files fs t) = sorted_listing (show_hidden s) raws) as Hfiles.
  { rewrite refresh_files_listing. unfold listed_path, listing_of.
    by rewrite Hd, Hiter', Hscan', Hh. }
  assert (dual_panel_mode (refresh_files fs t) = false ∧
          active_panel (refresh_files fs t) = active_panel t) as [Hd2 Ha2].
  { destruct (refresh_files_mode fs t) as (-> & -> & _). done. }
  split; [done|]. split; [congruence|]. split; [congruence|].
  split; [congruence|]. split; [done|]. split; [done|].
  intros Hin. rewrite Hi2, Hfiles, Hidx.
  repeat case_match; lia.
Qed.

End PanelExtras.

(** A window of two rows over the third entry of [/home]. *)
Lemma adjust_scroll_shows_cursor_witness :
  let s := navigate_down 24 (navigate_down 24 Samples.home) in
  4 ≤ 5 ∧ scroll_offset s = 0 ∧ selected_index s = 2 ∧
  scroll_offset (adjust_scroll 5 s) = 1 ∧ cursor_visible 5 (adjust_scroll 5 s).
Proof.
  cbv zeta. assert (4 ≤ 5) as Hheight by lia.
  destruct (adjust_scroll_shows_cursor 5
              (navigate_down 24 (navigate_down 24 Samples.home)) Hheight)
    as (Hvisible & _).
  split; [exact Hheight|]. split; [vm_compute; reflexivity|].
  split; [vm_compute; reflexivity|]. split; [vm_compute; reflexivity|exact Hvisible].
Defined.

(** Down from the first entry of [/home]. *)
Lemma cursor_moves_one_step_witness :
  4 ≤ 24 ∧ selected_index Samples.home < len (files Samples.home) - 1 ∧
  selected_index (navigate_down 24 Samples.home) = selected_index Samples.home + 1.
Proof.
  assert (4 ≤ 24) as Hheight by lia.
  assert (selected_index Samples.home < len (files Samples.home) - 1) as Hbelow
    by (vm_compute; reflexivity).
  destruct (cursor_moves_one_step 24 Samples.home Hheight) as (Hdown & _).
  destruct (Hdown Hbelow) as (Hmoved & _).
  split; [exact Hheight|]. split; [exact Hbelow|exact Hmoved].
Defined.

(** Right on the directory [A] of [/home], then Left. *)
Lemma enter_then_parent_returns_witness :
  navigate_right Samples.disk Samples.home
  = Ok (Samples.value (navigate_right Samples.disk Samples.home)) ∧
  current_path (Samples.value (navigate_right Samples.disk Samples.home))
  = ["home"; "A"] ∧
  current_path
    (navigate_left Samples.disk
       (Samples.value (navigate_right Samples.disk Samples.home)))
  = ["home"].
Proof.
  assert (navigate_right Samples.disk Samples.home
          = Ok (Samples.value (navigate_right Samples.disk Samples.home))) as Hright
    by (vm_compute; reflexivity).
  assert (current_path (Samples.value (navigate_right Samples.disk Samples.home))
          ≠ current_path Samples.home) as Hmoved
    by (vm_compute; discriminate).
  destruct (enter_then_parent_returns Samples.disk Samples.disk Samples.home
              (Samples.value (navigate_right Samples.disk Samples.home))
              Hright Hmoved) as (_ & _ & Hback).
  split; [exact Hright|]. split; [vm_compute; reflexivity|].
  rewrite Hback. vm_compute; reflexivity.
Defined.

(** Enter on the first entry of [/home]. *)
Lemma enter_is_right_in_single_mode_witness :
  dual_panel_mode Samples.home = false ∧
  enter_directory Samples.disk Samples.home
  = navigate_right Samples.disk Samples.home.
Proof.
  assert (dual_panel_mode Samples.home = false) as Hsingle
    by (vm_compute; reflexivity).
  split; [exact Hsingle|].
  exact (enter_is_right_in_single_mode Samples.disk Samples.home Hsingle).
Defined.

(** TAB twice on the two panels of [/home]. *)
Lemma switch_panel_twice_witness :
  dual_panel_mode Samples.two_panels = true ∧
  files_shared Samples.two_panels ∧
  active_panel (switch_panel Samples.two_panels) = PLeft ∧
  switch_panel (switch_panel Samples.two_panels)
  = sync_to_panels Samples.two_panels.
Proof.
  assert (dual_panel_mode Samples.two_panels = true) as Hdual
    by (vm_compute; reflexivity).
  assert (files_shared Samples.two_panels) as Hshared
    by (unfold files_shared; vm_compute; reflexivity).
  destruct (switch_panel_twice Samples.two_panels Hdual Hshared)
    as (Htwice & Hactive & _).
  split; [exact Hdual|]. split; [exact Hshared|].
  split; [rewrite Hactive; vm_compute; reflexivity|exact Htwice].
Defined.

(** TAB right after the start. *)
Lemma tab_in_single_mode_witness :
  dual_panel_mode Samples.home = false ∧
  message (on_key_tab Samples.home) = "Tab only works in dual panel mode" ∧
  files (on_key_tab Samples.home) = files Samples.home.
Proof.
  assert (dual_panel_mode Samples.home = false) as Hsingle
    by (vm_compute; reflexivity).
  destruct (tab_in_single_mode Samples.home Hsingle) as [Htab _].
  split; [exact Hsingle|]. rewrite Htab. split; vm_compute; reflexivity.
Defined.

(** F2 twice in [/home] with the cursor on the second entry. *)
Lemma dual_panel_on_and_off_witness :
  let s := navigate_down 24 Samples.home in
  let s2 := toggle_dual_panel Samples.disk (toggle_dual_panel Samples.disk s) in
  dual_panel_mode s = false ∧ dual_panel_mode s2 = false ∧
  current_path s2 = current_path s ∧ selected_index s2 = 1.
Proof.
  cbv zeta.
  assert (dual_panel_mode (navigate_down 24 Samples.home) = false) as Hsingle
    by (vm_compute; reflexivity).
  assert (∃ raws, iterdir Samples.disk (current_path (navigate_down 24 Samples.home))
                  = Ok raws ∧
                  scan_raised (show_hidden (navigate_down 24 Samples.home)) raws
                  = None) as (raws & Hiter & Hscan)
    by (eexists; split; vm_compute; reflexivity).
  destruct (dual_panel_on_and_off Samples.disk (navigate_down 24 Samples.home) raws
              Hsingle Hiter Hscan) as (Hoff & _ & Hpath & _).
  split; [exact Hsingle|]. split; [exact Hoff|]. split; [exact Hpath|].
  vm_compute; reflexivity.
Defined.

(** ** The selection *)

Section SelectionExtras.
Context {FS : Type} `{FileSystem FS}.

(** Flipping the membership of one index, once and twice. *)
Lemma flip_member (X : gset Z) (i j : Z) :
  j ∈ (if bool_decide (i ∈ X) then X ∖ {[i]} else {[i]} ∪ X)
  ↔ (if bool_decide (j = i) then j ∉ X else j ∈ X).
Proof.
  destruct (decide (i ∈ X)) as [Hi|Hi], (decide (j = i)) as [->|Hj];
    rewrite ?(bool_decide_eq_true_2 _ Hi), ?(bool_decide_eq_false_2 _ Hi),
      ?(bool_decide_eq_true_2 (i = i)), ?(bool_decide_eq_false_2 _ Hj) by done;
    rewrite ?elem_of_difference, ?elem_of_union, ?elem_of_singleton; tauto.
Qed.

Lemma flip_member_twice (X : gset Z) (i : Z) :
  (if bool_decide (i ∈ (if bool_decide (i ∈ X) then X ∖ {[i]} else {[i]} ∪ X))
   then (if bool_decide (i ∈ X) then X ∖ {[i]} else {[i]} ∪ X) ∖ {[i]}
   else {[i]} ∪ (if bool_decide (i ∈ X) then X ∖ {[i]} else {[i]} ∪ X))
  = X.
Proof.
  apply set_eq. intros j.
  rewrite (flip_member (if bool_decide (i ∈ X) then X ∖ {[i]} else {[i]} ∪ X) i j).
  destruct (decide (j = i)) as [->|Hj], (decide (i ∈ X)) as [Hi|Hi];
    rewrite ?(bool_decide_eq_true_2 (i = i)), ?(bool_decide_eq_false_2 _ Hj) by done;
    rewrite flip_member;
    rewrite ?(bool_decide_eq_true_2 (i = i)), ?(bool_decide_eq_false_2 _ Hj) by done;
    tauto.
Qed.

(** What SPACE does when it does not raise. *)
Lemma toggle_selection_ok s s' :
  toggle_selection s = Ok s' →
  files s' = files s ∧ selected_index s' = selected_index s ∧
  (((files s = [] ∨ len (files s) ≤ selected_index s) ∧ s' = s) ∨
   (files s ≠ [] ∧ selected_index s < len (files s) ∧
    selected_files s'
    = (if bool_decide (selected_index s ∈ selected_files s)
       then selected_files s ∖ {[selected_index s]}
       else {[selected_index s]} ∪ selected_files s))).
Proof.
  unfold toggle_selection, index_or_raise. intros Hs'.
  destruct (list_truthy (files s)) eqn:Hfiles; cbn [negb orb] in Hs'.
  - destruct (len (files s) <=? selected_index s) eqn:Hguard.
    + injection Hs' as <-. split; [done|]. split; [done|]. left.
      split; [right; lia|done].
    + assert (files s ≠ []) as Hne by (by destruct (files s)).
      destruct (bool_decide (selected_index s ∈ selected_files s));
        fm_cbn_in Hs'; destruct (py_index _ _); cbn [mbind result_bind] in Hs';
        try done; injection Hs' as <-; (split; [done|]); (split; [done|]);
        right; (split; [done|]); (split; [lia|done]).
  - injection Hs' as <-. split; [done|]. split; [done|]. left.
    split; [|done]. left. by destruct (files s).
Qed.

(** With the cursor on an entry, SPACE does not raise. *)
Lemma toggle_selection_total s :
  0 ≤ selected_index s →
  ∃ s', toggle_selection s = Ok s'.
Proof.
  intros Hidx. unfold toggle_selection, index_or_raise.
  destruct (list_truthy (files s)); cbn [negb orb]; [|by eexists].
  destruct (len (files s) <=? selected_index s) eqn:Hguard; [by eexists|].
  assert (∃ e, py_index (files s) (selected_index s) = Some e) as [e He].
  { unfold py_index. rewrite (proj2 (Z.leb_le _ _)) by done.
    apply lookup_lt_is_Some_2. unfold len in Hguard. lia. }
  destruct (bool_decide _); fm_cbn; rewrite He; by eexists.
Qed.

(** X12.  SPACE twice gives the selection back: path, entries and cursor
    are never touched, one SPACE on an entry flips the membership of the
    cursor in the selection and of nothing else, and a second SPACE flips
    it back.  With the cursor on an entry SPACE does not raise. *)
Theorem toggle_selection_twice (s s1 s2 : FileManager) :
  toggle_selection s = Ok s1 →
  toggle_selection s1 = Ok s2 →
  selected_files s2 = selected_files s ∧ files s2 = files s ∧
  selected_index s2 = selected_index s ∧
  (0 ≤ selected_index s < len (files s) →
   ∀ i, i ∈ selected_files s1 ↔
        (if bool_decide (i = selected_index s)
         then i ∉ selected_files s else i ∈ selected_files s)) ∧
  (0 ≤ selected_index s → ∃ s', toggle_selection s = Ok s').
Proof.
  intros H1 H2.
  destruct (toggle_selection_ok s s1 H1) as (Hf1 & Hi1 & Hsel1).
  destruct (toggle_selection_ok s1 s2 H2) as (Hf2 & Hi2 & Hsel2).
  rewrite Hf1, Hi1 in *.
  split; [|split; [congruence|split; [congruence|split]]].
  - destruct Hsel1 as [[Hg1 ->]|(Hne1 & Hlt1 & Hs1)],
      Hsel2 as [[Hg2 ->]|(Hne2 & Hlt2 & Hs2)].
    + done.
    + destruct Hg1; [done|lia].
    + destruct Hg2; [done|lia].
    + rewrite Hs2, Hs1. apply flip_member_twice.
  - intros Hin i. destruct Hsel1 as [[Hg1 ->]|(Hne1 & Hlt1 & Hs1)].
    + destruct Hg1 as [Hempty|Hge]; [|lia].
      rewrite Hempty in Hin. unfold len in Hin. cbn in Hin. lia.
    + rewrite Hs1. apply flip_member.
  - apply toggle_selection_total.
Qed.

(** The indices of a listing of [n] entries. *)
Lemma elem_of_indices (n : nat) (i : Z) :
  i ∈ map Z.of_nat (seq 0 n) ↔ 0 ≤ i < Z.of_nat n.
Proof.
  rewrite list_elem_of_In, in_map_iff. split.
  - intros (k & <- & Hk). apply in_seq in Hk. lia.
  - intros Hi. exists (Z.to_nat i). split; [lia|]. apply in_seq. lia.
Qed.

Lemma select_all_fold (l : list Z) : ∀ acc : gset Z * nat,
  ∀ i, i ∈ (foldl select_all_step acc l).1 ↔ i ∈ acc.1 ∨ i ∈ l.
Proof.
  induction l as [|k l IH]; intros acc i; cbn [foldl].
  - rewrite elem_of_nil. tauto.
  - rewrite IH. unfold select_all_step.
    case_bool_decide as Hk; cbn [fst];
      rewrite ?elem_of_union, ?elem_of_singleton, elem_of_cons; [|tauto].
    split; [tauto|]. intros [Hi|[->|Hi]]; tauto.
Qed.

(** Nothing is added to a selection that holds every index already. *)
Lemma select_all_fold_full (l : list Z) (acc : gset Z * nat) :
  (∀ i, i ∈ l → i ∈ acc.1) → foldl select_all_step acc l = acc.
Proof.
  revert acc. induction l as [|k l IH]; intros acc Hall; cbn [foldl]; [done|].
  assert (select_all_step acc k = acc) as ->.
  { unfold select_all_step. rewrite bool_decide_eq_true_2; [done|].
    apply Hall. apply list_elem_of_here. }
  apply IH. intros i Hi. apply Hall. by apply list_elem_of_further.
Qed.

Lemma select_all_fields s :
  files (select_all s) = files s ∧ selected_index (select_all s) = selected_index s ∧
  selected_files (select_all s)
  = (foldl select_all_step (selected_files s, 0%nat)
       (map Z.of_nat (seq 0 (length (files s))))).1.
Proof.
  unfold select_all.
  destruct (foldl _ _ _) as [selected count]. by case_match.
Qed.

Lemma select_all_members s (i : Z) :
  i ∈ selected_files (select_all s)
  ↔ i ∈ selected_files s ∨ 0 ≤ i < len (files s).
Proof.
  destruct (select_all_fields s) as (_ & _ & ->).
  rewrite select_all_fold. cbn [fst]. by rewrite elem_of_indices.
Qed.

Lemma select_all_when_full s :
  (∀ i, 0 ≤ i < len (files s) → i ∈ selected_files s) →
  select_all s
  = show_message "All files already selected"
      (set_selected_files (selected_files s) s).
Proof.
  intros Hfull. unfold select_all.
  rewrite select_all_fold_full; [done|].
  intros i Hi. cbn [fst]. apply Hfull. by apply elem_of_indices in Hi.
Qed.

(** X13.  [a] selects every entry: afterwards the selection holds what it
    held before and every index of the listing; entries and cursor stay.
    Pressed again it adds nothing and says so. *)
Theorem select_all_selects_every_entry (s : FileManager) :
  (∀ i, i ∈ selected_files (select_all s)
        ↔ i ∈ selected_files s ∨ 0 ≤ i < len (files s)) ∧
  files (select_all s) = files s ∧
  selected_index (select_all s) = selected_index s ∧
  selected_files (select_all (select_all s)) = selected_files (select_all s) ∧
  message (select_all (select_all s)) = "All files already selected".
Proof.
  split; [apply select_all_members|].
  destruct (select_all_fields s) as (Hf & Hi & Hsel).
  split; [done|]. split; [done|].
  rewrite (select_all_when_full (select_all s)); [done|].
  intros i Hi'. apply select_all_members. right. by rewrite <- Hf.
Qed.

(** X14.  The invariant of the selection is kept: when every selected
    index points into the listing and the cursor is not negative, both
    are still so after a cursor move, after SPACE, after [a] and [A], after
    a search or filter is put on or taken away, and after a refresh in
    single mode that can read the directory (the last three empty the
    selection). *)
Theorem selection_stays_valid (fs : FS) (height : Z) (s : FileManager)
    (raws : list RawEntry) :
  selection_ok s →
  selection_ok (navigate_up height s) ∧
  selection_ok (navigate_down height s) ∧
  (∀ s', toggle_selection s = Ok s' → selection_ok s') ∧
  selection_ok (select_all s) ∧
  selection_ok (clear_selection s) ∧
  selection_ok (apply_search_filter s) ∧
  selection_ok (clear_search_filter s) ∧
  (dual_panel_mode s = false → iterdir fs (current_path s) = Ok raws →
   scan_raised (show_hidden s) raws = None →
   selection_ok (refresh_files fs s)).
Proof.
  intros [Hvalid Hidx]. unfold selection_ok, selection_valid in *.
  assert (∀ t, selected_files t = ∅ → ∀ i, i ∈ selected_files t → 0 ≤ i < len (files t))
    as Hempty by (intros t -> i Hi; by apply not_elem_of_empty in Hi).
  split; [|split; [|split; [|split; [|split; [|split; [|split]]]]]].
  - unfold navigate_up, adjust_scroll. fm_cases_all; split; try done; lia.
  - unfold navigate_down, adjust_scroll. fm_cases_all; split; try done; lia.
  - intros s' Hs'. destruct (toggle_selection_ok s s' Hs') as (-> & -> & Hsel).
    split; [|done].
    intros i. destruct Hsel as [[_ ->]|(_ & Hlt & ->)]; [apply Hvalid|].
    case_bool_decide; intros Hi;
      [apply elem_of_difference in Hi as [Hi _]; by apply Hvalid|].
    apply elem_of_union in Hi as [Hi|Hi]; [|by apply Hvalid].
    apply elem_of_singleton in Hi. lia.
  - destruct (select_all_fields s) as (Hfiles & -> & _). split; [|done].
    intros i Hi. rewrite Hfiles.
    apply select_all_members in Hi as [Hi|Hi]; [by apply Hvalid|done].
  - split; [apply Hempty|]; unfold clear_selection; fm_cases_all; done.
  - split; [apply Hempty|]; unfold apply_search_filter, store_active_files;
      fm_cases_all; done.
  - split; [apply Hempty|]; unfold clear_search_filter, store_active_files;
      fm_cases_all; done.
  - intros Hdual Hiter Hscan.
    destruct (refresh_files_single_ok fs s raws Hdual Hiter Hscan)
      as (_ & _ & Hsel & _ & _ & Hcursor & _).
    split; [by apply Hempty|]. rewrite Hcursor. case_match; lia.
Qed.

End SelectionExtras.

(** SPACE twice on the first entry of [/home]. *)
Lemma toggle_selection_twice_witness :
  let s1 := Samples.value (toggle_selection Samples.home) in
  let s2 := Samples.value (toggle_selection s1) in
  toggle_selection Samples.home = Ok s1 ∧ toggle_selection s1 = Ok s2 ∧
  elements (selected_files s1) = [0] ∧
  selected_files s2 = selected_files Samples.home.
Proof.
  cbv zeta.
  assert (toggle_selection Samples.home
          = Ok (Samples.value (toggle_selection Samples.home))) as Hfirst
    by (vm_compute; reflexivity).
  assert (toggle_selection (Samples.value (toggle_selection Samples.home))
          = Ok (Samples.value
                  (toggle_selection (Samples.value (toggle_selection Samples.home)))))
    as Hsecond by (vm_compute; reflexivity).
  destruct (toggle_selection_twice Samples.home _ _ Hfirst Hsecond) as (Hback & _).
  split; [exact Hfirst|]. split; [exact Hsecond|].
  split; [vm_compute; reflexivity|exact Hback].
Defined.

(** [/home] with its first entry selected: the cursor goes down, and [a]
    selects the rest. *)
Lemma selection_stays_valid_witness :
  let s := Samples.value (toggle_selection Samples.home) in
  elements (selected_files s) = [0] ∧
  selection_ok s ∧
  selection_ok (navigate_down 24 s) ∧
  selection_ok (select_all s) ∧
  elements (selected_files (navigate_down 24 s)) = [0] ∧
  size (selected_files (select_all s)) = 4%nat.
Proof.
  cbv zeta.
  assert (selected_files (Samples.value (toggle_selection Samples.home)) = {[0]})
    as Hone by (vm_compute; reflexivity).
  assert (selection_ok (Samples.value (toggle_selection Samples.home))) as Hok.
  { split; [|vm_compute; discriminate].
    intros i Hi. rewrite Hone in Hi. apply elem_of_singleton in Hi as ->.
    vm_compute. split; [discriminate|reflexivity]. }
  destruct (selection_stays_valid Samples.disk 24
              (Samples.value (toggle_selection Samples.home)) [] Hok)
    as (_ & Hdown & _ & Hall & _).
  split; [vm_compute; reflexivity|]. split; [exact Hok|].
  split; [exact Hdown|]. split; [exact Hall|].
  split; vm_compute; reflexivity.
Defined.

(** ** Staging, pasting and deleting *)

Section ClipboardExtras.
Context {FS : Type} `{FileSystem FS}.

Lemma set_truthy_empty : set_truthy ∅ = false.
Proof. unfold set_truthy. by rewrite elements_empty. Qed.

Lemma set_truthy_true (X : gset Z) : X ≠ ∅ → set_truthy X = true.
Proof.
  intros HX. unfold set_truthy. destruct (elements X) eqn:Helems; [|done].
  by apply elements_empty_inv, leibniz_equiv in Helems.
Qed.

Lemma py_index_lookup {A} (l : list A) (i : Z) :
  0 ≤ i → py_index l i = l !! Z.to_nat i.
Proof. intros Hi. unfold py_index. by rewrite (proj2 (Z.leb_le _ _)). Qed.

(** X15.  [c] and [x] without a selection stage the entry under the
    cursor: the clipboard becomes the one path [current_path / name],
    whatever it held before, the action is set, and nothing else changes
    but the message.  With no entry under the cursor (an empty listing)
    nothing changes at all and the clipboard keeps what it held. *)
Theorem stage_cursor_entry (action : ClipAction) (verb : string) (s : FileManager) :
  selected_files s = ∅ →
  0 ≤ selected_index s →
  stage_file action verb s
  = Ok (match files s !! Z.to_nat (selected_index s) with
        | Some selected_file =>
            set_message (verb +:+ " " +:+ e_name selected_file)
              (set_clipboard_action (Some action)
                 (set_clipboard
                    (Some [path_join (current_path s) (e_name selected_file)]) s))
        | None => s
        end).
Proof.
  intros Hnone Hidx. unfold stage_file, index_or_raise.
  rewrite Hnone, set_truthy_empty, py_index_lookup by done.
  destruct (files s !! Z.to_nat (selected_index s)) as [selected_file|] eqn:Hlookup.
  - assert (list_truthy (files s) = true) as ->
      by (destruct (files s); [by rewrite lookup_nil in Hlookup|done]).
    apply lookup_lt_Some in Hlookup.
    assert ((len (files s) <=? selected_index s) = false) as ->
      by (unfold len; lia).
    done.
  - apply lookup_ge_None in Hlookup.
    destruct (list_truthy (files s)); cbn [negb orb]; [|done].
    assert ((len (files s) <=? selected_index s) = true) as ->
      by (unfold len; lia).
    done.
Qed.

(** The loop over a valid selection finds an entry for every index. *)
Lemma selected_entries_valid (files : list Entry) (idxs : list Z) :
  (∀ i, i ∈ idxs → 0 ≤ i < len files) →
  ∃ es, selected_entries files idxs = Ok es ∧ map fst es = idxs ∧
        ∀ ie, ie ∈ es → files !! Z.to_nat ie.1 = Some ie.2.
Proof.
  induction idxs as [|idx idxs IH]; intros Hvalid.
  - exists []. split; [done|]. split; [done|]. intros ie Hie.
    by apply elem_of_nil in Hie.
  - destruct IH as (es & Hes & Hfst & Hlookup).
    { intros i Hi. apply Hvalid. by apply list_elem_of_further. }
    assert (0 ≤ idx < len files) as Hidx by (apply Hvalid, list_elem_of_here).
    assert (∃ e, files !! Z.to_nat idx = Some e) as [e He]
      by (apply lookup_lt_is_Some_2; unfold len in Hidx; lia).
    exists ((idx, e) :: es). cbn [selected_entries].
    assert ((idx <? len files) = true) as -> by lia.
    unfold index_or_raise. rewrite py_index_lookup, He by lia.
    cbn [mbind result_bind]. rewrite Hes. cbn [mbind result_bind].
    split; [done|]. split; [cbn; by rewrite Hfst|].
    intros ie Hie. apply elem_of_cons in Hie as [->|Hie]; [done|by apply Hlookup].
Qed.

(** X16.  [c] and [x] with a valid selection stage one path for every
    selected entry, [current_path / name], and no other path; the action
    is set, and entries, cursor and selection stay. *)
Theorem stage_selection (action : ClipAction) (verb : string) (s : FileManager) :
  selected_files s ≠ ∅ →
  selection_valid s →
  ∃ s' paths,
    stage_file action verb s = Ok s' ∧
    clipboard s' = Some paths ∧ clipboard_action s' = Some action ∧
    length paths = size (selected_files s) ∧
    (∀ p, p ∈ paths ↔
          ∃ i e, i ∈ selected_files s ∧ files s !! Z.to_nat i = Some e ∧
                 p = path_join (current_path s) (e_name e)) ∧
    files s' = files s ∧ selected_index s' = selected_index s ∧
    selected_files s' = selected_files s.
Proof.
  intros Hsome Hvalid. unfold stage_file. rewrite set_truthy_true by done.
  destruct (selected_entries_valid (files s) (elements (selected_files s)))
    as (es & -> & Hfst & Hlookup).
  { intros i Hi. apply Hvalid. by apply elem_of_elements. }
  cbn [mbind result_bind].
  eexists _, (map (fun ie => path_join (current_path s) (e_name ie.2)) es).
  split; [done|]. split; [done|]. split; [done|].
  split; [|split; [|done]].
  - rewrite length_map, <- (length_map fst es), Hfst. done.
  - intros p. rewrite list_elem_of_fmap. split.
    + intros ([i e] & -> & Hie). exists i, e. split; [|split; [|done]].
      * apply elem_of_elements. rewrite <- Hfst.
        apply list_elem_of_fmap. by exists (i, e).
      * by apply (Hlookup (i, e)).
    + intros (i & e & Hi & Hie & ->).
      apply elem_of_elements in Hi. rewrite <- Hfst in Hi.
      apply list_elem_of_fmap in Hi as ([i' e'] & -> & Hin).
      exists (i', e'). split; [|done]. cbn [fst snd] in *.
      pose proof (Hlookup (i', e') Hin) as He'. cbn [fst snd] in He'.
      congruence.
Qed.

Lemma paste_one_accounts action cur source (acc : FS * Z * list string) :
  let r := paste_one action cur source acc in
  r.1.2 + len r.2 = acc.1.2 + len acc.2 + 1 ∧ acc.1.2 ≤ r.1.2.
Proof.
  destruct acc as [[fs n] errors]. unfold paste_one.
  destruct (path_exists fs _).
  - cbn [fst snd]. unfold len. rewrite List.length_app. cbn [length]. lia.
  - destruct (match action with
              | Some Copy =>
                  if path_is_dir fs source
                  then shutil_copytree source (path_join cur (path_name source)) fs
                  else shutil_copy2 source (path_join cur (path_name source)) fs
              | Some Cut => shutil_move source (path_join cur (path_name source)) fs
              | None => (fs, None)
              end) as [fs' [e|]]; cbn [fst snd].
    + unfold len. rewrite List.length_app. cbn [length]. lia.
    + lia.
Qed.

Lemma paste_loop_accounts action cur sources : ∀ acc : FS * Z * list string,
  let r := paste_loop action cur sources acc in
  r.1.2 + len r.2 = acc.1.2 + len acc.2 + len sources ∧ acc.1.2 ≤ r.1.2.
Proof.
  induction sources as [|source sources IH]; intros acc; cbn [paste_loop foldl].
  - unfold len. cbn [length]. lia.
  - destruct (IH (paste_one action cur source acc)) as [Hsum Hle].
    destruct (paste_one_accounts action cur source acc) as [Hsum1 Hle1].
    unfold paste_loop in *. cbv zeta in *.
    unfold len in *. cbn [length]. lia.
Qed.

(** X17.  A paste accounts for every staged path: each one is either
    counted as pasted or has one line among the errors, so the count and
    the number of error lines add up to the number of staged paths. *)
Theorem paste_accounts_for_every_path (fs : FS) (action : option ClipAction)
    (cur : Path) (sources : list Path) :
  let r := paste_loop action cur sources (fs, 0, []) in
  r.1.2 + len r.2 = len sources ∧ 0 ≤ r.1.2 ∧ len r.2 ≤ len sources.
Proof.
  destruct (paste_loop_accounts action cur sources (fs, 0, [])) as [Hsum Hle].
  cbv zeta in *. cbn [fst snd] in *. unfold len in *. cbn [length] in *. lia.
Qed.

Lemma paste_loop_all_conflicts action cur sources : ∀ (fs : FS) n errors,
  Forall (fun source => path_exists fs (path_join cur (path_name source)) = true)
    sources →
  paste_loop action cur sources (fs, n, errors)
  = (fs, n, errors ++ map (fun source => path_name source +:+ " already exists")
                        sources).
Proof.
  induction sources as [|source sources IH]; intros fs n errors Hall.
  - cbn. by rewrite app_nil_r.
  - inversion Hall as [|? ? Hhere Hrest]; subst.
    change (paste_loop action cur (source :: sources) (fs, n, errors))
      with (paste_loop action cur sources
              (paste_one action cur source (fs, n, errors))).
    rewrite paste_one_conflict by done.
    rewrite IH by done. by rewrite <- app_assoc.
Qed.

(** X18.  A paste into a directory where every destination exists already
    (pasting back into the directory the files were staged from, say)
    touches nothing: the filesystem is as before, nothing is counted as
    pasted, every path is named as a conflict, and clipboard and action
    stay, for cut as for copy. *)
Theorem paste_all_conflicts (fs : FS) (s : FileManager)
    (source : Path) (sources : list Path) :
  clipboard s = Some (source :: sources) →
  Forall (fun source =>
            path_exists fs (path_join (current_path s) (path_name source)) = true)
    (source :: sources) →
  paste_loop (clipboard_action s) (current_path s) (source :: sources) (fs, 0, [])
  = (fs, 0, map (fun source => path_name source +:+ " already exists")
              (source :: sources)) ∧
  (paste_file fs s).1 = fs ∧
  clipboard (paste_file fs s).2 = clipboard s ∧
  clipboard_action (paste_file fs s).2 = clipboard_action s.
Proof.
  intros Hclip Hall.
  pose proof (paste_loop_all_conflicts (clipboard_action s) (current_path s)
                (source :: sources) fs 0 [] Hall) as Hloop.
  cbn [app] in Hloop. split; [exact Hloop|].
  rewrite (paste_file_unfold fs s source sources Hclip). cbv zeta.
  rewrite Hloop. cbn [fst snd]. split; [done|].
  destruct (refresh_files_clipboard fs
              (paste_report 0
                 (map (fun source => path_name source +:+ " already exists")
                    (source :: sources)) s)) as [-> ->].
  pose proof (paste_report_clipboard 0
                (map (fun source => path_name source +:+ " already exists")
                   (source :: sources)) s) as Hreport.
  cbv zeta in Hreport. rewrite andb_false_r in Hreport. exact Hreport.
Qed.




(** X19.  A delete that is not confirmed changes nothing: with nothing to
    delete (no selection and no entry under the cursor) the state is
    returned as it is, without a prompt; with targets and any first key
    other than [y] or [Y], the filesystem is returned as it is and the state
    differs in its message only. *)
Theorem delete_not_confirmed (fs : FS) (s : FileManager) (key key2 : Z)
    (targets : list (Z * string * Path)) :
  delete_targets s = Ok targets →
  (targets = [] → delete_file key key2 fs s = Ok (fs, s)) ∧
  (targets ≠ [] → key ≠ 121 → key ≠ 89 →
   delete_file key key2 fs s = Ok (fs, set_message "Delete cancelled" s)).
Proof.
  intros Htargets. unfold delete_file. rewrite Htargets. cbn [mbind result_bind].
  split.
  - intros ->. done.
  - intros Hsome Hy HY. destruct targets; [done|]. cbn [list_truthy negb].
    assert (is_yes key = false) as ->; [|done].
    unfold is_yes. apply orb_false_iff. split; by apply Z.eqb_neq.
Qed.


End ClipboardExtras.

(** [c] on the directory [A], the first entry of [/home]. *)
Lemma stage_cursor_entry_witness :
  selected_files Samples.home = ∅ ∧ 0 ≤ selected_index Samples.home ∧
  ∃ s', copy_file Samples.home = Ok s' ∧
        clipboard s' = Some [["home"; "A"]] ∧ clipboard_action s' = Some Copy.
Proof.
  assert (selected_files Samples.home = ∅) as Hnone by (vm_compute; reflexivity).
  assert (0 ≤ selected_index Samples.home) as Hidx by (vm_compute; discriminate).
  pose proof (stage_cursor_entry Copy "Copied" Samples.home Hnone Hidx) as Hstage.
  split; [exact Hnone|]. split; [exact Hidx|].
  eexists. split; [exact Hstage|]. split; vm_compute; reflexivity.
Defined.

(** [x] in [/home] with the first entry selected. *)
Lemma stage_selection_witness :
  let s := Samples.value (toggle_selection Samples.home) in
  selected_files s ≠ ∅ ∧ selection_valid s ∧
  ∃ s' paths, cut_file s = Ok s' ∧ clipboard s' = Some paths ∧
              clipboard_action s' = Some Cut ∧ length paths = 1%nat.
Proof.
  cbv zeta.
  assert (selected_files (Samples.value (toggle_selection Samples.home)) = {[0]})
    as Hone by (vm_compute; reflexivity).
  assert (selected_files (Samples.value (toggle_selection Samples.home)) ≠ ∅)
    as Hsome.
  { rewrite Hone. intros Heq. apply (f_equal size) in Heq.
    vm_compute in Heq. discriminate. }
  assert (selection_valid (Samples.value (toggle_selection Samples.home)))
    as Hvalid.
  { intros i Hi. rewrite Hone in Hi. apply elem_of_singleton in Hi as ->.
    vm_compute. split; [discriminate|reflexivity]. }
  destruct (stage_selection Cut "Cut" _ Hsome Hvalid)
    as (s' & paths & Hstage & Hclip & Haction & Hlength & _).
  split; [exact Hsome|]. split; [exact Hvalid|].
  exists s', paths. split; [exact Hstage|]. split; [exact Hclip|].
  split; [exact Haction|]. rewrite Hlength, Hone. vm_compute. reflexivity.
Defined.

(** [c] on [A] in [/home], then [v] in the same directory. *)
Lemma paste_all_conflicts_witness :
  let s := Samples.value (copy_file Samples.home) in
  clipboard s = Some [["home"; "A"]] ∧
  (paste_file Samples.disk s).1 = Samples.disk ∧
  clipboard (paste_file Samples.disk s).2 = Some [["home"; "A"]].
Proof.
  cbv zeta.
  assert (clipboard (Samples.value (copy_file Samples.home))
          = Some [["home"; "A"]]) as Hclip by (vm_compute; reflexivity).
  assert (Forall (fun source =>
                    path_exists Samples.disk
                      (path_join
                         (current_path (Samples.value (copy_file Samples.home)))
                         (path_name source)) = true) [["home"; "A"]]) as Hall
    by (constructor; [vm_compute; reflexivity|constructor]).
  destruct (paste_all_conflicts Samples.disk _ _ _ Hclip Hall)
    as (_ & Hfs & Hkept & _).
  split; [exact Hclip|]. split; [exact Hfs|]. rewrite Hkept. exact Hclip.
Defined.

(** Delete on [A] in [/home], answered with [n]. *)
Lemma delete_not_confirmed_witness :
  delete_targets Samples.home = Ok [(0, "A", ["home"; "A"])] ∧
  delete_file 110 0 Samples.disk Samples.home
  = Ok (Samples.disk, set_message "Delete cancelled" Samples.home).
Proof.
  assert (delete_targets Samples.home = Ok [(0, "A", ["home"; "A"])]) as Htargets
    by (vm_compute; reflexivity).
  destruct (delete_not_confirmed Samples.disk Samples.home 110 0 _ Htargets)
    as [_ Hdeclined].
  split; [exact Htargets|].
  apply Hdeclined; discriminate.
Defined.


(** ** Search and filter *)

Section OverlayExtras.
Context {FS : Type} `{FileSystem FS}.

Lemma truthy_lower str : PyStr.truthy (PyStr.lower str) = PyStr.truthy str.
Proof. by destruct str. Qed.

Lemma truthy_strip str : PyStr.truthy (PyStr.strip str) = true → PyStr.truthy str = true.
Proof. by destruct str. Qed.

Lemma apply_search_filter_fields s :
  let s' := apply_search_filter s in
  files s' = List.filter (overlay_keeps s) (overlay_base s) ∧
  original_files s' = overlay_base s ∧
  selected_index s' = 0 ∧ scroll_offset s' = 0 ∧ selected_files s' = ∅ ∧
  search_mode s' = search_mode s ∧ filter_mode s' = filter_mode s ∧
  search_query s' = search_query s ∧ filter_extension s' = filter_extension s.
Proof.
  cbv zeta. unfold apply_search_filter, overlay_base, store_active_files.
  destruct (list_truthy (original_files s)); fm_cases_all; done.
Qed.

Lemma overlay_started msg t base keeps :
  overlay_base t = base → (∀ e, overlay_keeps t e = keeps e) →
  let s' := show_message msg (apply_search_filter t) in
  files s' = List.filter keeps base ∧ original_files s' = base ∧
  selected_index s' = 0 ∧ scroll_offset s' = 0 ∧ selected_files s' = ∅ ∧
  search_mode s' = search_mode t ∧ filter_mode s' = filter_mode t ∧
  filter_extension s' = filter_extension t.
Proof.
  intros Hbase Hkeeps. cbv zeta. unfold show_message.
  destruct (apply_search_filter_fields t)
    as (Hfiles & Horig & Hidx & Hscroll & Hsel & Hsearch & Hfilter & _ & Hext).
  rewrite Hbase in Hfiles, Horig. rewrite (List.filter_ext _ _ Hkeeps) in Hfiles.
  generalize dependent (apply_search_filter t). intros u. intros. fm_cbn. done.
Qed.

Lemma start_search_on_eq query s :
  PyStr.truthy (PyStr.strip query) = true →
  start_search_on (Some query) s
  = show_message ("Searching for: " +:+ query)
      (apply_search_filter
         (set_filter_mode false
            (set_search_mode true (set_search_query (PyStr.lower query) s)))).
Proof. intros Hquery. unfold start_search_on. by rewrite Hquery. Qed.

(** X21.  A search shows the entries whose lower-cased name contains the
    lower-cased query, in the order of the listing searched: that of the
    directory or, when a search or a filter is shown already, the unfiltered
    one behind it, never the filtered one.  The cursor goes to the top, the
    selection is emptied and a filter is switched off. *)
Theorem search_shows_matches (query : string) (s : FileManager) :
  PyStr.truthy (PyStr.strip query) = true →
  let s' := start_search_on (Some query) s in
  files s'
  = List.filter (fun e => PyStr.contains (PyStr.lower query) (PyStr.lower (e_name e)))
      (overlay_base s) ∧
  original_files s' = overlay_base s ∧
  selected_index s' = 0 ∧ scroll_offset s' = 0 ∧ selected_files s' = ∅ ∧
  search_mode s' = true ∧ filter_mode s' = false.
Proof.
  intros Hquery. cbv zeta. rewrite (start_search_on_eq query s Hquery).
  destruct (overlay_started ("Searching for: " +:+ query)
              (set_filter_mode false
                 (set_search_mode true (set_search_query (PyStr.lower query) s)))
              (overlay_base s)
              (fun e => PyStr.contains (PyStr.lower query) (PyStr.lower (e_name e))))
    as (Hfiles & Horig & Hidx & Hscroll & Hsel & Hsearch & Hfilter & _).
  - unfold overlay_base. fm_cbn. reflexivity.
  - intros e. unfold overlay_keeps. fm_cbn.
    rewrite truthy_lower, (truthy_strip _ Hquery). reflexivity.
  - assert (search_mode
              (set_filter_mode false
                 (set_search_mode true (set_search_query (PyStr.lower query) s)))
            = true) as Hon by (fm_cbn; reflexivity).
    assert (filter_mode
              (set_filter_mode false
                 (set_search_mode true (set_search_query (PyStr.lower query) s)))
            = false) as Hoff by (fm_cbn; reflexivity).
    rewrite Hon in Hsearch. rewrite Hoff in Hfilter.
    exact (conj Hfiles (conj Horig (conj Hidx (conj Hscroll
             (conj Hsel (conj Hsearch Hfilter)))))).
Qed.

Lemma startswith_dot str :
  PyStr.startswith str "." = true → PyStr.truthy str = true.
Proof. by destruct str. Qed.

(** The extension that [start_filter] stores starts with a dot. *)
Lemma normalize_extension_dot answer :
  PyStr.startswith (normalize_extension answer) "." = true.
Proof.
  unfold normalize_extension.
  destruct (PyStr.startswith (PyStr.strip (PyStr.lower answer)) ".") eqn:Hdot;
    [exact Hdot|].
  by destruct (PyStr.strip (PyStr.lower answer)).
Qed.

Lemma start_filter_on_eq answer s :
  PyStr.truthy (PyStr.strip answer) = true →
  start_filter_on (Some answer) s
  = show_message ("Filtering by: " +:+ normalize_extension answer)
      (apply_search_filter
         (set_search_mode false
            (set_filter_mode true
               (set_filter_extension (normalize_extension answer) s)))).
Proof. intros Hanswer. unfold start_filter_on. by rewrite Hanswer. Qed.

(** X22.  A filter shows the entries whose lower-cased name ends with the
    extension, taken from the same listing as a search would be.  The
    extension is the answer in lower case and stripped, with a dot put
    before it unless it starts with one; a search is switched off. *)
Theorem filter_shows_extension (answer : string) (s : FileManager) :
  PyStr.truthy (PyStr.strip answer) = true →
  let s' := start_filter_on (Some answer) s in
  let ext := PyStr.strip (PyStr.lower answer) in
  filter_extension s' = (if PyStr.startswith ext "." then ext else "." +:+ ext) ∧
  PyStr.startswith (filter_extension s') "." = true ∧
  files s'
  = List.filter (fun e => PyStr.endswith (PyStr.lower (e_name e)) (filter_extension s'))
      (overlay_base s) ∧
  original_files s' = overlay_base s ∧
  selected_index s' = 0 ∧ scroll_offset s' = 0 ∧ selected_files s' = ∅ ∧
  filter_mode s' = true ∧ search_mode s' = false.
Proof.
  intros Hanswer. cbv zeta. rewrite (start_filter_on_eq answer s Hanswer).
  destruct (overlay_started ("Filtering by: " +:+ normalize_extension answer)
              (set_search_mode false
                 (set_filter_mode true
                    (set_filter_extension (normalize_extension answer) s)))
              (overlay_base s)
              (fun e => PyStr.endswith (PyStr.lower (e_name e))
                          (normalize_extension answer)))
    as (Hfiles & Horig & Hidx & Hscroll & Hsel & Hsearch & Hfilter & Hext).
  - unfold overlay_base. fm_cbn. reflexivity.
  - intros e. unfold overlay_keeps. fm_cbn.
    rewrite (startswith_dot _ (normalize_extension_dot answer)). reflexivity.
  - assert (search_mode
              (set_search_mode false
                 (set_filter_mode true
                    (set_filter_extension (normalize_extension answer) s)))
            = false) as Hoff by (fm_cbn; reflexivity).
    assert (filter_mode
              (set_search_mode false
                 (set_filter_mode true
                    (set_filter_extension (normalize_extension answer) s)))
            = true) as Hon by (fm_cbn; reflexivity).
    assert (filter_extension
              (set_search_mode false
                 (set_filter_mode true
                    (set_filter_extension (normalize_extension answer) s)))
            = normalize_extension answer) as Hstored by (fm_cbn; reflexivity).
    rewrite Hoff in Hsearch. rewrite Hon in Hfilter. rewrite Hstored in Hext.
    rewrite Hext.
    split; [reflexivity|]. split; [apply normalize_extension_dot|].
    exact (conj Hfiles (conj Horig (conj Hidx (conj Hscroll
             (conj Hsel (conj Hfilter Hsearch)))))).
Qed.

Lemma filter_sublist {A} (f : A → bool) (l : list A) : sublist (List.filter f l) l.
Proof.
  induction l as [|x l IH]; cbn [List.filter]; [constructor|].
  destruct (f x); by constructor.
Qed.

Lemma sublist_lookup {A} (l1 l2 : list A) :
  sublist l1 l2 → ∀ i a, l1 !! i = Some a → ∃ i', l2 !! i' = Some a.
Proof.
  intros Hsub i a Hi. apply list_elem_of_lookup.
  eapply sublist_subseteq; [exact Hsub|]. by eapply list_elem_of_lookup_2.
Qed.

(** Two positions of a sublist come from two positions of the list, in the
    same order. *)
Lemma sublist_lookup_lt {A} (l1 l2 : list A) :
  sublist l1 l2 → ∀ (i j : nat) a b,
  (i < j)%nat → l1 !! i = Some a → l1 !! j = Some b →
  ∃ i' j', (i' < j')%nat ∧ l2 !! i' = Some a ∧ l2 !! j' = Some b.
Proof.
  induction 1 as [|x l1 l2 Hsub IH|x l1 l2 Hsub IH]; intros i j a b Hlt Hi Hj.
  - by rewrite lookup_nil in Hi.
  - destruct j as [|j]; [lia|]. destruct i as [|i].
    + destruct (sublist_lookup l1 l2 Hsub j b Hj) as [j' Hj'].
      exists 0%nat, (S j'). split; [lia|]. done.
    + destruct (IH i j a b) as (i' & j' & Hlt' & Hi' & Hj'); [lia|done|done|].
      exists (S i'), (S j'). split; [lia|]. done.
  - destruct (IH i j a b Hlt Hi Hj) as (i' & j' & Hlt' & Hi' & Hj').
    exists (S i'), (S j'). split; [lia|]. done.
Qed.

Lemma listing_ordered_sublist l1 l2 :
  sublist l1 l2 → listing_ordered l2 → listing_ordered l1.
Proof.
  intros Hsub Hordered i j a b Hlt Hi Hj.
  destruct (sublist_lookup_lt l1 l2 Hsub i j a b Hlt Hi Hj)
    as (i' & j' & Hlt' & Hi' & Hj').
  by apply (Hordered i' j' a b).
Qed.

(** X23.  A search or a filter keeps the display order: what it shows is
    a sublist of the listing it is taken from, so directories still come
    before files and names ascend within a kind; taking it away gives that
    listing back. *)
Theorem overlay_keeps_display_order (s : FileManager) :
  listing_ordered (overlay_base s) →
  let s' := apply_search_filter s in
  sublist (files s') (overlay_base s) ∧ listing_ordered (files s') ∧
  (overlay_base s ≠ [] → files (clear_search_filter s') = overlay_base s).
Proof.
  intros Hordered. cbv zeta.
  destruct (apply_search_filter_fields s) as (Hfiles & Horig & _).
  assert (sublist (files (apply_search_filter s)) (overlay_base s)) as Hsub
    by (rewrite Hfiles; apply filter_sublist).
  split; [exact Hsub|]. split; [by eapply listing_ordered_sublist|].
  intros Hsome. set (t := apply_search_filter s) in *. clearbody t.
  unfold clear_search_filter, store_active_files, show_message. rewrite Horig.
  destruct (overlay_base s); [done|]. cbn [list_truthy].
  fm_cases; done.
Qed.

Lemma refresh_files_listed_path (fs : FS) s :
  listed_path (refresh_files fs s) = listed_path s.
Proof.
  unfold listed_path.
  destruct (refresh_files_mode fs s) as (-> & -> & _).
  unfold refresh_files. destruct (dual_panel_mode s) eqn:Hdual.
  - fm_cbn.
    destruct (refresh_panel_files_globals fs PRight (refresh_panel_files fs PLeft s))
      as (_ & _ & _ & -> & _).
    by destruct (refresh_panel_files_globals fs PLeft s) as (_ & _ & _ & -> & _).
  - fm_cbn. destruct (iterdir fs _) as [raws|[msg|msg]]; fm_cases_all; done.
Qed.

Lemma toggle_hidden_once (fs : FS) s :
  show_hidden (toggle_hidden fs s) = negb (show_hidden s) ∧
  files (toggle_hidden fs s)
  = listing_of fs (dual_panel_mode s) (negb (show_hidden s)) (listed_path s) ∧
  listed_path (toggle_hidden fs s) = listed_path s ∧
  dual_panel_mode (toggle_hidden fs s) = dual_panel_mode s.
Proof.
  unfold toggle_hidden. cbv zeta. unfold show_message.
  pose proof (refresh_files_listing fs (set_show_hidden (negb (show_hidden s)) s))
    as Hfiles.
  pose proof (refresh_files_listed_path fs (set_show_hidden (negb (show_hidden s)) s))
    as Hpath.
  destruct (refresh_files_mode fs (set_show_hidden (negb (show_hidden s)) s))
    as (Hmode & _ & Hflag).
  revert Hfiles Hpath Hmode Hflag.
  generalize (refresh_files fs (set_show_hidden (negb (show_hidden s)) s)).
  intros u Hfiles Hpath Hmode Hflag. unfold listed_path in *. fm_cbn.
  fm_cbn_in Hfiles. fm_cbn_in Hpath. fm_cbn_in Hflag. fm_cbn_in Hmode. done.
Qed.

(** A scan that shows the hidden children and is not left is not left
    without them either, and lists every entry that is listed without
    them. *)
Lemma scan_with_hidden raws :
  scan_raised true raws = None →
  scan_raised false raws = None ∧
  ∀ e, e ∈ scan_entries false raws → e ∈ scan_entries true raws.
Proof.
  unfold scan_raised, scan_entries.
  induction raws as [|r raws IH]; [done|]. rewrite !scan_loop_cons.
  change (hidden_skipped true r) with false.
  destruct (scan_entry r) as [entry|e]; cbn [fst snd]; [|done].
  intros Hrest. destruct (IH Hrest) as [Hnone Hsub].
  destruct (hidden_skipped false r); cbn [fst snd].
  - split; [done|]. intros e He. by apply list_elem_of_further, Hsub.
  - split; [done|]. intros e He.
    apply elem_of_cons in He as [->|He];
      [apply list_elem_of_here|by apply list_elem_of_further, Hsub].
Qed.

(** X24.  [.] flips the flag and lists the directory under the new flag;
    pressed twice it gives the flag back and the listing of the directory
    under it.  Showing the hidden entries only adds to a listing when the
    scan with them comes to its end: every entry listed without them is
    then listed with them. *)
Theorem toggle_hidden_twice (fs : FS) (s : FileManager) :
  let s1 := toggle_hidden fs s in
  let s2 := toggle_hidden fs s1 in
  show_hidden s1 = negb (show_hidden s) ∧
  files s1
  = listing_of fs (dual_panel_mode s) (negb (show_hidden s)) (listed_path s) ∧
  show_hidden s2 = show_hidden s ∧
  files s2 = listing_of fs (dual_panel_mode s) (show_hidden s) (listed_path s) ∧
  ∀ dual path raws,
    iterdir fs path = Ok raws → scan_raised true raws = None →
    ∀ e, e ∈ listing_of fs dual false path → e ∈ listing_of fs dual true path.
Proof.
  cbv zeta.
  destruct (toggle_hidden_once fs s) as (Hflag1 & Hfiles1 & Hpath1 & Hmode1).
  destruct (toggle_hidden_once fs (toggle_hidden fs s)) as (Hflag2 & Hfiles2 & _).
  rewrite Hflag1, negb_involutive in Hflag2.
  rewrite Hflag1, Hpath1, Hmode1, negb_involutive in Hfiles2.
  split; [done|]. split; [done|]. split; [done|]. split; [done|].
  intros dual path raws Hiter Hscan e. unfold listing_of. rewrite Hiter, Hscan.
  destruct (scan_with_hidden raws Hscan) as [-> Hsub].
  unfold sorted_listing. rewrite !(sort_entries_Permutation _). apply Hsub.
Qed.

End OverlayExtras.

(** The search for [A] in [/home]. *)
Lemma search_shows_matches_witness :
  PyStr.truthy (PyStr.strip "A") = true ∧
  map e_name (files (start_search_on (Some "A") Samples.home)) = ["A"; "a.mp3"].
Proof.
  assert (PyStr.truthy (PyStr.strip "A") = true) as Hquery
    by (vm_compute; reflexivity).
  destruct (search_shows_matches "A" Samples.home Hquery) as (Hfiles & _).
  split; [exact Hquery|]. rewrite Hfiles. vm_compute. reflexivity.
Defined.

(** The filter for [MP3] in [/home]. *)
Lemma filter_shows_extension_witness :
  PyStr.truthy (PyStr.strip "MP3") = true ∧
  filter_extension (start_filter_on (Some "MP3") Samples.home) = ".mp3" ∧
  map e_name (files (start_filter_on (Some "MP3") Samples.home))
  = ["a.mp3"; "c.MP3"].
Proof.
  assert (PyStr.truthy (PyStr.strip "MP3") = true) as Hanswer
    by (vm_compute; reflexivity).
  destruct (filter_shows_extension "MP3" Samples.home Hanswer)
    as (Hext & _ & Hfiles & _).
  split; [exact Hanswer|]. split; [rewrite Hext; vm_compute; reflexivity|].
  rewrite Hfiles, Hext. vm_compute. reflexivity.
Defined.

(** The search for [a] put over [/home]. *)
Lemma overlay_keeps_display_order_witness :
  let s := set_search_mode true (set_search_query "a" Samples.home) in
  listing_ordered (overlay_base s) ∧
  listing_ordered (files (apply_search_filter s)) ∧
  files (clear_search_filter (apply_search_filter s)) = files Samples.home.
Proof.
  cbv zeta.
  assert (overlay_base (set_search_mode true (set_search_query "a" Samples.home))
          = sort_entries (files Samples.home)) as Hbase
    by (vm_compute; reflexivity).
  assert (listing_ordered
            (overlay_base (set_search_mode true (set_search_query "a" Samples.home))))
    as Hordered
    by (rewrite Hbase; apply StronglySorted_listing_ordered, sort_entries_Sorted).
  destruct (overlay_keeps_display_order _ Hordered) as (_ & Hshown & Hcleared).
  split; [exact Hordered|]. split; [exact Hshown|].
  rewrite Hcleared; [vm_compute; reflexivity|].
  rewrite Hbase. vm_compute. discriminate.
Defined.

(** Showing the hidden entries can take entries away when the scan with
    them is left: in [/var] the listing without hidden entries holds [log],
    and [.] empties it, because the scan is then left at [.locked]. *)
Example showing_hidden_can_empty_the_listing :
  let s := init ListFS.mnt ["var"] in
  map e_name (files s) = ["log"] ∧
  files (toggle_hidden ListFS.mnt s) = [] ∧
  message (toggle_hidden ListFS.mnt s) = "Hidden files: ON".
Proof. cbv zeta. split; [|split]; vm_compute; reflexivity. Qed.

(** ** Typing into the dialog *)

Section TypingExtras.

Lemma append_empty_r str : str +:+ "" = str.
Proof. induction str as [|c str IH]; [done|exact (f_equal (String c) IH)]. Qed.

Lemma append_assoc a b c : (a +:+ b) +:+ c = a +:+ (b +:+ c).
Proof. induction a as [|x a IH]; [done|exact (f_equal (String x) IH)]. Qed.

Lemma take_all n str : (String.length str ≤ n)%nat → PyStr.take n str = str.
Proof.
  revert n. induction str as [|c str IH]; intros [|n] Hn; cbn in *; try done; try lia.
  rewrite IH by lia. done.
Qed.

Lemma take_app_length a b : PyStr.take (String.length a) (a +:+ b) = a.
Proof.
  induction a as [|c a IH]; [by destruct b|exact (f_equal (String c) IH)].
Qed.

Lemma drop_app_length a b : PyStr.drop (String.length a) (a +:+ b) = b.
Proof. induction a as [|c a IH]; [by destruct b|exact IH]. Qed.

Lemma drop_all n str : (String.length str ≤ n)%nat → PyStr.drop n str = "".
Proof.
  revert n. induction str as [|c str IH]; intros [|n] Hn; cbn in *; try done; try lia.
  apply IH. lia.
Qed.

Lemma key_of_printable c :
  32 ≤ key_of c ≤ 126 ↔ 32 <= Z.of_nat (nat_of_ascii c) <= 126.
Proof. done. Qed.

Lemma chr_key_of c : PyStr.chr (key_of c) = c.
Proof.
  unfold PyStr.chr, key_of. rewrite Nat2Z.id. apply ascii_nat_embedding.
Qed.

(** One turn of the loop on a printable key. *)
Lemma dialog_loop_printable max_length str pos key keys :
  32 ≤ key ≤ 126 →
  dialog_loop max_length str pos (key :: keys)
  = if Z.of_nat (String.length str) <? max_length - 1
    then dialog_loop max_length
           (PyStr.slice_to str pos +:+ String (PyStr.chr key) (PyStr.slice_from str pos))
           (pos + 1) keys
    else dialog_loop max_length str pos keys.
Proof.
  intros Hkey. cbn [dialog_loop]. unfold KEY_ENTER, KEY_BACKSPACE, KEY_LEFT,
    KEY_RIGHT, KEY_HOME, KEY_END.
  assert ((key =? 27) = false) as -> by lia.
  assert ((key =? 10) = false) as -> by lia.
  assert ((key =? 13) = false) as -> by lia.
  assert ((key =? 343) = false) as -> by lia.
  assert ((key =? 263) = false) as -> by lia.
  assert ((key =? 127) = false) as -> by lia.
  assert ((key =? 8) = false) as -> by lia.
  assert ((key =? 260) = false) as -> by lia.
  assert ((key =? 261) = false) as -> by lia.
  assert ((key =? 262) = false) as -> by lia.
  assert ((key =? 1) = false) as -> by lia.
  assert ((key =? 360) = false) as -> by lia.
  assert ((key =? 5) = false) as -> by lia.
  assert ((32 <=? key) = true) as -> by lia.
  assert ((key <=? 126) = true) as -> by lia.
  reflexivity.
Qed.

(** One turn of the loop on a backspace key. *)
Lemma dialog_loop_backspace max_length str pos key keys :
  key = KEY_BACKSPACE ∨ key = 127 ∨ key = 8 → 0 < pos →
  dialog_loop max_length str pos (key :: keys)
  = dialog_loop max_length
      (PyStr.slice_to str (pos - 1) +:+ PyStr.slice_from str pos) (pos - 1) keys.
Proof.
  intros Hkey Hpos. cbn [dialog_loop]. unfold KEY_ENTER, KEY_BACKSPACE in *.
  assert ((key =? 27) = false) as -> by lia.
  assert ((key =? 10) = false) as -> by lia.
  assert ((key =? 13) = false) as -> by lia.
  assert ((key =? 343) = false) as -> by lia.
  assert (((key =? 263) || (key =? 127) || (key =? 8)) = true) as ->
    by (rewrite !orb_true_iff; lia).
  assert ((0 <? pos) = true) as -> by lia.
  reflexivity.
Qed.

(** A character typed at the end of the text is put at its end. *)
Lemma typed_at_end str c :
  PyStr.slice_to str (Z.of_nat (String.length str))
  +:+ String c (PyStr.slice_from str (Z.of_nat (String.length str)))
  = str +:+ String c "".
Proof.
  unfold PyStr.slice_to, PyStr.slice_from.
  rewrite (proj2 (Z.leb_le _ _)) by lia. rewrite Nat2Z.id.
  rewrite take_all, drop_all by lia. done.
Qed.

(** The loop after the keys of a printable text, typed with the cursor at
    the end: the text is added as long as there is room. *)
Lemma dialog_loop_typed max_length keys str : ∀ pre,
  printable str →
  Z.of_nat (String.length pre) ≤ max_length - 1 →
  let text := PyStr.take (Z.to_nat (max_length - 1)) (pre +:+ str) in
  dialog_loop max_length pre (Z.of_nat (String.length pre)) (keys_of str ++ keys)
  = dialog_loop max_length text (Z.of_nat (String.length text)) keys.
Proof.
  induction str as [|c str IH]; intros pre Hprintable Hroom; cbv zeta.
  - rewrite append_empty_r, take_all by lia. done.
  - unfold printable in Hprintable. cbn in Hprintable.
    apply Forall_cons in Hprintable as [Hc Hstr].
    change (keys_of (String c str) ++ keys)
      with (key_of c :: (keys_of str ++ keys)).
    rewrite dialog_loop_printable by (by apply key_of_printable).
    rewrite chr_key_of, typed_at_end.
    destruct (Z.of_nat (String.length pre) <? max_length - 1) eqn:Hless.
    + replace (Z.of_nat (String.length pre) + 1)
        with (Z.of_nat (String.length (pre +:+ String c ""))).
      2:{ rewrite length_app. cbn. lia. }
      rewrite (IH (pre +:+ String c "")); [|done|rewrite length_app; cbn; lia].
      cbv zeta. by rewrite append_assoc.
    + rewrite (IH pre) by done. cbv zeta.
      assert (Z.to_nat (max_length - 1) = String.length pre) as -> by lia.
      by rewrite !take_app_length.
Qed.

Lemma dialog_input_typed max_length keys str :
  printable str → 1 ≤ max_length →
  get_dialog_input max_length (keys_of str ++ keys)
  = dialog_loop max_length (PyStr.take (Z.to_nat (max_length - 1)) str)
      (Z.of_nat (String.length (PyStr.take (Z.to_nat (max_length - 1)) str))) keys.
Proof.
  intros Hprintable Hmax. unfold get_dialog_input.
  apply (dialog_loop_typed max_length keys str "" Hprintable).
  change (0 ≤ max_length - 1). lia.
Qed.

Lemma dialog_input_entered (max_length : Z) (str : string)
    (key : Z) (rest : list Z) :
  1 ≤ max_length → printable str → is_enter key →
  get_dialog_input max_length (keys_of str ++ key :: rest)
  = Some (Some (PyStr.take (Z.to_nat (max_length - 1)) str), rest).
Proof.
  intros Hmax Hprintable Henter.
  rewrite dialog_input_typed by done.
  cbn [dialog_loop]. unfold is_enter in Henter.
  assert ((key =? 27) = false) as -> by (unfold KEY_ENTER in *; lia).
  assert (((key =? 10) || (key =? 13) || (key =? KEY_ENTER)) = true) as ->
    by (rewrite !orb_true_iff; lia).
  done.
Qed.

Lemma dialog_input_escaped (max_length : Z) (str : string) (rest : list Z) :
  1 ≤ max_length → printable str →
  get_dialog_input max_length (keys_of str ++ 27 :: rest) = Some (None, rest).
Proof. intros Hmax Hprintable. by rewrite dialog_input_typed by done. Qed.

(** X25.  What is typed is what the dialog returns: after the keys of a
    printable text, Enter returns the text, cut to the first
    [max_length - 1] characters when it is longer, and ESC returns [None];
    in both cases the keys that follow are left unread. *)
Theorem typed_text_is_returned (max_length : Z) (str : string)
    (key : Z) (rest : list Z) :
  1 ≤ max_length → printable str → is_enter key →
  get_dialog_input max_length (keys_of str ++ key :: rest)
  = Some (Some (PyStr.take (Z.to_nat (max_length - 1)) str), rest) ∧
  get_dialog_input max_length (keys_of str ++ 27 :: rest) = Some (None, rest) ∧
  (Z.of_nat (String.length str) < max_length →
   PyStr.take (Z.to_nat (max_length - 1)) str = str).
Proof.
  intros Hmax Hprintable Henter.
  split; [by apply dialog_input_entered|].
  split; [by apply dialog_input_escaped|].
  intros Hfits. apply take_all. lia.
Qed.

(** X26.  Backspace takes back the character typed last: while the text
    has room for it, a printable key followed by a backspace key leaves the
    dialog as it was, whatever is typed afterwards. *)
Theorem backspace_undoes_typing (max_length : Z) (str : string)
    (key backspace : Z) (keys : list Z) :
  printable str → Z.of_nat (String.length str) < max_length - 1 →
  32 ≤ key ≤ 126 →
  backspace = KEY_BACKSPACE ∨ backspace = 127 ∨ backspace = 8 →
  get_dialog_input max_length (keys_of str ++ key :: backspace :: keys)
  = get_dialog_input max_length (keys_of str ++ keys).
Proof.
  intros Hprintable Hroom Hkey Hback.
  rewrite !dialog_input_typed by (done || lia). rewrite take_all by lia.
  rewrite dialog_loop_printable by done.
  rewrite (proj2 (Z.ltb_lt _ _)) by lia.
  rewrite typed_at_end, dialog_loop_backspace by (done || lia).
  replace (Z.of_nat (String.length str) + 1 - 1)
    with (Z.of_nat (String.length str)) by lia.
  f_equal. unfold PyStr.slice_to, PyStr.slice_from.
  rewrite !(proj2 (Z.leb_le _ _)) by lia.
  rewrite Nat2Z.id, take_app_length.
  rewrite drop_all; [apply append_empty_r|]. rewrite length_app. cbn. lia.
Qed.

End TypingExtras.

(** ** Renaming and creating by typing a name *)

Section EditExtras.
Context {FS : Type} `{FileSystem FS} `{FileSystemEdit FS}.

Lemma truthy_nonempty str :
  0 < Z.of_nat (String.length str) → PyStr.truthy str = true.
Proof. destruct str; [cbn; lia|done]. Qed.

(** The dialog of the three commands after a name that fits and Enter. *)
Lemma name_entered name key rest :
  printable name → Z.of_nat (String.length name) < 50 → is_enter key →
  get_dialog_input 50 (keys_of name ++ key :: rest) = Some (Some name, rest).
Proof.
  intros Hprintable Hfits Henter.
  rewrite dialog_input_entered by (done || lia).
  rewrite take_all by lia. done.
Qed.

Lemma refreshed_after_message (fs : FS) msg s :
  files (refresh_files fs (show_message msg s))
  = listing_of fs (dual_panel_mode s) (show_hidden s) (listed_path s).
Proof. by rewrite refresh_files_listing. Qed.

(** X27.  A name typed into the dialog of [create_directory] or
    [create_file] and entered: when [current_path / name] exists already,
    the filesystem is returned as it is, with a message; otherwise the one
    change is [mkdir] (or [touch]) of [current_path / name], and when that
    does not raise, the entries are the listing of the filesystem it
    leaves. *)
Theorem create_by_typing (name : string) (key : Z) (rest : list Z)
    (fs : FS) (s : FileManager) :
  printable name → 0 < Z.of_nat (String.length name) < 50 →
  PyStr.strip name = name → invalid_name name = false → is_enter key →
  let new := path_join (current_path s) name in
  let keys := keys_of name ++ key :: rest in
  (path_exists fs new = true →
   create_directory keys fs s
   = Some (fs, set_message ("Directory '" +:+ name +:+ "' already exists") s, rest) ∧
   create_file keys fs s
   = Some (fs, set_message ("File '" +:+ name +:+ "' already exists") s, rest)) ∧
  (path_exists fs new = false →
   (∃ s', create_directory keys fs s = Some ((path_mkdir new fs).1, s', rest) ∧
          ((path_mkdir new fs).2 = None →
           files s' = listing_of (path_mkdir new fs).1 (dual_panel_mode s)
                        (show_hidden s) (listed_path s))) ∧
   (∃ s', create_file keys fs s = Some ((path_touch new fs).1, s', rest) ∧
          ((path_touch new fs).2 = None →
           files s' = listing_of (path_touch new fs).1 (dual_panel_mode s)
                        (show_hidden s) (listed_path s)))).
Proof.
  intros Hprintable [Hsome Hfits] Hstrip Hvalid Henter. cbv zeta.
  unfold create_directory, create_file.
  rewrite (name_entered name key rest Hprintable Hfits Henter).
  unfold create_directory_on, create_file_on.
  rewrite Hstrip, (truthy_nonempty name Hsome), Hvalid.
  split; intros Hexists; rewrite Hexists; [done|].
  split.
  - destruct (path_mkdir (path_join (current_path s) name) fs) as [fs' [e|]];
      cbn [fst snd]; eexists; (split; [reflexivity|]); [done|].
    intros _. apply refreshed_after_message.
  - destruct (path_touch (path_join (current_path s) name) fs) as [fs' [e|]];
      cbn [fst snd]; eexists; (split; [reflexivity|]); [done|].
    intros _. apply refreshed_after_message.
Qed.

(** X28.  A name typed into the dialog of [rename_file] and entered, with
    an entry under the cursor: the name of the entry itself cancels; a name
    that exists in the directory is refused and the filesystem returned as
    it is; otherwise the one change is the renaming of
    [current_path / old name] to [current_path / name], and when that does
    not raise, the entries are the listing of the filesystem it leaves. *)
Theorem rename_by_typing (name : string) (key : Z) (rest : list Z)
    (fs : FS) (s : FileManager) (selected_file : Entry) :
  printable name → 0 < Z.of_nat (String.length name) < 50 →
  PyStr.strip name = name → invalid_name name = false → is_enter key →
  0 ≤ selected_index s →
  files s !! Z.to_nat (selected_index s) = Some selected_file →
  let old := path_join (current_path s) (e_name selected_file) in
  let new := path_join (current_path s) name in
  let keys := keys_of name ++ key :: rest in
  (name = e_name selected_file →
   rename_file keys fs s = Some (Ok (fs, set_message "Rename cancelled" s), rest)) ∧
  (name ≠ e_name selected_file → path_exists fs new = true →
   rename_file keys fs s
   = Some (Ok (fs, set_message ("File '" +:+ name +:+ "' already exists") s), rest)) ∧
  (name ≠ e_name selected_file → path_exists fs new = false →
   ∃ s', rename_file keys fs s = Some (Ok ((path_rename old new fs).1, s'), rest) ∧
         ((path_rename old new fs).2 = None →
          files s' = listing_of (path_rename old new fs).1 (dual_panel_mode s)
                       (show_hidden s) (listed_path s))).
Proof.
  intros Hprintable [Hsome Hfits] Hstrip Hvalid Henter Hidx Hlookup. cbv zeta.
  assert (negb (list_truthy (files s)) || (len (files s) <=? selected_index s)
          = false) as Hguard.
  { pose proof (lookup_lt_Some _ _ _ Hlookup) as Hlt.
    destruct (files s); [cbn in Hlt; lia|]. cbn [list_truthy negb orb].
    unfold len. lia. }
  assert (index_or_raise (files s) (selected_index s) = Ok selected_file) as Hentry
    by (unfold index_or_raise; by rewrite py_index_lookup, Hlookup).
  unfold rename_file. rewrite Hguard, Hentry.
  rewrite (name_entered name key rest Hprintable Hfits Henter).
  unfold rename_file_on. rewrite Hguard, Hentry. cbn [mbind result_bind].
  rewrite Hstrip, (truthy_nonempty name Hsome), Hvalid.
  split; [|split].
  - intros ->. by rewrite String.eqb_refl.
  - intros Hother Hexists. rewrite (proj2 (String.eqb_neq _ _) Hother), Hexists.
    done.
  - intros Hother Hexists. rewrite (proj2 (String.eqb_neq _ _) Hother), Hexists.
    cbn [andb negb].
    destruct (path_rename (path_join (current_path s) (e_name selected_file))
                (path_join (current_path s) name) fs) as [fs' [e|]];
      cbn [fst snd]; eexists; (split; [reflexivity|]); [done|].
    intros _. apply refreshed_after_message.
Qed.

(** X29.  ESC cancels: whatever was typed into the dialog of a search, a
    filter, a new directory, a new file or a renaming, ESC leaves the
    filesystem as it is and changes the message only; the keys after it are
    left unread.  A renaming with nothing under the cursor does not open
    the dialog at all. *)
Theorem esc_cancels_every_dialog (typed : string) (rest : list Z)
    (fs : FS) (s : FileManager) :
  printable typed →
  let keys := keys_of typed ++ 27 :: rest in
  start_search keys s = Some (set_message "Search cancelled" s, rest) ∧
  start_filter keys s = Some (set_message "Filter cancelled" s, rest) ∧
  create_directory keys fs s
  = Some (fs, set_message "Directory creation cancelled" s, rest) ∧
  create_file keys fs s = Some (fs, set_message "File creation cancelled" s, rest) ∧
  (0 ≤ selected_index s →
   rename_file keys fs s
   = match files s !! Z.to_nat (selected_index s) with
     | Some _ => Some (Ok (fs, set_message "Rename cancelled" s), rest)
     | None => Some (Ok (fs, s), keys)
     end).
Proof.
  intros Hprintable. cbv zeta.
  unfold start_search, start_filter, create_directory, create_file, rename_file.
  rewrite !dialog_input_escaped by (done || lia).
  split; [done|]. split; [done|]. split; [done|]. split; [done|].
  intros Hidx. unfold rename_file_on, index_or_raise.
  rewrite py_index_lookup by done.
  destruct (files s !! Z.to_nat (selected_index s)) as [e|] eqn:Hlookup.
  - pose proof (lookup_lt_Some _ _ _ Hlookup) as Hlt.
    assert (negb (list_truthy (files s)) || (len (files s) <=? selected_index s)
            = false) as ->; [|done].
    destruct (files s); [cbn in Hlt; lia|]. cbn [list_truthy negb orb].
    unfold len. lia.
  - apply lookup_ge_None in Hlookup.
    assert (negb (list_truthy (files s)) || (len (files s) <=? selected_index s)
            = true) as ->; [|done].
    apply orb_true_iff. right. unfold len. lia.
Qed.

End EditExtras.

(** A text given character by character is printable when each code is
    between 32 and 126. *)
Ltac printable_text :=
  unfold printable, PyStr.chars; cbn [list_ascii_of_string];
  repeat first [ apply Forall_nil_2
               | apply Forall_cons_2; [vm_compute; split; discriminate|] ].

(** [notes] and Enter typed into a dialog of at most 4 characters: the
    answer is [not]. *)
Lemma typed_text_is_returned_witness :
  printable "notes" ∧ is_enter 10 ∧
  get_dialog_input 4 (keys_of "notes" ++ [10]) = Some (Some "not", []) ∧
  get_dialog_input 4 (keys_of "notes" ++ [27]) = Some (None, []).
Proof.
  assert (1 ≤ 4) as Hmax by lia.
  assert (printable "notes") as Hprintable by printable_text.
  assert (is_enter 10) as Henter by (left; reflexivity).
  destruct (typed_text_is_returned 4 "notes" 10 [] Hmax Hprintable Henter)
    as (Hentered & Hescaped & _).
  split; [exact Hprintable|]. split; [exact Henter|].
  split; [exact Hentered|exact Hescaped].
Defined.

(** [ab], then [c] and a backspace, then [d]. *)
Lemma backspace_undoes_typing_witness :
  printable "ab" ∧
  get_dialog_input 50 (keys_of "ab" ++ [99; KEY_BACKSPACE; 100; 10])
  = get_dialog_input 50 (keys_of "ab" ++ [100; 10]).
Proof.
  assert (printable "ab") as Hprintable by printable_text.
  assert (Z.of_nat (String.length "ab") < 50 - 1) as Hroom
    by (vm_compute; reflexivity).
  assert (32 ≤ 99 ≤ 126) as Hkey by lia.
  assert (KEY_BACKSPACE = KEY_BACKSPACE ∨ KEY_BACKSPACE = 127 ∨ KEY_BACKSPACE = 8)
    as Hback by (left; reflexivity).
  split; [exact Hprintable|].
  exact (backspace_undoes_typing 50 "ab" 99 KEY_BACKSPACE [100; 10]
           Hprintable Hroom Hkey Hback).
Defined.

(** [docs] typed into the two dialogs in [/home], where no [docs] exists. *)
Lemma create_by_typing_witness :
  printable "docs" ∧ PyStr.strip "docs" = "docs" ∧ invalid_name "docs" = false ∧
  path_exists Samples.disk ["home"; "docs"] = false ∧
  (∃ s', create_directory (keys_of "docs" ++ [10]) Samples.disk Samples.home
         = Some ((path_mkdir ["home"; "docs"] Samples.disk).1, s', [])) ∧
  (∃ s', create_file (keys_of "docs" ++ [10]) Samples.disk Samples.home
         = Some ((path_touch ["home"; "docs"] Samples.disk).1, s', [])).
Proof.
  assert (printable "docs") as Hprintable by printable_text.
  assert (0 < Z.of_nat (String.length "docs") < 50) as Hlength
    by (vm_compute; split; reflexivity).
  assert (PyStr.strip "docs" = "docs") as Hstrip by (vm_compute; reflexivity).
  assert (invalid_name "docs" = false) as Hvalid by (vm_compute; reflexivity).
  assert (is_enter 10) as Henter by (left; reflexivity).
  assert (path_exists Samples.disk (path_join (current_path Samples.home) "docs")
          = false) as Hnew by (vm_compute; reflexivity).
  destruct (create_by_typing "docs" 10 [] Samples.disk Samples.home
              Hprintable Hlength Hstrip Hvalid Henter) as [_ Hcreated].
  destruct (Hcreated Hnew) as [(s1 & Hmkdir & _) (s2 & Htouch & _)].
  split; [exact Hprintable|]. split; [exact Hstrip|]. split; [exact Hvalid|].
  split; [exact Hnew|].
  split; [exists s1; exact Hmkdir|exists s2; exact Htouch].
Defined.

(** [B] typed into the rename dialog on [A], the first entry of [/home]. *)
Lemma rename_by_typing_witness :
  printable "B" ∧ invalid_name "B" = false ∧
  map e_name (files Samples.home) !! 0%nat = Some "A" ∧
  ∃ s', rename_file (keys_of "B" ++ [10]) Samples.disk Samples.home
        = Some (Ok ((path_rename ["home"; "A"] ["home"; "B"] Samples.disk).1, s'), []).
Proof.
  assert (printable "B") as Hprintable by printable_text.
  assert (0 < Z.of_nat (String.length "B") < 50) as Hlength
    by (vm_compute; split; reflexivity).
  assert (PyStr.strip "B" = "B") as Hstrip by (vm_compute; reflexivity).
  assert (invalid_name "B" = false) as Hvalid by (vm_compute; reflexivity).
  assert (is_enter 10) as Henter by (left; reflexivity).
  assert (0 ≤ selected_index Samples.home) as Hidx by (vm_compute; discriminate).
  assert (∃ e, files Samples.home !! Z.to_nat (selected_index Samples.home) = Some e
               ∧ e_name e = "A") as (e & Hlookup & Hname)
    by (eexists; split; vm_compute; reflexivity).
  assert ("B" ≠ e_name e) as Hother by (rewrite Hname; discriminate).
  assert (path_exists Samples.disk (path_join (current_path Samples.home) "B")
          = false) as Hnew by (vm_compute; reflexivity).
  destruct (rename_by_typing "B" 10 [] Samples.disk Samples.home e
              Hprintable Hlength Hstrip Hvalid Henter Hidx Hlookup)
    as (_ & _ & Hrenamed).
  destruct (Hrenamed Hother Hnew) as (s' & Hrename & _).
  rewrite Hname in Hrename.
  split; [exact Hprintable|]. split; [exact Hvalid|].
  split; [vm_compute; reflexivity|]. exists s'. exact Hrename.
Defined.

(** [oops] and ESC in [/home]. *)
Lemma esc_cancels_every_dialog_witness :
  printable "oops" ∧
  start_search (keys_of "oops" ++ [27]) Samples.home
  = Some (set_message "Search cancelled" Samples.home, []) ∧
  create_directory (keys_of "oops" ++ [27]) Samples.disk Samples.home
  = Some (Samples.disk, set_message "Directory creation cancelled" Samples.home, []).
Proof.
  assert (printable "oops") as Hprintable by printable_text.
  destruct (esc_cancels_every_dialog "oops" [] Samples.disk Samples.home Hprintable)
    as (Hsearch & _ & Hmkdir & _).
  split; [exact Hprintable|]. split; [exact Hsearch|exact Hmkdir].
Defined.

(** ** The colour of an entry *)

Section ColourExtras.

(** [mode & S_IEXEC] is not zero exactly when bit 6 of the mode is set. *)
Lemma exec_bit mode : int_truthy (Z.land mode S_IEXEC) = Z.testbit mode 6.
Proof.
  unfold int_truthy, S_IEXEC. destruct (Z.testbit mode 6) eqn:Hbit.
  - apply negb_true_iff, Z.eqb_neq. intros Hzero.
    apply (f_equal (fun n => Z.testbit n 6)) in Hzero.
    rewrite Z.land_spec, Hbit in Hzero. done.
  - apply negb_false_iff, Z.eqb_eq, Z.bits_inj'. intros n Hn.
    rewrite Z.land_spec, Z.bits_0. change 64 with (2 ^ 6).
    rewrite Z.pow2_bits_eqb by lia.
    destruct (Z.eqb_spec 6 n) as [<-|_]; [by rewrite Hbit|apply andb_false_r].
Qed.

(** X30.  Which entries are drawn as executables: an entry gets colour
    pair 2 exactly when it is not a directory (and not called [..]), the
    owner-execute bit of its mode is set, and the mode is that of neither a
    FIFO nor a symbolic link; every directory gets colour pair 1 whatever
    its mode; and a file listed with mode 0, as one whose [stat] failed is,
    is drawn without colour. *)
Theorem colour_of_an_entry (filename : string) (is_dir : bool) (mode : Z) :
  (get_file_type_color filename is_dir mode = color_pair 2
   ↔ filename ≠ ".." ∧ is_dir = false ∧ Z.testbit mode 6 = true ∧
     S_IFMT mode ≠ S_IFIFO ∧ S_IFMT mode ≠ S_IFLNK) ∧
  get_file_type_color filename true mode = color_pair 1 ∧
  (filename ≠ ".." → get_file_type_color filename false 0 = A_NORMAL).
Proof.
  split; [|split].
  - unfold get_file_type_color, S_ISFIFO, S_ISLNK. rewrite exec_bit.
    destruct (String.eqb_spec filename "..") as [->|Hname];
      [split; [discriminate|intros (Hn & _); congruence]|].
    destruct is_dir; [split; [discriminate|intros (_ & Hd & _); congruence]|].
    assert (Z.testbit mode 6 = true → int_truthy mode = true) as Hmode.
    { intros Hbit. unfold int_truthy. apply negb_true_iff, Z.eqb_neq.
      intros ->. by rewrite Z.bits_0 in Hbit. }
    destruct (Z.eqb_spec (S_IFMT mode) S_IFIFO) as [Hfifo|Hfifo];
      destruct (Z.eqb_spec (S_IFMT mode) S_IFLNK) as [Hlnk|Hlnk];
      destruct (Z.testbit mode 6) eqn:Hbit;
      try rewrite (Hmode eq_refl); cbn [andb];
      try destruct (int_truthy mode); cbn [andb];
      (split; [try discriminate; done|intros (_ & _ & ? & ? & ?); congruence]).
  - unfold get_file_type_color. by destruct (filename =? "..")%string.
  - intros Hname. unfold get_file_type_color.
    by rewrite (proj2 (String.eqb_neq _ _) Hname).
Qed.

End ColourExtras.
